(** * TestCracks: result model, suite engine, filters and JUnit report

    A shallow embedding of [src/src/testcracks.c] (with the types and the
    configuration of [src/include/testcracks.h]), the properties of the
    natural-language specification that are stated about it, and further
    properties of the code: the algebra of the results, the assertions, the
    accounting of the engine, the stored results, the report and the
    command line.

    Conventions of the embedding.
    - A C string ([const char*] pointing to a NUL-terminated buffer) is the
      [string] of its characters before the terminator; a pointer that may be
      [NULL] is an [option string].
    - [int] values are in [Z]; the counters of the engine stay far below the
      range of [int] (at most [TC_MAX_SUITES * TC_MAX_TESTS_PER_SUITE] tests
      are counted by [tc_main]), so no wrap-around is involved.  [size_t]
      subtraction wraps and is written out ([size_sub]).
    - [double] is the kernel's binary64 [float].
    - A fixed-size array is a list read by index; an [int] count beside it
      says how many entries are in use, as in the structs of the header.
    - Everything the engine does to the outside (console, files, the clock,
      the user's setup, test and teardown functions) goes through an explicit
      machine state that threads the outside world and records a trace of
      events in the order the C code performs them. *)

From Stdlib Require Import ZArith String Ascii List Lia Bool.
From Stdlib Require Import Floats.PrimFloat.
From Stdlib Require Floats.FloatAxioms Floats.SpecFloat.
From stdpp Require Import base list strings pretty.

Open Scope string_scope.
Open Scope Z_scope.

(** ** Configuration (testcracks.h, default values) *)

Definition TC_MAX_ERRORS : Z := 50.
Definition TC_MAX_MSG_LEN : Z := 512.
Definition TC_MAX_TESTS_PER_SUITE : Z := 256.
Definition TC_MAX_SUITES : Z := 64.

(** [size_t] is the 64-bit unsigned type of the LP64 platforms; [a - b] on it
    wraps around. *)
Definition SIZE_MODULUS : Z := 2 ^ 64.
Definition size_sub (a b : Z) : Z := (a - b) mod SIZE_MODULUS.

(** ** Characters and strings *)

Definition LF : string := String "010"%char EmptyString.
Definition DQUOTE : string := String "034"%char EmptyString.

(** [strlen] *)
Definition strlen (s : string) : Z := Z.of_nat (String.length s).

(** The first [n] characters of [s]: what [memcpy(dst, src, n)] followed by
    [dst[n] = 0] leaves in [dst]. *)
Fixpoint str_take (n : nat) (s : string) : string :=
  match n, s with
  | O, _ => EmptyString
  | S _, EmptyString => EmptyString
  | S n', String c s' => String c (str_take n' s')
  end.

(** [strstr(str, pattern) != NULL] *)
Fixpoint strstr (str pattern : string) : bool :=
  String.prefix pattern str
  || match str with
     | EmptyString => false
     | String _ rest => strstr rest pattern
     end.

(** [strcmp(a, b) == 0] *)
Definition strcmp0 (a b : string) : bool := String.eqb a b.

(** ** Core types (testcracks.h) *)

Inductive ResultTag : Set := TC_PASS | TC_FAIL | TC_SKIP.

Record TestError : Set := mkTestError {
  message : string;
  expected : string;
  actual : string
}.

Record TestResult : Set := mkTestResult {
  tag : ResultTag;
  errors : list TestError;   (* TestError errors[TC_MAX_ERRORS] *)
  error_count : Z;
  elapsed_ms : float
}.

Record RunSummary : Set := mkRunSummary {
  passed : Z;
  failed : Z;
  skipped : Z;
  total_ms : float
}.

#[global] Instance ResultTag_eq_dec : EqDecision ResultTag.
Proof. solve_decision. Defined.

(** ** Internal helpers *)

(** [tc__safe_copy(dst, src, max)]: the content of [dst] afterwards. *)
Definition tc__safe_copy (src : option string) (max : Z) : string :=
  match src with
  | None => EmptyString
  | Some s =>
      let len := strlen s in
      let len := if max <=? len then size_sub max 1 else len in
      str_take (Z.to_nat len) s
  end.

(** All-zero bytes, as [memset(&x, 0, sizeof(x))] leaves a struct. *)
Definition tc__zero_error : TestError :=
  {| message := EmptyString; expected := EmptyString; actual := EmptyString |}.

Definition tc__zero_result : TestResult :=
  {| tag := TC_PASS;
     errors := replicate (Z.to_nat TC_MAX_ERRORS) tc__zero_error;
     error_count := 0;
     elapsed_ms := 0%float |}.

#[global] Instance TestError_inhabited : Inhabited TestError :=
  populate tc__zero_error.
#[global] Instance TestResult_inhabited : Inhabited TestResult :=
  populate tc__zero_result.

(** [r->errors[i] = e; r->error_count++] *)
Definition tc__push_error (r : TestResult) (e : TestError) : TestResult :=
  {| tag := tag r;
     errors := <[Z.to_nat (error_count r) := e]> (errors r);
     error_count := error_count r + 1;
     elapsed_ms := elapsed_ms r |}.

Definition tc__append_error (r : TestResult)
    (msg expected actual : option string) : TestResult :=
  if error_count r <? TC_MAX_ERRORS then
    tc__push_error r
      {| message := tc__safe_copy msg TC_MAX_MSG_LEN;
         expected := tc__safe_copy expected TC_MAX_MSG_LEN;
         actual := tc__safe_copy actual TC_MAX_MSG_LEN |}
  else r.

Definition tc__set_tag (t : ResultTag) (r : TestResult) : TestResult :=
  {| tag := t; errors := errors r; error_count := error_count r;
     elapsed_ms := elapsed_ms r |}.

(** ** Result constructors *)

Definition tc_pass : TestResult := tc__set_tag TC_PASS tc__zero_result.

Definition tc_fail (msg : option string) : TestResult :=
  tc__append_error (tc__set_tag TC_FAIL tc__zero_result)
    msg (Some EmptyString) (Some EmptyString).

Definition tc_fail_with (msg expected actual : option string) : TestResult :=
  tc__append_error (tc__set_tag TC_FAIL tc__zero_result) msg expected actual.

Definition tc_skip (reason : option string) : TestResult :=
  tc__append_error (tc__set_tag TC_SKIP tc__zero_result)
    reason (Some EmptyString) (Some EmptyString).

(** ** Result predicates *)

Definition tc_is_pass (r : TestResult) : bool := bool_decide (tag r = TC_PASS).
Definition tc_is_fail (r : TestResult) : bool := bool_decide (tag r = TC_FAIL).
Definition tc_is_skip (r : TestResult) : bool := bool_decide (tag r = TC_SKIP).

(** ** Composition *)

(** One of the two copy loops of [tc_combine]:
    [for (; i < src.error_count && r.error_count < TC_MAX_ERRORS; i++)
       { r.errors[r.error_count] = src.errors[i]; r.error_count++; }].
    The loop runs at most [src.error_count] times, which is the [fuel]. *)
Fixpoint tc__combine_loop (fuel : nat) (i : nat) (src r : TestResult)
    : TestResult :=
  match fuel with
  | O => r
  | S fuel' =>
      if (Z.of_nat i <? error_count src) && (error_count r <? TC_MAX_ERRORS)
      then tc__combine_loop fuel' (S i) src
             (tc__push_error r (errors src !!! i))
      else r
  end.

Definition tc__copy_errors (src r : TestResult) : TestResult :=
  tc__combine_loop (Z.to_nat (error_count src)) 0 src r.

Definition tc_combine (a b : TestResult) : TestResult :=
  if bool_decide (tag a = TC_SKIP) then a
  else if bool_decide (tag b = TC_SKIP) then b
  else if bool_decide (tag a = TC_PASS) && bool_decide (tag b = TC_PASS) then a
  else
    let r := tc__set_tag TC_FAIL tc__zero_result in
    let r := tc__copy_errors a r in
    let r := tc__copy_errors b r in
    r.

(** ** Skip guards and the boolean assertions *)



Definition tc_assert_true (cond : bool) (msg : option string) : TestResult :=
  if cond then tc_pass else tc_fail_with msg (Some "true") (Some "false").

Definition tc_assert_false (cond : bool) (msg : option string) : TestResult :=
  if negb cond then tc_pass else tc_fail_with msg (Some "false") (Some "true").

(** ** The representation invariant of a [TestResult] *)

(** The entries in use: [errors[0 .. error_count-1]]. *)
Definition tc_errors (r : TestResult) : list TestError :=
  take (Z.to_nat (error_count r)) (errors r).

(** The array has its declared size and the count is within it. *)
Definition result_wf (r : TestResult) : Prop :=
  length (errors r) = Z.to_nat TC_MAX_ERRORS /\
  0 <= error_count r <= TC_MAX_ERRORS.

(** ** The outside world *)

(** What the engine needs from the platform and the C library: the state of
    the world its callbacks and the clock can see, the clock read by
    [tc__get_time_ms] (milliseconds), [fopen(path, "w")] (which creates or
    truncates the file, or fails), and the conversions ["%.2f"] and ["%.3f"]
    of [printf]. *)
Class Platform : Type := {
  World : Type;
  clock_ms : World -> float * World;
  fopen_w : string -> World -> option World;
  fmt_2f : float -> string;
  fmt_3f : float -> string
}.

(** The opaque environment handle (a pointer to void): an address. *)
Definition Env : Set := Z.
Definition NULL : Env := 0.

(** What the engine does to the outside, in program order. *)
Inductive Event : Set :=
| EvStdout (text : string)                (* printf *)
| EvStderr (text : string)                (* fprintf(stderr, ...) *)
| EvFopen (path : string) (ok : bool)     (* fopen(path, "w") *)
| EvFprintf (path : string) (text : string)
| EvFclose (path : string)
| EvSetup (suite : string) (ret : Z)      (* suite->setup(&env) returned ret *)
| EvTest (test : string)                  (* test->fn(env) *)
| EvTeardown (suite : string).            (* suite->teardown(env) *)

(** ANSI colors (TC_NO_COLORS not defined). *)
Definition ESC : string := String "027"%char EmptyString.
Definition TC__GREEN : string := ESC ++ "[32m".
Definition TC__RED : string := ESC ++ "[31m".
Definition TC__YELLOW : string := ESC ++ "[33m".
Definition TC__RESET : string := ESC ++ "[0m".

(** The UTF-8 bytes of the three status glyphs. *)
Definition ICON_PASS : string :=
  String "226"%char (String "156"%char (String "147"%char EmptyString)).
Definition ICON_FAIL : string :=
  String "226"%char (String "156"%char (String "151"%char EmptyString)).
Definition ICON_SKIP : string :=
  String "226"%char (String "151"%char (String "139"%char EmptyString)).

(** ["%d"] *)
Definition fmt_d (n : Z) : string := pretty n.

Section Engine.
Context `{Platform}.

(** The type [TestFn]: a function from the handle to a [TestResult]. *)
Definition TestFn : Type := Env -> World -> TestResult * World.
(** The type [SetupFn]: the return value and the handle the function left
    in its out-parameter, which holds [NULL] at the call. *)
Definition SetupFn : Type := World -> Z * Env * World.
(** The type [TeardownFn]: consumes the handle. *)
Definition TeardownFn : Type := Env -> World -> World.

Record Test : Type := mkTest {
  test_name : string;
  fn : option TestFn;
  skip_reason : option string
}.

(** [tests] holds the entries of the array that were filled in and
    [test_count] says how many of them the engine reads. *)
Record Suite : Type := mkSuite {
  suite_name : string;
  tests : list Test;
  test_count : Z;
  setup : option SetupFn;
  teardown : option TeardownFn
}.

(** [suite->tests[0 .. test_count-1]] *)
Definition suite_tests (s : Suite) : list Test :=
  take (Z.to_nat (test_count s)) (tests s).

Record Machine : Type := mkMachine {
  world : World;
  trace : list Event;
  (* static TestResult tc__results[TC_MAX_SUITES][TC_MAX_TESTS_PER_SUITE] *)
  tc__results : list (list TestResult);
  (* static int tc__result_counts[TC_MAX_SUITES] *)
  tc__result_counts : list Z
}.

Definition set_world (w : World) (m : Machine) : Machine :=
  {| world := w; trace := trace m; tc__results := tc__results m;
     tc__result_counts := tc__result_counts m |}.

Definition emit (e : Event) (m : Machine) : Machine :=
  {| world := world m; trace := trace m ++ [e];
     tc__results := tc__results m;
     tc__result_counts := tc__result_counts m |}.

Definition printf (text : string) (m : Machine) : Machine :=
  emit (EvStdout text) m.

Definition tc__get_time_ms (m : Machine) : float * Machine :=
  let '(t, w) := clock_ms (world m) in (t, set_world w m).

(** ** Suite construction *)

(** [tests] is the caller's array up to (not including) the entry whose name
    is [NULL]. *)
Definition tc_suite_with (name : string) (setup : option SetupFn)
    (teardown : option TeardownFn) (tests : list Test) : Suite :=
  let kept := take (Z.to_nat TC_MAX_TESTS_PER_SUITE) tests in
  {| suite_name := name; tests := kept; test_count := Z.of_nat (length kept);
     setup := setup; teardown := teardown |}.

Definition tc_suite (name : string) (tests : list Test) : Suite :=
  tc_suite_with name None None tests.

Definition tc_skip_test (name : string) (reason : option string) : Test :=
  {| test_name := name; fn := None; skip_reason := reason |}.

(** ** Runners *)

Definition set_elapsed (t : float) (r : TestResult) : TestResult :=
  {| tag := tag r; errors := errors r; error_count := error_count r;
     elapsed_ms := t |}.

Definition tc_run_test (test : Test) (env : Env) (m : Machine)
    : TestResult * Machine :=
  match fn test with
  | None =>
      (tc_skip (Some (match skip_reason test with
                      | Some reason => reason
                      | None => "skipped"
                      end)), m)
  | Some f =>
      let '(start, m) := tc__get_time_ms m in
      let m := emit (EvTest (test_name test)) m in
      let '(r, w) := f env (world m) in
      let m := set_world w m in
      let '(stop, m) := tc__get_time_ms m in
      (set_elapsed (PrimFloat.sub stop start) r, m)
  end.

(** The lines printed under a failed test, one error at a time. *)
Fixpoint tc__print_errors (color : string) (errs : list TestError)
    (m : Machine) : Machine :=
  match errs with
  | [] => m
  | e :: rest =>
      let m := printf ("      " ++ color ++ message e ++ TC__RESET ++ LF) m in
      let m :=
        if negb (String.eqb (expected e) EmptyString) then
          let m := printf ("        Expected: " ++ expected e ++ LF) m in
          printf ("        Actual:   " ++ actual e ++ LF) m
        else m in
      tc__print_errors color rest m
  end.

Definition tc_print_result (name : string) (result : TestResult)
    (m : Machine) : Machine :=
  let '(icon, color) :=
    match tag result with
    | TC_PASS => (ICON_PASS, TC__GREEN)
    | TC_FAIL => (ICON_FAIL, TC__RED)
    | TC_SKIP => (ICON_SKIP, TC__YELLOW)
    end in
  let m := printf ("  " ++ color ++ icon ++ " " ++ name ++ TC__RESET ++ " ("
                   ++ fmt_2f (elapsed_ms result) ++ "ms)" ++ LF) m in
  match tag result with
  | TC_FAIL => tc__print_errors color (tc_errors result) m
  | TC_SKIP =>
      if 0 <? error_count result then
        printf ("      " ++ color ++ "[" ++ message (errors result !!! 0%nat)
                ++ "]" ++ TC__RESET ++ LF) m
      else m
  | TC_PASS => m
  end.

Definition zero_summary : RunSummary :=
  {| passed := 0; failed := 0; skipped := 0; total_ms := 0%float |}.

Definition count_result (r : TestResult) (s : RunSummary) : RunSummary :=
  match tag r with
  | TC_PASS => {| passed := passed s + 1; failed := failed s;
                  skipped := skipped s; total_ms := total_ms s |}
  | TC_FAIL => {| passed := passed s; failed := failed s + 1;
                  skipped := skipped s; total_ms := total_ms s |}
  | TC_SKIP => {| passed := passed s; failed := failed s;
                  skipped := skipped s + 1; total_ms := total_ms s |}
  end.

(** [tc__results[suite_idx][i] = r; tc__result_counts[suite_idx] = i + 1],
    done only for [0 <= suite_idx < TC_MAX_SUITES]. *)
Definition tc__store_result (suite_idx : Z) (i : nat) (r : TestResult)
    (m : Machine) : Machine :=
  if (0 <=? suite_idx) && (suite_idx <? TC_MAX_SUITES) then
    {| world := world m; trace := trace m;
       tc__results := alter (fun row => <[i := r]> row) (Z.to_nat suite_idx)
                        (tc__results m);
       tc__result_counts := <[Z.to_nat suite_idx := Z.of_nat i + 1]>
                              (tc__result_counts m) |}
  else m.

(** The [for] loop over the tests of a suite, from index [i] on. *)
Fixpoint tc__run_tests (ts : list Test) (i : nat) (suite_idx : Z) (env : Env)
    (summary : RunSummary) (m : Machine) : RunSummary * Machine :=
  match ts with
  | [] => (summary, m)
  | t :: rest =>
      let '(r, m) := tc_run_test t env m in
      let m := tc_print_result (test_name t) r m in
      let m := tc__store_result suite_idx i r m in
      tc__run_tests rest (S i) suite_idx env (count_result r summary) m
  end.

Definition set_total_ms (t : float) (s : RunSummary) : RunSummary :=
  {| passed := passed s; failed := failed s; skipped := skipped s;
     total_ms := t |}.

(** [if (suite->teardown) suite->teardown(env);] *)
Definition tc__run_teardown (suite : Suite) (env : Env) (m : Machine)
    : Machine :=
  match teardown suite with
  | Some td =>
      let m := emit (EvTeardown (suite_name suite)) m in
      set_world (td env (world m)) m
  | None => m
  end.

(** [tc__run_suite_ex] from the loop over the tests on; [start] is the time
    read at its beginning. *)
Definition tc__run_suite_body (suite : Suite) (suite_idx : Z) (start : float)
    (env : Env) (m : Machine) : RunSummary * Machine :=
  let '(summary, m) :=
    tc__run_tests (suite_tests suite) 0 suite_idx env zero_summary m in
  let m := tc__run_teardown suite env m in
  let '(stop, m) := tc__get_time_ms m in
  let summary := set_total_ms (PrimFloat.sub stop start) summary in
  let m := printf ("  (" ++ fmt_2f (total_ms summary) ++ "ms)" ++ LF) m in
  (summary, m).

Definition tc__run_suite_ex (suite : Suite) (suite_idx : Z) (m : Machine)
    : RunSummary * Machine :=
  let '(start, m) := tc__get_time_ms m in
  let m := printf (LF ++ "=== " ++ suite_name suite ++ " ===" ++ LF) m in
  match setup suite with
  | Some su =>
      let '(ret, env, w) := su (world m) in
      let m := set_world w (emit (EvSetup (suite_name suite) ret) m) in
      if negb (ret =? 0) then
        let m := printf ("  " ++ TC__RED ++ ICON_FAIL
                         ++ " Setup failed (returned " ++ fmt_d ret ++ ")"
                         ++ TC__RESET ++ LF) m in
        ({| passed := 0; failed := test_count suite; skipped := 0;
            total_ms := 0%float |}, m)
      else tc__run_suite_body suite suite_idx start env m
  | None => tc__run_suite_body suite suite_idx start NULL m
  end.

Definition tc_run_suite (suite : Suite) (m : Machine) : RunSummary * Machine :=
  tc__run_suite_ex suite (-1) m.

(** The [for] loop of [tc__run_all_ex] over the suites, from index [i] on. *)
Fixpoint tc__run_suites (suites : list Suite) (i : nat) (store_results : bool)
    (total : RunSummary) (m : Machine) : RunSummary * Machine :=
  match suites with
  | [] => (total, m)
  | suite :: rest =>
      let '(s, m) :=
        tc__run_suite_ex suite (if store_results then Z.of_nat i else -1) m in
      let total :=
        {| passed := passed total + passed s;
           failed := failed total + failed s;
           skipped := skipped total + skipped s;
           total_ms := total_ms total |} in
      tc__run_suites rest (S i) store_results total m
  end.

(** [memset(tc__result_counts, 0, sizeof(tc__result_counts))] *)
Definition tc__reset_counts (m : Machine) : Machine :=
  {| world := world m; trace := trace m; tc__results := tc__results m;
     tc__result_counts := replicate (Z.to_nat TC_MAX_SUITES) 0 |}.

Definition tc__run_all_ex (suites : list Suite) (store_results : bool)
    (m : Machine) : RunSummary * Machine :=
  let m := tc__reset_counts m in
  let '(start, m) := tc__get_time_ms m in
  let '(total, m) := tc__run_suites suites 0 store_results zero_summary m in
  let '(stop, m) := tc__get_time_ms m in
  (set_total_ms (PrimFloat.sub stop start) total, m).

Definition tc_run_all (suites : list Suite) (m : Machine)
    : RunSummary * Machine :=
  tc__run_all_ex suites true m.

Definition tc_print_summary (summary : RunSummary) (m : Machine)
    : Z * Machine :=
  let total := passed summary + failed summary + skipped summary in
  let m := printf LF m in
  let m := if failed summary =? 0 then printf TC__GREEN m
           else printf TC__RED m in
  let m := printf (fmt_d (passed summary) ++ "/" ++ fmt_d total ++ " passed") m in
  let m := if 0 <? failed summary
           then printf (", " ++ fmt_d (failed summary) ++ " failed") m else m in
  let m := if 0 <? skipped summary
           then printf (", " ++ fmt_d (skipped summary) ++ " skipped") m
           else m in
  let m := printf (" (" ++ fmt_2f (total_ms summary) ++ "ms)" ++ TC__RESET
                   ++ LF) m in
  (if 0 <? failed summary then 1 else 0, m).

End Engine.

(** ** JUnit XML output *)

(** The text one source character is replaced by (the [switch] of
    [tc__xml_escape]). *)
Definition xml_entity (c : ascii) : string :=
  if Ascii.eqb c "&"%char then "&amp;"
  else if Ascii.eqb c "<"%char then "&lt;"
  else if Ascii.eqb c ">"%char then "&gt;"
  else if Ascii.eqb c "034"%char then "&quot;"
  else if Ascii.eqb c "'"%char then "&apos;"
  else String c EmptyString.

(** The loop of [tc__xml_escape]: [src] is what is left to read, [di] the
    number of characters written so far. *)
Fixpoint tc__xml_escape_loop (src : string) (max di : Z) : string :=
  match src with
  | EmptyString => EmptyString
  | String c rest =>
      if di <? size_sub max 6 then
        let e := xml_entity c in
        e ++ tc__xml_escape_loop rest max (di + strlen e)
      else EmptyString
  end.

(** [tc__xml_escape(dst, src, max)]: the content of [dst] afterwards. *)
Definition tc__xml_escape (src : option string) (max : Z) : string :=
  match src with
  | None => EmptyString
  | Some s => tc__xml_escape_loop s max 0
  end.

(** [sizeof(escaped)], [sizeof(msg_escaped)] and [sizeof(detail)] *)
Definition ESCAPED_SIZE : Z := TC_MAX_MSG_LEN * 2.
Definition DETAIL_SIZE : Z := TC_MAX_MSG_LEN * 4.

(** [pos += snprintf(detail + pos, sizeof(detail) - pos, ...)] where [text]
    is the formatted output.  [snprintf] stores at most [size - 1] characters
    and returns the length of the whole [text].  Once [pos] has passed the
    size of the buffer the [size_t] difference wraps around and the call
    writes outside of [detail]: the behaviour is undefined ([None]). *)
Definition tc__detail_snprintf (text : string) (st : string * Z)
    : option (string * Z) :=
  let '(detail, pos) := st in
  let size := DETAIL_SIZE - pos in
  if size <? 0 then None
  else if size =? 0 then Some (detail, pos + strlen text)
  else Some (str_take (Z.to_nat pos) detail
               ++ str_take (Z.to_nat (size - 1)) text,
             pos + strlen text).

(** The loop that fills [detail] for a failed test. *)
Fixpoint tc__detail_loop (errs : list TestError) (st : string * Z)
    : option (string * Z) :=
  match errs with
  | [] => Some st
  | e :: rest =>
      if snd st <? DETAIL_SIZE - 100 then
        st ← tc__detail_snprintf
               (tc__xml_escape (Some (message e)) ESCAPED_SIZE ++ LF) st;
        st ← (if negb (String.eqb (expected e) EmptyString) then
                st ← tc__detail_snprintf
                       ("  Expected: "
                        ++ tc__xml_escape (Some (expected e)) ESCAPED_SIZE
                        ++ LF) st;
                tc__detail_snprintf
                  ("  Actual:   "
                   ++ tc__xml_escape (Some (actual e)) ESCAPED_SIZE ++ LF) st
              else Some st);
        tc__detail_loop rest st
      else Some st
  end.

(** The tallies of the first inner loop of [tc_write_junit_xml]:
    passed, failed, skipped and the sum of the elapsed times. *)
Fixpoint tc__xml_tally (rs : list TestResult) (acc : Z * Z * Z * float)
    : Z * Z * Z * float :=
  match rs with
  | [] => acc
  | r :: rest =>
      let '(p, f, s, t) := acc in
      let t := PrimFloat.add t (elapsed_ms r) in
      tc__xml_tally rest
        match tag r with
        | TC_PASS => (p + 1, f, s, t)
        | TC_FAIL => (p, f + 1, s, t)
        | TC_SKIP => (p, f, s + 1, t)
        end
  end.

Definition ms_to_s (t : float) : float := PrimFloat.div t 1000%float.

Section Report.
Context `{Platform}.

(** What is written for one test: the pieces passed to [fprintf], in
    order. *)
Definition tc__xml_testcase (name : string) (r : TestResult)
    : option (list string) :=
  let escaped := tc__xml_escape (Some name) ESCAPED_SIZE in
  match tag r with
  | TC_PASS =>
      Some ["        <testcase name=" ++ DQUOTE ++ escaped ++ DQUOTE
            ++ " time=" ++ DQUOTE ++ fmt_3f (ms_to_s (elapsed_ms r)) ++ DQUOTE
            ++ "/>" ++ LF]
  | TC_FAIL =>
      let open :=
        "        <testcase name=" ++ DQUOTE ++ escaped ++ DQUOTE
        ++ " time=" ++ DQUOTE ++ fmt_3f (ms_to_s (elapsed_ms r)) ++ DQUOTE
        ++ ">" ++ LF in
      body ← (if 0 <? error_count r then
                let msg_escaped :=
                  tc__xml_escape (Some (message (errors r !!! 0%nat)))
                    ESCAPED_SIZE in
                '(detail, _) ← tc__detail_loop (tc_errors r) (EmptyString, 0);
                Some ["            <failure message=" ++ DQUOTE ++ msg_escaped
                      ++ DQUOTE ++ " type=" ++ DQUOTE ++ "AssertionError"
                      ++ DQUOTE ++ ">" ++ detail ++ "</failure>" ++ LF]
              else Some []);
      let close := "        </testcase>" ++ LF in
      Some (open :: body ++ [close])%list
  | TC_SKIP =>
      Some ["        <testcase name=" ++ DQUOTE ++ escaped ++ DQUOTE
            ++ " time=" ++ DQUOTE ++ "0" ++ DQUOTE ++ ">" ++ LF;
            if 0 <? error_count r then
              "            <skipped message=" ++ DQUOTE
              ++ tc__xml_escape (Some (message (errors r !!! 0%nat)))
                   ESCAPED_SIZE
              ++ DQUOTE ++ "/>" ++ LF
            else "            <skipped/>" ++ LF;
            "        </testcase>" ++ LF]
  end.

(** The second inner loop: test [j] of the suite with stored result [j],
    for [j] below both [tc__result_counts[i]] and [suite->test_count]. *)
Fixpoint tc__xml_testcases (ts : list Test) (rs : list TestResult)
    : option (list string) :=
  match ts, rs with
  | t :: ts', r :: rs' =>
      one ← tc__xml_testcase (test_name t) r;
      more ← tc__xml_testcases ts' rs';
      Some (one ++ more)%list
  | _, _ => Some []
  end.

Definition tc__xml_suite_open (name : string) (n_tests n_failed n_skipped : Z)
    (time : float) : string :=
  "    <testsuite name=" ++ DQUOTE ++ tc__xml_escape (Some name) ESCAPED_SIZE
  ++ DQUOTE ++ " tests=" ++ DQUOTE ++ fmt_d n_tests ++ DQUOTE
  ++ " failures=" ++ DQUOTE ++ fmt_d n_failed ++ DQUOTE
  ++ " errors=" ++ DQUOTE ++ "0" ++ DQUOTE
  ++ " skipped=" ++ DQUOTE ++ fmt_d n_skipped ++ DQUOTE
  ++ " time=" ++ DQUOTE ++ fmt_3f (ms_to_s time) ++ DQUOTE ++ ">" ++ LF.

(** What is written for suite number [i].  Reading [tc__result_counts[i]]
    outside of the array (more than [TC_MAX_SUITES] suites) is undefined
    ([None]); row [i] of [tc__results] is then read below that count. *)
Definition tc__xml_suite (i : nat) (suite : Suite) (m : Machine)
    : option (list string) :=
  count ← tc__result_counts m !! i;
  let row := tc__results m !!! i in
  let stored := take (Z.to_nat count) row in
  let '(suite_passed, suite_failed, suite_skipped, suite_time) :=
    tc__xml_tally stored (0, 0, 0, 0%float) in
  cases ← tc__xml_testcases (suite_tests suite) stored;
  let open :=
    tc__xml_suite_open (suite_name suite)
      (suite_passed + suite_failed + suite_skipped)
      suite_failed suite_skipped suite_time in
  let close := "    </testsuite>" ++ LF in
  Some (open :: cases ++ [close])%list.

(** The outer loop, from suite number [i] on. *)
Fixpoint tc__xml_suites (suites : list Suite) (i : nat) (m : Machine)
    : option (list string) :=
  match suites with
  | [] => Some []
  | suite :: rest =>
      one ← tc__xml_suite i suite m;
      more ← tc__xml_suites rest (S i) m;
      Some (one ++ more)%list
  end.

Definition tc__xml_root_open (summary : RunSummary) : string :=
  "<testsuites tests=" ++ DQUOTE
  ++ fmt_d (passed summary + failed summary + skipped summary) ++ DQUOTE
  ++ " failures=" ++ DQUOTE ++ fmt_d (failed summary) ++ DQUOTE
  ++ " errors=" ++ DQUOTE ++ "0" ++ DQUOTE
  ++ " skipped=" ++ DQUOTE ++ fmt_d (skipped summary) ++ DQUOTE
  ++ " time=" ++ DQUOTE ++ fmt_3f (ms_to_s (total_ms summary)) ++ DQUOTE
  ++ ">" ++ LF.

(** Everything [tc_write_junit_xml] passes to [fprintf(f, ...)]. *)
Definition tc__xml_document (suites : list Suite) (summary : RunSummary)
    (m : Machine) : option (list string) :=
  body ← tc__xml_suites suites 0 m;
  let declaration :=
    "<?xml version=" ++ DQUOTE ++ "1.0" ++ DQUOTE ++ " encoding=" ++ DQUOTE
    ++ "UTF-8" ++ DQUOTE ++ "?>" ++ LF in
  let close := "</testsuites>" ++ LF in
  Some (declaration :: tc__xml_root_open summary :: body ++ [close])%list.

Definition fprintf_all (path : string) (pieces : list string) (m : Machine)
    : Machine :=
  fold_left (fun m text => emit (EvFprintf path text) m) pieces m.

Definition tc_write_junit_xml (filename : string) (suites : list Suite)
    (summary : RunSummary) (m : Machine) : option (Z * Machine) :=
  match fopen_w filename (world m) with
  | None =>
      let m := emit (EvFopen filename false) m in
      let m := emit (EvStderr ("Error: Cannot open file '" ++ filename
                               ++ "' for writing" ++ LF)) m in
      Some (-1, m)
  | Some w =>
      let m := set_world w (emit (EvFopen filename true) m) in
      pieces ← tc__xml_document suites summary m;
      let m := fprintf_all filename pieces m in
      let m := emit (EvFclose filename) m in
      Some (0, m)
  end.

(** ** Command line *)

Definition tc__print_help (prog : string) (m : Machine) : Machine :=
  let m := printf ("Usage: " ++ prog ++ " [options]" ++ LF) m in
  let m := printf (LF ++ "Options:" ++ LF) m in
  let m := printf ("  --help                  Show this help" ++ LF) m in
  let m := printf ("  --list                  List all tests" ++ LF) m in
  let m := printf ("  --suite " ++ DQUOTE ++ "name" ++ DQUOTE
                   ++ "          Run specific suite" ++ LF) m in
  let m := printf ("  --test " ++ DQUOTE ++ "suite" ++ DQUOTE ++ " " ++ DQUOTE
                   ++ "test" ++ DQUOTE ++ "   Run specific test" ++ LF) m in
  let m := printf ("  --match " ++ DQUOTE ++ "pattern" ++ DQUOTE
                   ++ "       Run tests matching pattern" ++ LF) m in
  printf ("  --xml " ++ DQUOTE ++ "file" ++ DQUOTE
          ++ "            Output results as JUnit XML" ++ LF) m.

Fixpoint tc__list_suite_tests (ts : list Test) (m : Machine) : Machine :=
  match ts with
  | [] => m
  | t :: rest =>
      let status := match fn t with Some _ => EmptyString | None => " [skip]" end in
      tc__list_suite_tests rest
        (printf ("  - " ++ test_name t ++ status ++ LF) m)
  end.

Fixpoint tc__list_tests (suites : list Suite) (m : Machine) : Machine :=
  match suites with
  | [] => m
  | s :: rest =>
      let m := printf (suite_name s ++ ":" ++ LF) m in
      tc__list_tests rest (tc__list_suite_tests (suite_tests s) m)
  end.

Definition tc__matches (str pattern : string) : bool := strstr str pattern.

(** The local variables the argument loop of [tc_main] sets. *)
Record Options : Set := mkOptions {
  suite_filter : option string;
  test_filter : option string;
  match_filter : option string;
  xml_file : option string;
  list_only : bool
}.

Definition no_options : Options :=
  {| suite_filter := None; test_filter := None; match_filter := None;
     xml_file := None; list_only := false |}.

(** The outcome of the argument loop: it returns from [tc_main] at
    [--help] or [-h], and otherwise runs to the end of [argv]. *)
Inductive Parsed : Set :=
| ParseHelp
| ParseRun (o : Options).

(** The argument loop, [args] being [argv[i ..]]. *)
Fixpoint tc__parse_args (args : list string) (o : Options) : Parsed :=
  match args with
  | [] => ParseRun o
  | a :: rest =>
      if strcmp0 a "--help" || strcmp0 a "-h" then ParseHelp
      else if strcmp0 a "--list" then
        tc__parse_args rest
          {| suite_filter := suite_filter o; test_filter := test_filter o;
             match_filter := match_filter o; xml_file := xml_file o;
             list_only := true |}
      else
        match strcmp0 a "--suite", rest with
        | true, v :: rest' =>
            tc__parse_args rest'
              {| suite_filter := Some v; test_filter := test_filter o;
                 match_filter := match_filter o; xml_file := xml_file o;
                 list_only := list_only o |}
        | _, _ =>
        match strcmp0 a "--test", rest with
        | true, v1 :: v2 :: rest' =>
            tc__parse_args rest'
              {| suite_filter := Some v1; test_filter := Some v2;
                 match_filter := match_filter o; xml_file := xml_file o;
                 list_only := list_only o |}
        | _, _ =>
        match strcmp0 a "--match", rest with
        | true, v :: rest' =>
            tc__parse_args rest'
              {| suite_filter := suite_filter o; test_filter := test_filter o;
                 match_filter := Some v; xml_file := xml_file o;
                 list_only := list_only o |}
        | _, _ =>
        match strcmp0 a "--xml", rest with
        | true, v :: rest' =>
            tc__parse_args rest'
              {| suite_filter := suite_filter o; test_filter := test_filter o;
                 match_filter := match_filter o; xml_file := Some v;
                 list_only := list_only o |}
        | _, _ => tc__parse_args rest o
        end end end end
  end.

(** [filter && tc__matches(name, filter)] for an optional filter. *)
Definition tc__filter_hit (filter : option string) (name : string) : bool :=
  match filter with
  | Some pattern => tc__matches name pattern
  | None => false
  end.

(** The inner loop of the filter: the tests copied to [temp]. *)
Fixpoint tc__filter_tests (o : Options) (ts : list Test) : list Test :=
  match ts with
  | [] => []
  | t :: rest =>
      let include := false in
      let include :=
        if tc__filter_hit (test_filter o) (test_name t) then true else include in
      let include :=
        if tc__filter_hit (match_filter o) (test_name t) then true else include in
      if include then t :: tc__filter_tests o rest
      else tc__filter_tests o rest
  end.

(** The suite [temp] built from a suite when a test or match filter is
    set: same name, setup and teardown, the tests that were copied. *)
Definition tc__filtered_suite (o : Options) (s : Suite) : Suite :=
  let kept := tc__filter_tests o (suite_tests s) in
  {| suite_name := suite_name s; tests := kept;
     test_count := Z.of_nat (length kept);
     setup := setup s; teardown := teardown s |}.

(** The outer loop of the filter: [filtered] holds the [count] suites
    selected so far. *)
Fixpoint tc__filter_suites (o : Options) (suites filtered : list Suite)
    : list Suite :=
  match suites with
  | [] => filtered
  | s :: rest =>
      if Z.of_nat (length filtered) <? TC_MAX_SUITES then
        if match suite_filter o with
           | Some sf => negb (tc__matches (suite_name s) sf)
           | None => false
           end
        then tc__filter_suites o rest filtered
        else if bool_decide (is_Some (test_filter o))
                || bool_decide (is_Some (match_filter o)) then
          let temp := tc__filtered_suite o s in
          if 0 <? test_count temp
          then tc__filter_suites o rest (filtered ++ [temp])
          else tc__filter_suites o rest filtered
        else tc__filter_suites o rest (filtered ++ [s])
      else filtered
  end.

(** [tc_main] from the filter on. *)
Definition tc__main_run (o : Options) (suites : list Suite) (m : Machine)
    : option (Z * Machine) :=
  let filtered := tc__filter_suites o suites [] in
  if Z.of_nat (length filtered) =? 0 then
    Some (1, printf ("No tests matched filters." ++ LF) m)
  else
    let '(summary, m) := tc__run_all_ex filtered true m in
    m ← match xml_file o with
        | Some path =>
            '(ret, m) ← tc_write_junit_xml path filtered summary m;
            Some (if ret =? 0
                  then printf (LF ++ "Results written to " ++ path ++ LF) m
                  else m)
        | None => Some m
        end;
    Some (tc_print_summary summary m).

(** The machine after [f = fopen(xml_file, "w")] succeeded, leaving [w], and
    [fclose(f)]: the report file exists and is empty. *)
Definition tc__precreated (path : string) (w : World) (m : Machine) : Machine :=
  emit (EvFclose path) (set_world w (emit (EvFopen path true) m)).

(** [tc_main] after the argument loop. *)
Definition tc__main_parsed (o : Options) (suites : list Suite) (m : Machine)
    : option (Z * Machine) :=
  let continue (m : Machine) :=
    if list_only o then Some (0, tc__list_tests suites m)
    else tc__main_run o suites m in
  match xml_file o with
  | Some path =>
      match fopen_w path (world m) with
      | None =>
          let m := emit (EvFopen path false) m in
          Some (1, emit (EvStderr ("Error: Cannot create XML file '" ++ path
                                   ++ "'" ++ LF)) m)
      | Some w => continue (tc__precreated path w m)
      end
  | None => continue m
  end.

(** [tc_main(argc, argv, suites)]: the exit code and the machine afterwards,
    [None] when the run has undefined behaviour. *)
Definition tc_main (argv : list string) (suites : list Suite) (m : Machine)
    : option (Z * Machine) :=
  match tc__parse_args (tail argv) no_options with
  | ParseHelp => Some (0, tc__print_help (hd EmptyString argv) m)
  | ParseRun o => tc__main_parsed o suites m
  end.

End Report.

(** ** Auxiliary notions used in the statements *)

(** The machine and the totals of [tc__run_all_ex(suites, 1)] at the point
    where it has run the suites [pre], the first ones of [suites]. *)
Definition tc__run_all_upto `{Platform} (pre : list Suite) (m : Machine)
    : RunSummary * Machine :=
  tc__run_suites pre 0 true zero_summary
    (snd (tc__get_time_ms (tc__reset_counts m))).

(** Relations between the machine before and after a piece of the engine:
    the trace only grows; the stored results are untouched; the stored
    counts of the suites other than number [idx] are untouched. *)
Definition extends `{Platform} (m m' : Machine) : Prop :=
  trace m `prefix_of` trace m'.

Definition same_store `{Platform} (m m' : Machine) : Prop :=
  tc__result_counts m' = tc__result_counts m /\
  tc__results m' = tc__results m.

Definition others_kept `{Platform} (idx : Z) (m m' : Machine) : Prop :=
  forall k : nat,
    Z.of_nat k <> idx -> tc__result_counts m' !! k = tc__result_counts m !! k.

(** A piece of the engine that only prints, reads the clock or calls user
    code; and one that may also store results for suite number [idx]. *)
Definition quiet `{Platform} (m m' : Machine) : Prop :=
  extends m m' /\ same_store m m'.

Definition frame `{Platform} (idx : Z) (m m' : Machine) : Prop :=
  extends m m' /\ others_kept idx m m'.

(** The events that are calls of user code. *)
Definition is_user_call (e : Event) : bool :=
  match e with
  | EvSetup _ _ | EvTest _ | EvTeardown _ => true
  | _ => false
  end.

(** The calls of user code among some events, in order. *)
Definition user_calls (evs : list Event) : list Event :=
  List.filter is_user_call evs.

(** From [m] to [m'] the trace grew by events whose calls of user code are
    [calls]. *)
Definition calls_between `{Platform} (m m' : Machine) (calls : list Event)
    : Prop :=
  exists evs : list Event,
    trace m' = (trace m ++ evs)%list /\ user_calls evs = calls.

(** The call a test makes when it is run: none for a static skip. *)
Definition test_calls `{Platform} (t : Test) : list Event :=
  match fn t with
  | Some _ => [EvTest (test_name t)]
  | None => []
  end.

(** The calls a suite without setup makes when it is run: its tests in
    order, then its teardown. *)
Definition suite_calls `{Platform} (s : Suite) : list Event :=
  (concat (map test_calls (suite_tests s))
   ++ match teardown s with
      | Some _ => [EvTeardown (suite_name s)]
      | None => []
      end)%list.

(** [m1] is the machine in which [tc_main] goes on after the report file
    named by the options, if any, was created. *)
Definition xml_ready `{Platform} (o : Options) (m m1 : Machine) : Prop :=
  match xml_file o with
  | None => m1 = m
  | Some path =>
      exists w : World,
        fopen_w path (world m) = Some w /\ m1 = tc__precreated path w m
  end.

(** Whether the filter loop of [tc_main] copies a test: its name contains
    the test filter or the match filter. *)
Definition tc__test_selected `{Platform} (o : Options) (t : Test) : bool :=
  tc__filter_hit (test_filter o) (test_name t)
  || tc__filter_hit (match_filter o) (test_name t).

(** Whether the filter loop of [tc_main] selects a suite: its name contains
    the suite filter, if one is set, and, if a test or match filter is set,
    at least one of its tests is copied. *)
Definition tc__suite_selected `{Platform} (o : Options) (s : Suite) : bool :=
  match suite_filter o with
  | Some sf => tc__matches (suite_name s) sf
  | None => true
  end
  && (if bool_decide (is_Some (test_filter o))
         || bool_decide (is_Some (match_filter o))
      then 0 <? test_count (tc__filtered_suite o s)
      else true).

(** A suite that the filter of [tc_main] passes on as it is, or trimmed. *)
Definition tc__selected_suite `{Platform} (o : Options) (s : Suite) : Suite :=
  if bool_decide (is_Some (test_filter o))
     || bool_decide (is_Some (match_filter o))
  then tc__filtered_suite o s
  else s.

(** The events that run a test function or a teardown function. *)
Definition is_test_or_teardown (e : Event) : bool :=
  match e with
  | EvTest _ | EvTeardown _ => true
  | _ => false
  end.

(** The escaped form of a whole string, with no limit on its length. *)
Fixpoint xml_escape_all (s : string) : string :=
  match s with
  | EmptyString => EmptyString
  | String c rest => xml_entity c ++ xml_escape_all rest
  end.

(** Reference decoder for the round trip: what an XML parser makes of
    escaped text, as far as the five named entities go.  [skip] counts the
    characters of an entity that was already decoded. *)
Fixpoint xml_unescape_from (skip : nat) (s : string) : string :=
  match s with
  | EmptyString => EmptyString
  | String c rest =>
      match skip with
      | S k => xml_unescape_from k rest
      | O =>
          if String.prefix "&amp;" s then String "&"%char (xml_unescape_from 4 rest)
          else if String.prefix "&lt;" s then String "<"%char (xml_unescape_from 3 rest)
          else if String.prefix "&gt;" s then String ">"%char (xml_unescape_from 3 rest)
          else if String.prefix "&quot;" s then String "034"%char (xml_unescape_from 5 rest)
          else if String.prefix "&apos;" s then String "'"%char (xml_unescape_from 5 rest)
          else String c (xml_unescape_from 0 rest)
      end
  end.

Definition xml_unescape (s : string) : string := xml_unescape_from 0 s.

(** [n] copies of a character. *)
Fixpoint str_repeat (c : ascii) (n : nat) : string :=
  match n with
  | O => EmptyString
  | S n' => String c (str_repeat c n')
  end.

(** ** A concrete platform and concrete inputs, for the examples *)

(** The world is the log of what user code did; the clock is stopped; every
    file can be created except ["/readonly/report.xml"]. *)
Definition demo_platform : Platform :=
  {| World := list string;
     clock_ms := fun w => (0%float, w);
     fopen_w := fun path w =>
       if String.eqb path "/readonly/report.xml" then None else Some w;
     fmt_2f := fun _ => "0.00";
     fmt_3f := fun _ => "0.000" |}.

Definition demo_machine : @Machine demo_platform :=
  @mkMachine demo_platform ([] : list string) []
    (replicate (Z.to_nat TC_MAX_SUITES)
       (replicate (Z.to_nat TC_MAX_TESTS_PER_SUITE) tc__zero_result))
    (replicate (Z.to_nat TC_MAX_SUITES) 0).

Definition demo_passing : @TestFn demo_platform :=
  fun _ w => (tc_pass, (w ++ ["test ran"])%list).

Definition demo_failing_setup : @SetupFn demo_platform :=
  fun w => (3, NULL, (w ++ ["setup ran"])%list).

Definition demo_teardown : @TeardownFn demo_platform :=
  fun _ w => (w ++ ["teardown ran"])%list.

Definition demo_broken_suite : @Suite demo_platform :=
  @tc_suite_with demo_platform "broken"
    (Some demo_failing_setup) (Some demo_teardown)
    [@mkTest demo_platform "t1" (Some demo_passing) None;
     @mkTest demo_platform "t2" (Some demo_passing) None].

Definition demo_suite_A : @Suite demo_platform :=
  @tc_suite demo_platform "A"
    [@mkTest demo_platform "t1" (Some demo_passing) None;
     @mkTest demo_platform "t2" (Some demo_passing) None].

Definition demo_suite_A10 : @Suite demo_platform :=
  @tc_suite demo_platform "A"
    [@mkTest demo_platform "t1" (Some demo_passing) None;
     @mkTest demo_platform "t10" (Some demo_passing) None].

Definition demo_suite_AB : @Suite demo_platform :=
  @tc_suite demo_platform "AB"
    [@mkTest demo_platform "t1" (Some demo_passing) None].

Definition demo_suite_B : @Suite demo_platform :=
  @tc_suite demo_platform "B"
    [@mkTest demo_platform "t3" (Some demo_passing) None].

(** ** Assertions *)

(** The ranges of [int], [long] and [size_t] (LP64). *)
Definition INT_MIN : Z := - 2 ^ 31.
Definition INT_MAX : Z := 2 ^ 31 - 1.
Definition LONG_MIN : Z := - 2 ^ 63.
Definition LONG_MAX : Z := 2 ^ 63 - 1.
Definition SIZE_MAX : Z := SIZE_MODULUS - 1.

(** [snprintf(buf, size, ...)] where [text] is the formatted output: the
    content of [buf] afterwards, at most [size - 1] characters. *)
Definition tc__snprintf (size : Z) (text : string) : string :=
  str_take (Z.to_nat (size - 1)) text.

(** ["%ld"] and ["%zu"]: decimal digits, as ["%d"]. *)
Definition fmt_ld (n : Z) : string := pretty n.
Definition fmt_zu (n : Z) : string := pretty n.

Definition tc_assert_equal_int (expected actual : Z) (msg : option string)
    : TestResult :=
  if expected =? actual then tc_pass
  else
    let exp := tc__snprintf 32 (fmt_d expected) in
    let act := tc__snprintf 32 (fmt_d actual) in
    tc_fail_with msg (Some exp) (Some act).


Definition tc_assert_equal_long (expected actual : Z) (msg : option string)
    : TestResult :=
  if expected =? actual then tc_pass
  else
    let exp := tc__snprintf 32 (fmt_ld expected) in
    let act := tc__snprintf 32 (fmt_ld actual) in
    tc_fail_with msg (Some exp) (Some act).


Definition tc_assert_equal_size (expected actual : Z) (msg : option string)
    : TestResult :=
  if expected =? actual then tc_pass
  else
    let exp := tc__snprintf 32 (fmt_zu expected) in
    let act := tc__snprintf 32 (fmt_zu actual) in
    tc_fail_with msg (Some exp) (Some act).


(** What [printf] makes of a string argument of ["%s"] that may be [NULL],
    as the code writes it out: [expected ? expected : "(null)"]. *)
Definition tc__or_null (s : option string) : string :=
  match s with
  | Some text => text
  | None => "(null)"
  end.

Definition tc_assert_equal_str (expected actual : option string)
    (msg : option string) : TestResult :=
  let exp_str := tc__or_null expected in
  let act_str := tc__or_null actual in
  match expected, actual with
  | None, None => tc_pass
  | None, Some _ | Some _, None => tc_fail_with msg (Some exp_str) (Some act_str)
  | Some e, Some a =>
      if strcmp0 e a then tc_pass
      else tc_fail_with msg (Some exp_str) (Some act_str)
  end.

Definition tc_assert_not_equal_str (unexpected actual : option string)
    (msg : option string) : TestResult :=
  let act_str := tc__or_null actual in
  match unexpected, actual with
  | None, None =>
      let exp := tc__snprintf TC_MAX_MSG_LEN "not (null)" in
      tc_fail_with msg (Some exp) (Some act_str)
  | None, Some _ | Some _, None => tc_pass
  | Some u, Some a =>
      if negb (strcmp0 u a) then tc_pass
      else
        let exp := tc__snprintf TC_MAX_MSG_LEN
                     ("not " ++ DQUOTE ++ u ++ DQUOTE) in
        tc_fail_with msg (Some exp) (Some act_str)
  end.

(** The assertions on pointers and on [double]s print with ["%p"] and
    ["%g"], whose output is the C library's: the two conversions are
    parameters.  A pointer is its address, as [Env]. *)
Section FormattedAssertions.
Variable fmt_p : Z -> string.
Variable fmt_g : float -> string.





Definition tc_assert_equal_double (expected actual : float)
    (msg : option string) : TestResult :=
  if PrimFloat.eqb expected actual then tc_pass
  else
    let exp := tc__snprintf 32 (fmt_g expected) in
    let act := tc__snprintf 32 (fmt_g actual) in
    tc_fail_with msg (Some exp) (Some act).


Definition tc_assert_greater_double (actual than : float)
    (msg : option string) : TestResult :=
  if PrimFloat.ltb than actual then tc_pass
  else
    let exp := tc__snprintf 32 ("> " ++ fmt_g than) in
    let act := tc__snprintf 32 (fmt_g actual) in
    tc_fail_with msg (Some exp) (Some act).

Definition tc_assert_greater_or_equal_double (actual than : float)
    (msg : option string) : TestResult :=
  if PrimFloat.leb than actual then tc_pass
  else
    let exp := tc__snprintf 32 (">= " ++ fmt_g than) in
    let act := tc__snprintf 32 (fmt_g actual) in
    tc_fail_with msg (Some exp) (Some act).

Definition tc_assert_less_double (actual than : float)
    (msg : option string) : TestResult :=
  if PrimFloat.ltb actual than then tc_pass
  else
    let exp := tc__snprintf 32 ("< " ++ fmt_g than) in
    let act := tc__snprintf 32 (fmt_g actual) in
    tc_fail_with msg (Some exp) (Some act).

Definition tc_assert_less_or_equal_double (actual than : float)
    (msg : option string) : TestResult :=
  if PrimFloat.leb actual than then tc_pass
  else
    let exp := tc__snprintf 32 ("<= " ++ fmt_g than) in
    let act := tc__snprintf 32 (fmt_g actual) in
    tc_fail_with msg (Some exp) (Some act).

Definition tc_assert_in_delta (expected actual delta : float)
    (msg : option string) : TestResult :=
  let diff := PrimFloat.abs (PrimFloat.sub expected actual) in
  if PrimFloat.leb diff delta then tc_pass
  else
    let exp := tc__snprintf 64 (fmt_g expected ++ " +/- " ++ fmt_g delta) in
    let act := tc__snprintf 64 (fmt_g actual ++ " (diff: " ++ fmt_g diff
                                ++ ")") in
    tc_fail_with msg (Some exp) (Some act).

End FormattedAssertions.

Definition tc_assert_greater_int (actual than : Z) (msg : option string)
    : TestResult :=
  if than <? actual then tc_pass
  else
    let exp := tc__snprintf 32 ("> " ++ fmt_d than) in
    let act := tc__snprintf 32 (fmt_d actual) in
    tc_fail_with msg (Some exp) (Some act).

Definition tc_assert_greater_or_equal_int (actual than : Z)
    (msg : option string) : TestResult :=
  if than <=? actual then tc_pass
  else
    let exp := tc__snprintf 32 (">= " ++ fmt_d than) in
    let act := tc__snprintf 32 (fmt_d actual) in
    tc_fail_with msg (Some exp) (Some act).

Definition tc_assert_less_int (actual than : Z) (msg : option string)
    : TestResult :=
  if actual <? than then tc_pass
  else
    let exp := tc__snprintf 32 ("< " ++ fmt_d than) in
    let act := tc__snprintf 32 (fmt_d actual) in
    tc_fail_with msg (Some exp) (Some act).

Definition tc_assert_less_or_equal_int (actual than : Z)
    (msg : option string) : TestResult :=
  if actual <=? than then tc_pass
  else
    let exp := tc__snprintf 32 ("<= " ++ fmt_d than) in
    let act := tc__snprintf 32 (fmt_d actual) in
    tc_fail_with msg (Some exp) (Some act).

(** The array argument of the collection assertions is the list of the
    [int]s the caller's array holds; [len] is passed beside it. *)
Definition tc_assert_empty_int (arr : list Z) (len : Z) (msg : option string)
    : TestResult :=
  if len =? 0 then tc_pass
  else
    let act := tc__snprintf 32 (fmt_d len ++ " elements") in
    tc_fail_with msg (Some "empty") (Some act).

Definition tc_assert_not_empty_int (arr : list Z) (len : Z)
    (msg : option string) : TestResult :=
  if 0 <? len then tc_pass
  else tc_fail_with msg (Some "non-empty") (Some "0 elements").

Definition tc_assert_len (expected actual : Z) (msg : option string)
    : TestResult :=
  if expected =? actual then tc_pass
  else
    let exp := tc__snprintf 32 ("length " ++ fmt_d expected) in
    let act := tc__snprintf 32 ("length " ++ fmt_d actual) in
    tc_fail_with msg (Some exp) (Some act).

(** The loop [for (i = 0; i < len; i++) if (arr[i] == elem) ...] of the two
    containment assertions, from index [i] on, with [fuel] iterations left:
    the index at which it leaves early, if it does.  Reading past the end
    of the caller's array is undefined ([None]). *)
Fixpoint tc__find_int (fuel : nat) (i : nat) (elem : Z) (arr : list Z)
    : option (option nat) :=
  match fuel with
  | O => Some None
  | S fuel' =>
      x ← arr !! i;
      if x =? elem then Some (Some i)
      else tc__find_int fuel' (S i) elem arr
  end.

Definition tc_assert_contains_int (elem : Z) (arr : list Z) (len : Z)
    (msg : option string) : option TestResult :=
  found ← tc__find_int (Z.to_nat len) 0 elem arr;
  match found with
  | Some _ => Some tc_pass
  | None =>
      let exp := tc__snprintf 32 ("contains " ++ fmt_d elem) in
      Some (tc_fail_with msg (Some exp) (Some "not found"))
  end.

Definition tc_assert_not_contains_int (elem : Z) (arr : list Z) (len : Z)
    (msg : option string) : option TestResult :=
  found ← tc__find_int (Z.to_nat len) 0 elem arr;
  match found with
  | Some i =>
      let exp := tc__snprintf 32 ("not contains " ++ fmt_d elem) in
      let act := tc__snprintf 64 ("found at index " ++ fmt_d (Z.of_nat i)) in
      Some (tc_fail_with msg (Some exp) (Some act))
  | None => Some tc_pass
  end.

(** ** Further notions used in the statements *)

(** A result as the library makes them: well-formed, and a Pass carries no
    error. *)
Definition result_proper (r : TestResult) : Prop :=
  result_wf r /\ (tag r = TC_PASS -> error_count r = 0).

(** The three strings of an error fit the arrays of [TC_MAX_MSG_LEN]
    characters of the struct, terminator included. *)
Definition error_fits (e : TestError) : Prop :=
  strlen (message e) < TC_MAX_MSG_LEN /\
  strlen (expected e) < TC_MAX_MSG_LEN /\
  strlen (actual e) < TC_MAX_MSG_LEN.

(** The fresh Fail result that holds the given errors, up to the capacity,
    and zero bytes elsewhere. *)
Definition tc__fail_of (errs : list TestError) : TestResult :=
  let kept := take (Z.to_nat TC_MAX_ERRORS) errs in
  {| tag := TC_FAIL;
     errors := (kept ++ replicate (Z.to_nat TC_MAX_ERRORS - length kept)
                          tc__zero_error)%list;
     error_count := Z.of_nat (length kept);
     elapsed_ms := 0%float |}.

(** Checks made one after the other, each merged into the result so far:
    [r = first; r = tc_combine(r, c1); r = tc_combine(r, c2); ...]. *)
Definition tc_combine_all (first : TestResult) (more : list TestResult)
    : TestResult :=
  fold_left tc_combine more first.

(** The first skipped result of a list. *)
Fixpoint first_skip (rs : list TestResult) : option TestResult :=
  match rs with
  | [] => None
  | r :: rest => if tc_is_skip r then Some r else first_skip rest
  end.





(** From [m] to [m'] only lines were printed: the world and the stored
    results are the same. *)
Definition prints `{Platform} (m m' : Machine) (lines : list string) : Prop :=
  m' = {| world := world m;
          trace := (trace m ++ map EvStdout lines)%list;
          tc__results := tc__results m;
          tc__result_counts := tc__result_counts m |}.

(** The lines [--list] prints for the suites. *)
Definition tc__listing `{Platform} (suites : list Suite) : list string :=
  concat (map (fun s : Suite =>
                 (suite_name s ++ ":" ++ LF)
                 :: map (fun t : Test =>
                           "  - " ++ test_name t
                           ++ match fn t with
                              | Some _ => EmptyString
                              | None => " [skip]"
                              end ++ LF)
                      (suite_tests s))
              suites).

(** The static arrays have their declared sizes. *)
Definition store_wf `{Platform} (m : Machine) : Prop :=
  length (tc__results m) = Z.to_nat TC_MAX_SUITES /\
  length (tc__result_counts m) = Z.to_nat TC_MAX_SUITES /\
  Forall (fun row => length row = Z.to_nat TC_MAX_TESTS_PER_SUITE)
         (tc__results m).

(** The suite reads no more tests than its array holds. *)
Definition suite_wf `{Platform} (s : Suite) : Prop :=
  0 <= test_count s <= Z.of_nat (length (tests s)).

(** The setup of the suite, if it has one, returns 0 when the suite is run
    from machine [m]. *)
Definition setup_ok `{Platform} (s : Suite) (m : Machine) : Prop :=
  match setup s with
  | None => True
  | Some su => fst (fst (su (snd (clock_ms (world m))))) = 0
  end.

(** The number of tests of some suites. *)
Definition tc__test_total `{Platform} (suites : list Suite) : Z :=
  foldr (fun s acc => test_count s + acc) 0 suites.

(** The first three numbers of the tallies of the report. *)
Definition tc__tally_counts (rs : list TestResult) : Z * Z * Z :=
  fst (tc__xml_tally rs (0, 0, 0, 0%float)).

(** From [m] to [m'] the static arrays keep their sizes, and the rows and
    counts of the suites whose number is not [touched] are the same. *)
Definition store_kept `{Platform} (touched : nat -> Prop) (m m' : Machine)
    : Prop :=
  length (tc__results m') = length (tc__results m) /\
  length (tc__result_counts m') = length (tc__result_counts m) /\
  (forall k : nat,
     length (tc__results m' !!! k) = length (tc__results m !!! k)) /\
  (forall k : nat,
     ~ touched k ->
     tc__results m' !! k = tc__results m !! k /\
     tc__result_counts m' !! k = tc__result_counts m !! k).

(** The calls a suite makes when its setup, if it has one, succeeds. *)
Definition suite_calls_ok `{Platform} (s : Suite) : list Event :=
  (match setup s with
   | Some _ => [EvSetup (suite_name s) 0]
   | None => []
   end ++ suite_calls s)%list.

(** ** A second concrete platform *)

(** The world is the log of what user code did; a file can be created only
    as long as no user code has run (as when a test fills the disk or
    removes the directory of the report). *)
Definition fragile_platform : Platform :=
  {| World := list string;
     clock_ms := fun w => (0%float, w);
     fopen_w := fun _ w => match w with [] => Some w | _ :: _ => None end;
     fmt_2f := fun _ => "0.00";
     fmt_3f := fun _ => "0.000" |}.

Definition fragile_machine : @Machine fragile_platform :=
  @mkMachine fragile_platform ([] : list string) []
    (replicate (Z.to_nat TC_MAX_SUITES)
       (replicate (Z.to_nat TC_MAX_TESTS_PER_SUITE) tc__zero_result))
    (replicate (Z.to_nat TC_MAX_SUITES) 0).

Definition fragile_suite : @Suite fragile_platform :=
  @tc_suite fragile_platform "S"
    [@mkTest fragile_platform "t" (Some (fun _ w => (tc_pass, "ran" :: w)))
       None].

(** ** The elapsed times in the report *)

(** The sum the first inner loop of [tc_write_junit_xml] makes of the
    elapsed times of the stored results of a suite, in their order. *)
Definition tc__elapsed_sum (rs : list TestResult) : float :=
  fold_left (fun t r => PrimFloat.add t (elapsed_ms r)) rs 0%float.

(** The machine that differs from [m] only in the [elapsed_ms] of
    [tc__results[i][j]], which is [e]. *)
Definition tc__with_elapsed `{Platform} (i j : nat) (e : float) (m : Machine)
    : Machine :=
  {| world := world m; trace := trace m;
     tc__results := alter (alter (set_elapsed e) j) i (tc__results m);
     tc__result_counts := tc__result_counts m |}.

(** ** A platform with a running clock *)

(** ["%.2f"] and ["%.3f"] of the C library for a binary64 value: the exact
    value of the argument rounded to [digits] decimals (at least one), ties
    to even. *)
Definition fmt_fixed (digits : nat) (x : float) : string :=
  let unit := 10 ^ Z.of_nat digits in
  let text (sign : bool) (q : Z) :=
    let frac := pretty (q mod unit) in
    (if sign then "-" else "") ++ pretty (q / unit) ++ "."
    ++ str_repeat "0"%char (digits - String.length frac) ++ frac in
  match FloatOps.Prim2SF x with
  | SpecFloat.S754_nan => "nan"
  | SpecFloat.S754_infinity sign => if sign then "-inf" else "inf"
  | SpecFloat.S754_zero sign => text sign 0
  | SpecFloat.S754_finite sign m e =>
      let num := Z.pos m * unit in
      if 0 <=? e then text sign (num * 2 ^ e)
      else
        let den := 2 ^ (- e) in
        let q := num / den in
        let twice := 2 * (num mod den) in
        text sign (if (den <? twice) || ((twice =? den) && Z.odd q)
                   then q + 1 else q)
  end.

(** The world is the time: every reading of the clock takes 250 ms.  Every
    file can be created. *)
Definition timed_platform : Platform :=
  {| World := float;
     clock_ms := fun w => (w, PrimFloat.add w 250%float);
     fopen_w := fun _ w => Some w;
     fmt_2f := fmt_fixed 2;
     fmt_3f := fmt_fixed 3 |}.

Definition timed_machine : @Machine timed_platform :=
  @mkMachine timed_platform 0%float []
    (replicate (Z.to_nat TC_MAX_SUITES)
       (replicate (Z.to_nat TC_MAX_TESTS_PER_SUITE) tc__zero_result))
    (replicate (Z.to_nat TC_MAX_SUITES) 0).

(** A suite whose only test runs and returns a skip. *)
Definition timed_suite : @Suite timed_platform :=
  @tc_suite timed_platform "net"
    [@mkTest timed_platform "fetch"
       (Some (fun _ w => (tc_skip (Some "no network"), w))) None].

(** ** The command line as a list of options *)

(** A step of the argument loop of [tc_main] other than the request for
    help: an option with the values it takes, or a word the loop passes
    over. *)
Inductive CliOption : Set :=
| OptList
| OptSuite (name : string)
| OptTest (suite test : string)
| OptMatch (pattern : string)
| OptXml (file : string)
| OptOther (word : string).

(** The entries of [argv] that make up the step. *)
Definition cli_words (c : CliOption) : list string :=
  match c with
  | OptList => ["--list"]
  | OptSuite name => ["--suite"; name]
  | OptTest suite test => ["--test"; suite; test]
  | OptMatch pattern => ["--match"; pattern]
  | OptXml file => ["--xml"; file]
  | OptOther word => [word]
  end.

(** The words the loop compares an entry with. *)
Definition cli_keywords : list string :=
  ["--help"; "-h"; "--list"; "--suite"; "--test"; "--match"; "--xml"].

(** [OptOther] stands for a word that is none of them; the values of the
    options are any strings. *)
Definition cli_option_wf (c : CliOption) : Prop :=
  match c with
  | OptOther word => word ∉ cli_keywords
  | _ => True
  end.

(** What the step does to the local variables of [tc_main]. *)
Definition cli_apply (o : Options) (c : CliOption) : Options :=
  match c with
  | OptList =>
      {| suite_filter := suite_filter o; test_filter := test_filter o;
         match_filter := match_filter o; xml_file := xml_file o;
         list_only := true |}
  | OptSuite name =>
      {| suite_filter := Some name; test_filter := test_filter o;
         match_filter := match_filter o; xml_file := xml_file o;
         list_only := list_only o |}
  | OptTest suite test =>
      {| suite_filter := Some suite; test_filter := Some test;
         match_filter := match_filter o; xml_file := xml_file o;
         list_only := list_only o |}
  | OptMatch pattern =>
      {| suite_filter := suite_filter o; test_filter := test_filter o;
         match_filter := Some pattern; xml_file := xml_file o;
         list_only := list_only o |}
  | OptXml file =>
      {| suite_filter := suite_filter o; test_filter := test_filter o;
         match_filter := match_filter o; xml_file := Some file;
         list_only := list_only o |}
  | OptOther _ => o
  end.

(** In the statements below [++] is the concatenation of lists; strings
    are concatenated with [+:+]. *)
Open Scope list_scope.

(** * Properties *)

(** ** Strings *)

Lemma str_take_all (n : nat) (s : string) :
  (String.length s <= n)%nat -> str_take n s = s.
Proof.
  revert n; induction s as [|c s IH]; intros [|n] Hn; cbn in *;
    try reflexivity; try lia.
  f_equal. apply IH. lia.
Qed.

Lemma str_take_length (n : nat) (s : string) :
  String.length (str_take n s) = Nat.min n (String.length s).
Proof.
  revert n; induction s as [|c s IH]; intros [|n]; cbn; try reflexivity.
  now rewrite IH.
Qed.

(** A string that fits the buffer is copied whole. *)
Lemma tc__safe_copy_short (s : string) (max : Z) :
  strlen s < max -> tc__safe_copy (Some s) max = s.
Proof.
  intros Hlen. unfold tc__safe_copy.
  destruct (Z.leb_spec max (strlen s)) as [Hle|_]; [lia|].
  apply str_take_all. unfold strlen. lia.
Qed.

(** The copy never exceeds [max - 1] characters. *)
Lemma tc__safe_copy_bound (src : option string) (max : Z) :
  1 <= max < SIZE_MODULUS -> strlen (tc__safe_copy src max) < max.
Proof.
  intros Hmax. destruct src as [s|]; cbn; [|unfold strlen; cbn; lia].
  unfold strlen. rewrite str_take_length.
  destruct (Z.leb_spec max (Z.of_nat (String.length s))) as [Hle|Hlt].
  - unfold size_sub. rewrite Z.mod_small by lia. lia.
  - lia.
Qed.

(** ** The result model *)

Lemma TC_MAX_ERRORS_pos : 0 < TC_MAX_ERRORS.
Proof. reflexivity. Qed.

Lemma result_wf_zero (t : ResultTag) : result_wf (tc__set_tag t tc__zero_result).
Proof.
  split; cbn [errors error_count tc__set_tag tc__zero_result].
  - apply length_replicate.
  - pose proof TC_MAX_ERRORS_pos. lia.
Qed.

Lemma tc_errors_zero (t : ResultTag) :
  tc_errors (tc__set_tag t tc__zero_result) = [].
Proof. reflexivity. Qed.

Lemma tc_errors_length (r : TestResult) :
  result_wf r -> length (tc_errors r) = Z.to_nat (error_count r).
Proof.
  intros [Hlen Hcnt]. unfold tc_errors. rewrite length_take. lia.
Qed.

(** Writing the next free slot appends to the entries in use. *)
Lemma tc__push_error_spec (r : TestResult) (e : TestError) :
  result_wf r -> error_count r < TC_MAX_ERRORS ->
  result_wf (tc__push_error r e) /\
  tc_errors (tc__push_error r e) = tc_errors r ++ [e] /\
  drop (Z.to_nat (error_count r + 1)) (errors (tc__push_error r e))
  = drop (Z.to_nat (error_count r + 1)) (errors r).
Proof.
  intros [Hlen Hcnt] Hlt. unfold result_wf, tc_errors, tc__push_error.
  cbn [errors error_count].
  replace (Z.to_nat (error_count r + 1)) with (S (Z.to_nat (error_count r)))
    by lia.
  set (n := Z.to_nat (error_count r)).
  assert (Hn : (n < length (errors r))%nat) by lia.
  repeat split; try lia.
  - now rewrite length_insert.
  - rewrite (take_S_r _ _ e) by now apply list_lookup_insert_eq.
    now rewrite take_insert_ge by lia.
  - now rewrite drop_insert_lt by lia.
Qed.

Lemma tc__append_error_spec (r : TestResult) (msg ex ac : option string) :
  result_wf r -> error_count r < TC_MAX_ERRORS ->
  tc__append_error r msg ex ac
  = tc__push_error r
      {| message := tc__safe_copy msg TC_MAX_MSG_LEN;
         expected := tc__safe_copy ex TC_MAX_MSG_LEN;
         actual := tc__safe_copy ac TC_MAX_MSG_LEN |}.
Proof.
  intros _ Hlt. unfold tc__append_error.
  destruct (Z.ltb_spec (error_count r) TC_MAX_ERRORS); [reflexivity|lia].
Qed.

(** The copy loop of [tc_combine], from source index [i] on: the entries in
    use afterwards are those before, followed by the remaining source
    entries, cut at the capacity; the unused slots are not touched. *)
Lemma tc__combine_loop_spec (fuel : nat) :
  forall (i : nat) (src r : TestResult),
    result_wf src -> result_wf r ->
    Z.of_nat i <= error_count src <= Z.of_nat (i + fuel) ->
    let r' := tc__combine_loop fuel i src r in
    result_wf r' /\ tag r' = tag r /\ elapsed_ms r' = elapsed_ms r /\
    error_count r'
    = Z.min TC_MAX_ERRORS (error_count r + (error_count src - Z.of_nat i)) /\
    tc_errors r'
    = take (Z.to_nat TC_MAX_ERRORS) (tc_errors r ++ drop i (tc_errors src)) /\
    drop (Z.to_nat (error_count r')) (errors r')
    = drop (Z.to_nat (error_count r')) (errors r).
Proof.
  induction fuel as [|fuel IH]; intros i src r Hsrc Hr Hi; cbn zeta.
  - cbn [tc__combine_loop]. repeat split; try apply Hr.
    + destruct Hr; lia.
    + rewrite drop_ge by (rewrite tc_errors_length; [lia|assumption]).
      rewrite app_nil_r, take_ge; [reflexivity|].
      rewrite tc_errors_length by assumption. destruct Hr; lia.
  - cbn [tc__combine_loop].
    destruct (Z.ltb_spec (Z.of_nat i) (error_count src)) as [Hlt|Hge];
      cbn [andb].
    + destruct (Z.ltb_spec (error_count r) TC_MAX_ERRORS) as [Hroom|Hfull].
      * destruct (tc__push_error_spec r (errors src !!! i) Hr Hroom)
          as (Hwf' & Herrs' & Hdrop').
        destruct (IH (S i) src (tc__push_error r (errors src !!! i)) Hsrc Hwf')
          as (Hwf & Htag & Hel & Hcnt & Herrs & Hdrop); [lia|].
        cbn [error_count tc__push_error] in Hcnt.
        repeat split; try apply Hwf; try assumption.
        -- rewrite Hcnt. lia.
        -- rewrite Herrs, Herrs', <- app_assoc. do 2 f_equal.
           symmetry. apply drop_S. unfold tc_errors.
           rewrite lookup_take_lt by lia.
           apply list_lookup_lookup_total_lt. destruct Hsrc; lia.
        -- rewrite Hdrop.
           set (n := Z.to_nat (error_count (tc__combine_loop fuel (S i) src
                                 (tc__push_error r (errors src !!! i))))).
           replace n with (Z.to_nat (error_count r + 1)
                           + (n - Z.to_nat (error_count r + 1)))%nat
             by (destruct Hr; lia).
           rewrite <- !drop_drop. now rewrite Hdrop'.
      * repeat split; try apply Hr.
        -- destruct Hr; lia.
        -- rewrite take_app_le
             by (rewrite tc_errors_length by assumption; destruct Hr; lia).
           rewrite take_ge; [reflexivity|].
           rewrite tc_errors_length by assumption. destruct Hr; lia.
    + repeat split; try apply Hr.
      * destruct Hr; lia.
      * rewrite drop_ge by (rewrite tc_errors_length; [lia|assumption]).
        rewrite app_nil_r, take_ge; [reflexivity|].
        rewrite tc_errors_length by assumption. destruct Hr; lia.
Qed.

Lemma tc__copy_errors_spec (src r : TestResult) :
  result_wf src -> result_wf r ->
  let r' := tc__copy_errors src r in
  result_wf r' /\ tag r' = tag r /\ elapsed_ms r' = elapsed_ms r /\
  error_count r' = Z.min TC_MAX_ERRORS (error_count r + error_count src) /\
  tc_errors r' = take (Z.to_nat TC_MAX_ERRORS) (tc_errors r ++ tc_errors src) /\
  drop (Z.to_nat (error_count r')) (errors r')
  = drop (Z.to_nat (error_count r')) (errors r).
Proof.
  intros Hsrc Hr. unfold tc__copy_errors.
  destruct (tc__combine_loop_spec (Z.to_nat (error_count src)) 0%nat src r
              Hsrc Hr) as (H1 & H2 & H3 & H4 & H5 & H6).
  { destruct Hsrc. lia. }
  repeat split; try apply H1; try assumption.
  rewrite H4. lia.
Qed.

(** The fourth case of [tc_combine], in closed form. *)
Lemma tc_combine_fail_spec (a b : TestResult) :
  result_wf a -> result_wf b ->
  let r := tc__copy_errors b (tc__copy_errors a
             (tc__set_tag TC_FAIL tc__zero_result)) in
  result_wf r /\ tag r = TC_FAIL /\ elapsed_ms r = 0%float /\
  tc_errors r = take (Z.to_nat TC_MAX_ERRORS) (tc_errors a ++ tc_errors b) /\
  error_count r = Z.min TC_MAX_ERRORS (error_count a + error_count b) /\
  drop (Z.to_nat (error_count r)) (errors r)
  = replicate (Z.to_nat (TC_MAX_ERRORS - error_count r)) tc__zero_error.
Proof.
  intros Ha Hb. cbn zeta.
  destruct (tc__copy_errors_spec a _ Ha (result_wf_zero TC_FAIL))
    as (Hwf1 & Htag1 & Hel1 & Hcnt1 & Herr1 & Hdrop1).
  destruct (tc__copy_errors_spec b _ Hb Hwf1)
    as (Hwf2 & Htag2 & Hel2 & Hcnt2 & Herr2 & Hdrop2).
  rewrite tc_errors_zero, app_nil_l in Herr1.
  rewrite take_ge in Herr1
    by (rewrite tc_errors_length by assumption; destruct Ha; lia).
  cbn [error_count tc__set_tag tc__zero_result] in Hcnt1.
  repeat split; try apply Hwf2.
  - now rewrite Htag2, Htag1.
  - now rewrite Hel2, Hel1.
  - now rewrite Herr2, Herr1.
  - rewrite Hcnt2, Hcnt1. destruct Ha, Hb. lia.
  - rewrite Hdrop2.
    set (n2 := Z.to_nat (error_count (tc__copy_errors b (tc__copy_errors a
                 (tc__set_tag TC_FAIL tc__zero_result))))) in *.
    set (n1 := Z.to_nat (error_count (tc__copy_errors a
                 (tc__set_tag TC_FAIL tc__zero_result)))) in *.
    assert (Hmono : (n1 <= n2)%nat) by (destruct Ha, Hb; lia).
    replace n2 with (n1 + (n2 - n1))%nat at 1 by lia.
    rewrite <- drop_drop, Hdrop1, drop_drop.
    cbn [errors tc__set_tag tc__zero_result].
    rewrite drop_replicate. f_equal. destruct Hwf1, Hwf2. lia.
Qed.

(** Without any assumption on the arrays, the copy loop keeps the count
    within the capacity. *)
Lemma tc__combine_loop_count (fuel : nat) :
  forall (i : nat) (src r : TestResult),
    0 <= error_count r <= TC_MAX_ERRORS ->
    0 <= error_count (tc__combine_loop fuel i src r) <= TC_MAX_ERRORS.
Proof.
  induction fuel as [|fuel IH]; intros i src r Hr; cbn [tc__combine_loop];
    [assumption|].
  destruct (Z.ltb_spec (Z.of_nat i) (error_count src)); cbn [andb];
    [|assumption].
  destruct (Z.ltb_spec (error_count r) TC_MAX_ERRORS); [|assumption].
  apply IH. cbn [error_count tc__push_error]. lia.
Qed.

(** What the three constructors that record an error build. *)
Lemma tc__first_error_spec (t : ResultTag) (msg ex ac : option string) :
  let r := tc__append_error (tc__set_tag t tc__zero_result) msg ex ac in
  result_wf r /\ tag r = t /\ error_count r = 1 /\ elapsed_ms r = 0%float /\
  tc_errors r = [ {| message := tc__safe_copy msg TC_MAX_MSG_LEN;
                     expected := tc__safe_copy ex TC_MAX_MSG_LEN;
                     actual := tc__safe_copy ac TC_MAX_MSG_LEN |} ].
Proof.
  cbn zeta.
  rewrite tc__append_error_spec by (apply result_wf_zero || reflexivity).
  destruct (tc__push_error_spec (tc__set_tag t tc__zero_result)
              {| message := tc__safe_copy msg TC_MAX_MSG_LEN;
                 expected := tc__safe_copy ex TC_MAX_MSG_LEN;
                 actual := tc__safe_copy ac TC_MAX_MSG_LEN |}
              (result_wf_zero t) eq_refl) as (Hwf & Herrs & _).
  repeat split; try apply Hwf; try (now rewrite Herrs).
Qed.

Lemma tc_errors_first (r : TestResult) (e : TestError) :
  tc_errors r = [e] -> errors r !!! 0%nat = e.
Proof.
  unfold tc_errors. intros He.
  assert (Hl : take (Z.to_nat (error_count r)) (errors r) !! 0%nat = Some e)
    by now rewrite He.
  apply lookup_take_Some in Hl as [Hl _].
  now apply list_lookup_total_correct.
Qed.

(** C1. [tc_combine a b] is [a] when [a] is tagged Skip; else [b] when [b] is
    tagged Skip; else [a] when both are tagged Pass; else a new result tagged
    Fail whose errors are those of [a] followed by those of [b], in that
    order, cut at [TC_MAX_ERRORS], with
    [error_count = min(TC_MAX_ERRORS, a.error_count + b.error_count)]; being
    new, it has no elapsed time and its unused slots are zero.  (In the
    last case [a] and [b] are results as the header declares them:
    [TC_MAX_ERRORS] slots and a count within them.) *)
Theorem tc_combine_spec (a b : TestResult) :
  (tag a = TC_SKIP -> tc_combine a b = a) /\
  (tag a <> TC_SKIP -> tag b = TC_SKIP -> tc_combine a b = b) /\
  (tag a = TC_PASS -> tag b = TC_PASS -> tc_combine a b = a) /\
  (result_wf a -> result_wf b ->
   tag a <> TC_SKIP -> tag b <> TC_SKIP ->
   ~ (tag a = TC_PASS /\ tag b = TC_PASS) ->
   let r := tc_combine a b in
   tag r = TC_FAIL /\
   tc_errors r = take (Z.to_nat TC_MAX_ERRORS) (tc_errors a ++ tc_errors b) /\
   error_count r = Z.min TC_MAX_ERRORS (error_count a + error_count b) /\
   elapsed_ms r = 0%float /\
   drop (Z.to_nat (error_count r)) (errors r)
   = replicate (Z.to_nat (TC_MAX_ERRORS - error_count r)) tc__zero_error /\
   result_wf r).
Proof.
  unfold tc_combine. split; [|split; [|split]].
  - intros Hs. now rewrite bool_decide_eq_true_2.
  - intros Hna Hs.
    rewrite bool_decide_eq_false_2 by assumption.
    now rewrite bool_decide_eq_true_2.
  - intros Hpa Hpb.
    rewrite bool_decide_eq_false_2 by congruence.
    rewrite bool_decide_eq_false_2 by congruence.
    now rewrite !bool_decide_eq_true_2.
  - intros Ha Hb Hna Hnb Hnp.
    rewrite !(bool_decide_eq_false_2 (_ = TC_SKIP)) by assumption.
    assert (Hpass : bool_decide (tag a = TC_PASS)
                    && bool_decide (tag b = TC_PASS) = false).
    { apply andb_false_iff.
      destruct (decide (tag a = TC_PASS)) as [Hpa|Hpa];
        [right|left]; apply bool_decide_eq_false_2; tauto. }
    rewrite Hpass. cbn zeta.
    destruct (tc_combine_fail_spec a b Ha Hb)
      as (Hwf & Htag & Hel & Herr & Hcnt & Hdrop).
    repeat split; try assumption; apply Hwf.
Qed.

(** C8. A fresh [tc_pass()] is tagged Pass with no error; [tc_fail],
    [tc_fail_with] and [tc_skip] are tagged Fail, Fail and Skip with
    [error_count] at least 1 (exactly 1), the first record holding the
    primary message (as [tc__safe_copy] stores it: whole when shorter than
    [TC_MAX_MSG_LEN], cut to [TC_MAX_MSG_LEN - 1] characters otherwise);
    every constructor yields, and [tc_combine] keeps,
    [0 <= error_count <= TC_MAX_ERRORS]. *)
Theorem constructors_invariant :
  (tag tc_pass = TC_PASS /\ error_count tc_pass = 0 /\ tc_errors tc_pass = []) /\
  (forall msg : option string,
     let r := tc_fail msg in
     tag r = TC_FAIL /\ 1 <= error_count r /\ error_count r = 1 /\
     message (errors r !!! 0%nat) = tc__safe_copy msg TC_MAX_MSG_LEN) /\
  (forall msg ex ac : option string,
     let r := tc_fail_with msg ex ac in
     tag r = TC_FAIL /\ 1 <= error_count r /\ error_count r = 1 /\
     message (errors r !!! 0%nat) = tc__safe_copy msg TC_MAX_MSG_LEN /\
     expected (errors r !!! 0%nat) = tc__safe_copy ex TC_MAX_MSG_LEN /\
     actual (errors r !!! 0%nat) = tc__safe_copy ac TC_MAX_MSG_LEN) /\
  (forall reason : option string,
     let r := tc_skip reason in
     tag r = TC_SKIP /\ 1 <= error_count r /\ error_count r = 1 /\
     message (errors r !!! 0%nat) = tc__safe_copy reason TC_MAX_MSG_LEN) /\
  (forall s : string,
     strlen s < TC_MAX_MSG_LEN -> tc__safe_copy (Some s) TC_MAX_MSG_LEN = s) /\
  (0 <= error_count tc_pass <= TC_MAX_ERRORS /\
   (forall msg, 0 <= error_count (tc_fail msg) <= TC_MAX_ERRORS) /\
   (forall msg ex ac, 0 <= error_count (tc_fail_with msg ex ac) <= TC_MAX_ERRORS) /\
   (forall reason, 0 <= error_count (tc_skip reason) <= TC_MAX_ERRORS)) /\
  (forall a b : TestResult,
     0 <= error_count a <= TC_MAX_ERRORS ->
     0 <= error_count b <= TC_MAX_ERRORS ->
     0 <= error_count (tc_combine a b) <= TC_MAX_ERRORS).
Proof.
  assert (Hone : forall t msg ex ac,
             let r := tc__append_error (tc__set_tag t tc__zero_result)
                        msg ex ac in
             tag r = t /\ error_count r = 1 /\
             errors r !!! 0%nat
             = {| message := tc__safe_copy msg TC_MAX_MSG_LEN;
                  expected := tc__safe_copy ex TC_MAX_MSG_LEN;
                  actual := tc__safe_copy ac TC_MAX_MSG_LEN |}).
  { intros t msg ex ac.
    destruct (tc__first_error_spec t msg ex ac) as (_ & Ht & Hc & _ & He).
    cbn zeta. split; [assumption|]. split; [assumption|].
    now apply tc_errors_first. }
  pose proof TC_MAX_ERRORS_pos as Hpos.
  split; [|split; [|split; [|split; [|split; [|split]]]]].
  - repeat split.
  - intros msg. destruct (Hone TC_FAIL msg (Some EmptyString) (Some EmptyString))
      as (Ht & Hc & He).
    unfold tc_fail. cbn zeta. rewrite He, Hc. repeat split; try assumption; lia.
  - intros msg ex ac. destruct (Hone TC_FAIL msg ex ac) as (Ht & Hc & He).
    unfold tc_fail_with. cbn zeta. rewrite He, Hc.
    repeat split; try assumption; lia.
  - intros reason.
    destruct (Hone TC_SKIP reason (Some EmptyString) (Some EmptyString))
      as (Ht & Hc & He).
    unfold tc_skip. cbn zeta. rewrite He, Hc. repeat split; try assumption; lia.
  - intros s. apply tc__safe_copy_short.
  - repeat split; try (cbn; lia); intros;
      match goal with
      | |- context [error_count ?r] =>
          let H := fresh in
          assert (H : error_count r = 1) by (apply Hone); rewrite H; lia
      end.
  - intros a b Ha Hb. unfold tc_combine.
    repeat (case_bool_decide; [assumption|]).
    destruct (_ && _); [assumption|].
    unfold tc__copy_errors. apply tc__combine_loop_count.
    apply tc__combine_loop_count. cbn. lia.
Qed.

(** The scenario of the specification: a passing check combined with a
    failing one is a failure with exactly one error, that of the second. *)
Example tc_combine_pass_then_fail :
  let r := tc_combine (tc_assert_true true (Some "a"))
             (tc_assert_true false (Some "b")) in
  tag r = TC_FAIL /\ error_count r = 1 /\
  tc_errors r = [ {| message := "b"; expected := "true"; actual := "false" |} ].
Proof. repeat split. Qed.

(** A skip anywhere wins over the failures, the leftmost skip first. *)
Example tc_combine_skip_wins :
  tc_combine (tc_fail (Some "x")) (tc_skip (Some "later"))
  = tc_skip (Some "later") /\
  tc_combine (tc_skip (Some "first")) (tc_skip (Some "second"))
  = tc_skip (Some "first").
Proof. split; reflexivity. Qed.

(** C1, at two failures that carry one error each. *)
Lemma tc_combine_spec_witness :
  let a := tc_fail_with (Some "a") (Some "1") (Some "2") in
  let b := tc_fail (Some "b") in
  tc_errors (tc_combine a b)
  = [ {| message := "a"; expected := "1"; actual := "2" |};
      {| message := "b"; expected := EmptyString; actual := EmptyString |} ]
  /\ error_count (tc_combine a b) = 2.
Proof.
  cbn zeta.
  assert (Ha : result_wf (tc_fail_with (Some "a") (Some "1") (Some "2")))
    by (split; [reflexivity|vm_compute; split; discriminate]).
  assert (Hb : result_wf (tc_fail (Some "b")))
    by (split; [reflexivity|vm_compute; split; discriminate]).
  destruct (tc_combine_spec (tc_fail_with (Some "a") (Some "1") (Some "2"))
              (tc_fail (Some "b"))) as (_ & _ & _ & Hfail).
  destruct (Hfail Ha Hb) as (_ & Herr & Hcnt & _);
    [discriminate|discriminate|intros [Hp _]; discriminate Hp|].
  split; [rewrite Herr|rewrite Hcnt]; reflexivity.
Defined.

(** C8, at a failure combined with a pass. *)
Lemma constructors_invariant_witness :
  0 <= error_count (tc_combine (tc_fail (Some "boom")) tc_pass)
    <= TC_MAX_ERRORS.
Proof.
  apply (proj2 (proj2 (proj2 (proj2 (proj2 (proj2 constructors_invariant))))));
    vm_compute; split; discriminate.
Defined.

(** ** The execution engine *)

Section EngineFacts.
Context `{Platform}.

(** C3. Running a test that has no function returns at once: the result is
    [tc_skip] of the configured reason (of ["skipped"] when none is
    configured), so it is tagged Skip, has [elapsed_ms = 0] and one error
    whose message is the reason as [tc__safe_copy] stores it (the reason
    itself when it is shorter than [TC_MAX_MSG_LEN]); the machine is left as
    it was, whatever the environment handle: no user function is called, the
    clock is not read and nothing is printed. *)
Theorem tc_run_test_static_skip (test : Test) (env : Env) (m : Machine) :
  fn test = None ->
  let r := fst (tc_run_test test env m) in
  snd (tc_run_test test env m) = m /\
  tag r = TC_SKIP /\
  elapsed_ms r = 0%float /\
  error_count r = 1 /\
  (forall reason : string,
     skip_reason test = Some reason ->
     r = tc_skip (Some reason) /\
     message (errors r !!! 0%nat) = tc__safe_copy (Some reason) TC_MAX_MSG_LEN /\
     (strlen reason < TC_MAX_MSG_LEN -> message (errors r !!! 0%nat) = reason)) /\
  (skip_reason test = None ->
     r = tc_skip (Some "skipped") /\ message (errors r !!! 0%nat) = "skipped").
Proof.
  intros Hfn. unfold tc_run_test. rewrite Hfn. cbn [fst snd].
  set (reason' := match skip_reason test with
                  | Some reason => reason
                  | None => "skipped"
                  end).
  destruct (tc__first_error_spec TC_SKIP (Some reason') (Some EmptyString)
              (Some EmptyString)) as (_ & Htag & Hcnt & Hel & Herrs).
  apply tc_errors_first in Herrs. fold (tc_skip (Some reason')) in *.
  split; [reflexivity|]. split; [assumption|]. split; [assumption|].
  split; [assumption|]. split.
  - intros reason Hr. subst reason'. rewrite Hr in *.
    split; [reflexivity|]. rewrite Herrs. cbn [message].
    split; [reflexivity|]. apply tc__safe_copy_short.
  - intros Hr. subst reason'. rewrite Hr in *.
    split; [reflexivity|]. now rewrite Herrs.
Qed.

(** The whole effect of a suite whose setup fails. *)
Lemma tc__run_suite_ex_setup_failed (suite : Suite) (suite_idx : Z)
    (m : Machine) (su : SetupFn) (ret : Z) (env : Env) (w : World) :
  setup suite = Some su ->
  su (snd (clock_ms (world m))) = (ret, env, w) ->
  ret <> 0 ->
  tc__run_suite_ex suite suite_idx m
  = ({| passed := 0; failed := test_count suite; skipped := 0;
        total_ms := 0%float |},
     {| world := w;
        trace := trace m
                 ++ [EvStdout (LF +:+ "=== " +:+ suite_name suite +:+ " ==="
                               +:+ LF);
                     EvSetup (suite_name suite) ret;
                     EvStdout ("  " +:+ TC__RED +:+ ICON_FAIL
                               +:+ " Setup failed (returned " +:+ fmt_d ret
                               +:+ ")" +:+ TC__RESET +:+ LF)];
        tc__results := tc__results m;
        tc__result_counts := tc__result_counts m |}).
Proof.
  intros Hsetup Hsu Hret. unfold tc__run_suite_ex, tc__get_time_ms.
  destruct (clock_ms (world m)) as [start w1] eqn:Hclock.
  cbn [snd] in Hsu. rewrite Hsetup.
  cbn [printf emit set_world world trace tc__results tc__result_counts].
  rewrite Hsu.
  destruct (Z.eqb_spec ret 0) as [?|_]; [contradiction|].
  cbn [negb]. unfold printf, emit, set_world.
  cbn [world trace tc__results tc__result_counts].
  now rewrite <- !app_assoc.
Qed.

(** C2. When the setup function of a suite is present and returns a nonzero
    value, the run of the suite ([tc_run_suite], and the run of one suite
    inside [tc_run_all], which is [tc__run_suite_ex] at the index of the
    suite) returns [failed = test_count], [passed = 0] and [skipped = 0];
    the events it adds to the trace contain no call of a test function and
    no call of the teardown function (the only call of user code is the
    setup itself); and the stored results are not touched. *)
Theorem setup_failure_fails_every_test (suite : Suite) (suite_idx : Z)
    (m : Machine) (su : SetupFn) :
  setup suite = Some su ->
  fst (fst (su (snd (clock_ms (world m))))) <> 0 ->
  let out := tc__run_suite_ex suite suite_idx m in
  failed (fst out) = test_count suite /\
  passed (fst out) = 0 /\
  skipped (fst out) = 0 /\
  (exists evs : list Event,
     trace (snd out) = trace m ++ evs /\
     Forall (fun e => is_test_or_teardown e = false) evs /\
     filter (fun e => is_user_call e = true) evs
     = [EvSetup (suite_name suite) (fst (fst (su (snd (clock_ms (world m))))))]) /\
  world (snd out) = snd (su (snd (clock_ms (world m)))) /\
  tc__results (snd out) = tc__results m /\
  tc__result_counts (snd out) = tc__result_counts m /\
  tc_run_suite suite m = tc__run_suite_ex suite (-1) m.
Proof.
  intros Hsetup Hret.
  destruct (su (snd (clock_ms (world m)))) as [[ret env] w] eqn:Hsu.
  cbn [fst snd] in *. cbn zeta.
  rewrite (tc__run_suite_ex_setup_failed suite suite_idx m su ret env w
             Hsetup Hsu Hret).
  cbn [fst snd passed failed skipped world trace tc__results
       tc__result_counts].
  repeat (split; [reflexivity|]).
  split; [|repeat split].
  eexists. split; [reflexivity|]. split.
  - repeat constructor.
  - reflexivity.
Qed.

End EngineFacts.

(** C3, at a statically skipped test with a reason. *)
Lemma tc_run_test_static_skip_witness :
  let test := @tc_skip_test demo_platform "pending" (Some "waiting for feature X") in
  let out := @tc_run_test demo_platform test NULL demo_machine in
  snd out = demo_machine /\ tag (fst out) = TC_SKIP /\
  elapsed_ms (fst out) = 0%float /\
  message (errors (fst out) !!! 0%nat) = "waiting for feature X".
Proof.
  cbn zeta.
  destruct (@tc_run_test_static_skip demo_platform
              (@tc_skip_test demo_platform "pending"
                 (Some "waiting for feature X"))
              NULL demo_machine eq_refl)
    as (Hm & Htag & Hel & _ & Hreason & _).
  destruct (Hreason _ eq_refl) as (_ & _ & Hmsg).
  split; [exact Hm|]. split; [exact Htag|]. split; [exact Hel|].
  apply Hmsg. reflexivity.
Defined.

(** C2, at a suite of two tests whose setup returns 3. *)
Lemma setup_failure_fails_every_test_witness :
  let out := @tc_run_suite demo_platform demo_broken_suite demo_machine in
  failed (fst out) = 2 /\ passed (fst out) = 0 /\ skipped (fst out) = 0 /\
  world (snd out) = ["setup ran"].
Proof.
  cbn zeta.
  destruct (@setup_failure_fails_every_test demo_platform demo_broken_suite
              (-1) demo_machine demo_failing_setup eq_refl)
    as (Hf & Hp & Hs & _ & Hw & _ & _ & Hrun).
  { vm_compute. discriminate. }
  rewrite Hrun. split; [exact Hf|]. split; [exact Hp|]. split; [exact Hs|].
  rewrite Hw. reflexivity.
Defined.

(** ** XML escaping *)

Lemma strlen_app (s t : string) : strlen (s +:+ t) = strlen s + strlen t.
Proof.
  unfold strlen. rewrite <- Nat2Z.inj_add. f_equal.
  induction s as [|c s IH]; [reflexivity|].
  simpl. f_equal. exact IH.
Qed.

Lemma strlen_nonneg (s : string) : 0 <= strlen s.
Proof. unfold strlen. lia. Qed.

Lemma xml_entity_length (c : ascii) : 1 <= strlen (xml_entity c) <= 6.
Proof.
  unfold xml_entity.
  repeat match goal with
         | |- context [Ascii.eqb ?a ?b] => destruct (Ascii.eqb a b)
         end; unfold strlen; simpl; lia.
Qed.

Lemma xml_escape_all_length (s : string) :
  strlen s <= strlen (xml_escape_all s) <= 6 * strlen s.
Proof.
  induction s as [|c s IH]; [unfold strlen; simpl; lia|].
  cbn [xml_escape_all]. rewrite strlen_app.
  pose proof (xml_entity_length c).
  unfold strlen in *. cbn [String.length]. lia.
Qed.

Lemma prefix_head_ne (a b : ascii) (p t : string) :
  a <> b -> String.prefix (String a p) (String b t) = false.
Proof.
  intros Hne.
  change (String.prefix (String a p) (String b t))
    with (if ascii_dec a b then String.prefix p t else false).
  destruct (ascii_dec a b); [contradiction|reflexivity].
Qed.

(** Decoding undoes the replacement of one character. *)
Lemma xml_unescape_entity (c : ascii) (t : string) :
  xml_unescape_from 0 (xml_entity c +:+ t) = String c (xml_unescape_from 0 t).
Proof.
  unfold xml_entity.
  destruct (Ascii.eqb_spec c "&"%char) as [->|Hamp];
    [destruct t; reflexivity|].
  destruct (Ascii.eqb_spec c "<"%char) as [->|_]; [destruct t; reflexivity|].
  destruct (Ascii.eqb_spec c ">"%char) as [->|_]; [destruct t; reflexivity|].
  destruct (Ascii.eqb_spec c "034"%char) as [->|_];
    [destruct t; reflexivity|].
  destruct (Ascii.eqb_spec c "'"%char) as [->|_]; [destruct t; reflexivity|].
  change (String c EmptyString +:+ t) with (String c t).
  cbn [xml_unescape_from].
  rewrite !prefix_head_ne by congruence. reflexivity.
Qed.

Lemma xml_unescape_escape_all (s : string) :
  xml_unescape (xml_escape_all s) = s.
Proof.
  unfold xml_unescape. induction s as [|c s IH]; [reflexivity|].
  cbn [xml_escape_all]. now rewrite xml_unescape_entity, IH.
Qed.


(** When the escaped form fits, all of the source is read. *)
Lemma tc__xml_escape_loop_fits (s : string) (max : Z) :
  6 <= max < SIZE_MODULUS ->
  forall di : Z,
    di + strlen (xml_escape_all s) <= max - 6 ->
    tc__xml_escape_loop s max di = xml_escape_all s.
Proof.
  intros Hmax.
  induction s as [|c s IH]; intros di Hfit; [reflexivity|].
  cbn [tc__xml_escape_loop xml_escape_all] in *.
  rewrite strlen_app in Hfit.
  pose proof (xml_entity_length c). pose proof (strlen_nonneg (xml_escape_all s)).
  unfold size_sub. rewrite Z.mod_small by lia.
  destruct (Z.ltb_spec di (max - 6)); [|lia].
  rewrite IH by lia. reflexivity.
Qed.

(** The buffer is never overrun: at most [max - 1] characters are written
    before the terminator. *)
Lemma tc__xml_escape_loop_bound (s : string) (max : Z) :
  6 <= max < SIZE_MODULUS ->
  forall di : Z,
    0 <= di ->
    di + strlen (tc__xml_escape_loop s max di) <= Z.max di (max - 1).
Proof.
  intros Hmax.
  induction s as [|c s IH]; intros di Hdi; cbn [tc__xml_escape_loop].
  - unfold strlen; simpl; lia.
  - unfold size_sub. rewrite Z.mod_small by lia.
    destruct (Z.ltb_spec di (max - 6)).
    + rewrite strlen_app. pose proof (xml_entity_length c).
      specialize (IH (di + strlen (xml_entity c))). lia.
    + unfold strlen; simpl; lia.
Qed.

(** Where the loop stops: it copies the characters before which fewer than
    [max - 6] characters were written, and no other. *)
Lemma tc__xml_escape_loop_stop (s : string) (max : Z) :
  6 <= max < SIZE_MODULUS ->
  forall di : Z,
    exists n : nat,
      (n <= String.length s)%nat /\
      tc__xml_escape_loop s max di = xml_escape_all (str_take n s) /\
      (forall k : nat,
         (k < n)%nat ->
         di + strlen (xml_escape_all (str_take k s)) < max - 6) /\
      ((n < String.length s)%nat ->
       max - 6 <= di + strlen (xml_escape_all (str_take n s))).
Proof.
  intros Hmax.
  induction s as [|c s IH]; intros di.
  - exists 0%nat. cbn. repeat split; intros; lia.
  - cbn [tc__xml_escape_loop]. unfold size_sub. rewrite Z.mod_small by lia.
    destruct (Z.ltb_spec di (max - 6)) as [Hlt|Hge].
    + destruct (IH (di + strlen (xml_entity c))) as (n & Hn & Hout & Hk & Hstop).
      exists (S n). cbn [str_take xml_escape_all String.length].
      split; [lia|]. split; [now rewrite Hout|]. split.
      * intros [|k] Hlt'; cbn [str_take xml_escape_all].
        -- change (strlen EmptyString) with 0. lia.
        -- rewrite strlen_app. specialize (Hk k ltac:(lia)). lia.
      * intros Hcut. rewrite strlen_app. specialize (Hstop ltac:(lia)). lia.
    + exists 0%nat. cbn [str_take xml_escape_all String.length].
      change (strlen EmptyString) with 0.
      split; [lia|]. split; [reflexivity|]. split; intros; lia.
Qed.

(** A longer prefix has a longer escaped form. *)
Lemma xml_escape_all_take_mono (s : string) :
  forall k n : nat,
    (k <= n)%nat ->
    strlen (xml_escape_all (str_take k s))
    <= strlen (xml_escape_all (str_take n s)).
Proof.
  induction s as [|c s IH]; intros [|k] [|n] Hkn; cbn [str_take xml_escape_all];
    try lia.
  - apply strlen_nonneg.
  - rewrite !strlen_app. specialize (IH k n ltac:(lia)). lia.
Qed.

(** C7 (as amended). [tc__xml_escape] replaces each of the five reserved
    characters it copies by its named entity and copies the other characters
    as they are.  Before each character it checks that fewer than [max - 6]
    characters were written: its output is the escaped form of the first
    [n] characters of the input, where [n] is the first position at which
    the escaped text has reached [max - 6] characters (the whole input when
    there is none), and at most [max - 1] characters are written.
    Un-escaping the output gives the input back exactly when the whole input
    was copied, that is when the input is empty or the escaped form of the
    input without its last character has fewer than [max - 6] characters.
    This is so when the escaped form of the whole input has at most
    [max - 6] characters, and, for the buffers of [2 * TC_MAX_MSG_LEN] bytes
    of the report writer, for every input of at most 170 characters.
    Otherwise un-escaping gives the copied prefix only, which is not the
    input. *)
Theorem xml_escape_round_trip (s : string) (max : Z) :
  6 <= max < SIZE_MODULUS ->
  let out := tc__xml_escape (Some s) max in
  let last := (String.length s - 1)%nat in
  (exists n : nat,
     (n <= String.length s)%nat /\
     out = xml_escape_all (str_take n s) /\
     xml_unescape out = str_take n s /\
     (forall k : nat,
        (k < n)%nat -> strlen (xml_escape_all (str_take k s)) < max - 6) /\
     ((n < String.length s)%nat ->
      max - 6 <= strlen (xml_escape_all (str_take n s)) /\
      xml_unescape out <> s)) /\
  (xml_unescape out = s <->
   s = EmptyString \/ strlen (xml_escape_all (str_take last s)) < max - 6) /\
  (strlen (xml_escape_all s) <= max - 6 ->
   out = xml_escape_all s /\ xml_unescape out = s) /\
  (6 * (strlen s - 1) < max - 6 ->
   out = xml_escape_all s /\ xml_unescape out = s) /\
  (max = ESCAPED_SIZE -> strlen s <= 170 -> xml_unescape out = s) /\
  strlen out <= max - 1 /\
  (xml_entity "&" = "&amp;" /\ xml_entity "<" = "&lt;" /\
   xml_entity ">" = "&gt;" /\ xml_entity "034" = "&quot;" /\
   xml_entity "'" = "&apos;" /\
   forall c : ascii,
     c <> "&"%char -> c <> "<"%char -> c <> ">"%char -> c <> "034"%char ->
     c <> "'"%char -> xml_entity c = String c EmptyString).
Proof.
  intros Hmax. cbn zeta. cbn [tc__xml_escape].
  destruct (tc__xml_escape_loop_stop s max Hmax 0)
    as (n & Hn & Hout & Hk & Hstop).
  assert (Hback : xml_unescape (tc__xml_escape_loop s max 0) = str_take n s).
  { rewrite Hout. apply xml_unescape_escape_all. }
  assert (Hcut : (n < String.length s)%nat ->
                 xml_unescape (tc__xml_escape_loop s max 0) <> s).
  { intros Hlt Heq. rewrite Hback in Heq.
    apply (f_equal String.length) in Heq.
    rewrite str_take_length in Heq. lia. }
  assert (Hwhole : n = String.length s ->
                   tc__xml_escape_loop s max 0 = xml_escape_all s /\
                   xml_unescape (tc__xml_escape_loop s max 0) = s).
  { intros ->. rewrite Hback, Hout. now rewrite str_take_all by lia. }
  assert (Hiff : xml_unescape (tc__xml_escape_loop s max 0) = s <->
                 s = EmptyString \/
                 strlen (xml_escape_all (str_take (String.length s - 1) s))
                 < max - 6).
  { split.
    - intros Heq.
      destruct (Nat.eq_dec n (String.length s)) as [->|Hne];
        [|exfalso; apply Hcut; [lia|exact Heq]].
      destruct s as [|c s]; [now left|right].
      specialize (Hk (String.length (String c s) - 1)%nat).
      cbn [String.length] in *. specialize (Hk ltac:(lia)). lia.
    - intros [->|Hlast]; [reflexivity|].
      apply Hwhole.
      destruct (Nat.eq_dec n (String.length s)) as [E|Hne]; [exact E|].
      exfalso. specialize (Hstop ltac:(lia)).
      pose proof (xml_escape_all_take_mono s n (String.length s - 1)
                    ltac:(lia)).
      lia. }
  assert (Hfit : strlen (xml_escape_all s) <= max - 6 ->
                 tc__xml_escape_loop s max 0 = xml_escape_all s /\
                 xml_unescape (tc__xml_escape_loop s max 0) = s).
  { intros Hlen. rewrite tc__xml_escape_loop_fits by (assumption || lia).
    split; [reflexivity|apply xml_unescape_escape_all]. }
  assert (Hshort : 6 * (strlen s - 1) < max - 6 ->
                   tc__xml_escape_loop s max 0 = xml_escape_all s /\
                   xml_unescape (tc__xml_escape_loop s max 0) = s).
  { intros Hlen. apply Hwhole.
    destruct (Nat.eq_dec n (String.length s)) as [E|Hne]; [exact E|].
    exfalso. specialize (Hstop ltac:(lia)).
    pose proof (xml_escape_all_length (str_take n s)) as Hb.
    unfold strlen in Hb, Hlen. rewrite str_take_length in Hb.
    unfold strlen in Hstop. lia. }
  split.
  { exists n. split; [exact Hn|]. split; [exact Hout|]. split; [exact Hback|].
    split.
    - intros k Hlt. specialize (Hk k Hlt). lia.
    - intros Hlt. split; [specialize (Hstop Hlt); lia|now apply Hcut]. }
  split; [exact Hiff|]. split; [exact Hfit|]. split; [exact Hshort|].
  split.
  { intros -> Hlen. apply Hshort.
    unfold ESCAPED_SIZE, TC_MAX_MSG_LEN. lia. }
  split.
  { pose proof (tc__xml_escape_loop_bound s max Hmax 0 ltac:(lia)). lia. }
  repeat split; try reflexivity.
  intros c H1 H2 H3 H4 H5. unfold xml_entity.
  repeat match goal with
         | |- context [Ascii.eqb ?a ?b] =>
             destruct (Ascii.eqb_spec a b); [congruence|]
         end.
  reflexivity.
Qed.

(** C7, at a name with every reserved character, and at the longest text
    of double quotes that the report writer recovers: 170 of them, whose
    escaped form has 1020 characters. *)
Lemma xml_escape_round_trip_witness :
  let s := "a<b> & " +:+ DQUOTE +:+ "c'd" +:+ DQUOTE in
  let q := str_repeat "034"%char 170 in
  tc__xml_escape (Some s) ESCAPED_SIZE
  = "a&lt;b&gt; &amp; &quot;c&apos;d&quot;" /\
  xml_unescape (tc__xml_escape (Some s) ESCAPED_SIZE) = s /\
  strlen (xml_escape_all q) = 1020 /\
  xml_unescape (tc__xml_escape (Some q) ESCAPED_SIZE) = q.
Proof.
  cbn zeta.
  assert (Hmax : 6 <= ESCAPED_SIZE < SIZE_MODULUS).
  { vm_compute. split; [discriminate|reflexivity]. }
  destruct (xml_escape_round_trip ("a<b> & " +:+ DQUOTE +:+ "c'd" +:+ DQUOTE)
              ESCAPED_SIZE Hmax) as (_ & _ & Hfit & _).
  destruct Hfit as [Hesc Hback].
  { vm_compute. discriminate. }
  destruct (xml_escape_round_trip (str_repeat "034"%char 170) ESCAPED_SIZE
              Hmax) as (_ & Hiff & _).
  split; [rewrite Hesc; reflexivity|]. split; [exact Hback|].
  split; [vm_compute; reflexivity|].
  apply Hiff. right. vm_compute. reflexivity.
Defined.

(** C7, as stated, fails: a message of 300 ampersands is within the length
    bound of a message, yet only 204 of them are escaped into the
    1024-byte buffer of the report writer, so un-escaping does not give the
    message back. *)
Lemma xml_escape_round_trip_counterexample :
  let s := str_repeat "&"%char 300 in
  strlen s < TC_MAX_MSG_LEN /\
  tc__safe_copy (Some s) TC_MAX_MSG_LEN = s /\
  xml_unescape (tc__xml_escape (Some s) ESCAPED_SIZE) = str_repeat "&"%char 204 /\
  xml_unescape (tc__xml_escape (Some s) ESCAPED_SIZE) <> s.
Proof.
  cbn zeta. split; [reflexivity|]. split; [vm_compute; reflexivity|].
  assert (Hun : xml_unescape (tc__xml_escape (Some (str_repeat "&"%char 300))
                                ESCAPED_SIZE)
                = str_repeat "&"%char 204) by (vm_compute; reflexivity).
  split; [exact Hun|]. rewrite Hun. intros Heq.
  apply (f_equal String.length) in Heq. vm_compute in Heq. discriminate Heq.
Qed.

(** ** Frame properties of the engine *)

Section Frames.
Context `{Platform}.

Lemma quiet_refl (m : Machine) : quiet m m.
Proof. split; [unfold extends; reflexivity|split; reflexivity]. Qed.

Lemma quiet_trans (m1 m2 m3 : Machine) :
  quiet m1 m2 -> quiet m2 m3 -> quiet m1 m3.
Proof.
  intros [He1 [Hc1 Hr1]] [He2 [Hc2 Hr2]]. split; [|split].
  - unfold extends in *. etrans; eassumption.
  - congruence.
  - congruence.
Qed.

Lemma frame_refl (idx : Z) (m : Machine) : frame idx m m.
Proof. split; [unfold extends; reflexivity|intros k _; reflexivity]. Qed.

Lemma frame_trans (idx : Z) (m1 m2 m3 : Machine) :
  frame idx m1 m2 -> frame idx m2 m3 -> frame idx m1 m3.
Proof.
  intros [He1 Hk1] [He2 Hk2]. split.
  - unfold extends in *. etrans; eassumption.
  - intros k Hk. rewrite Hk2, Hk1 by assumption. reflexivity.
Qed.

Lemma quiet_frame (idx : Z) (m m' : Machine) : quiet m m' -> frame idx m m'.
Proof.
  intros [He [Hc _]]. split; [assumption|]. intros k _. now rewrite Hc.
Qed.

Lemma quiet_emit (e : Event) (m : Machine) : quiet m (emit e m).
Proof.
  split; [|split; reflexivity]. unfold extends, emit. cbn [trace].
  now apply prefix_app_r.
Qed.

Lemma quiet_printf (text : string) (m : Machine) : quiet m (printf text m).
Proof. apply quiet_emit. Qed.

Lemma quiet_set_world (w : World) (m : Machine) : quiet m (set_world w m).
Proof. split; [unfold extends; reflexivity|split; reflexivity]. Qed.

Lemma quiet_get_time (m : Machine) : quiet m (snd (tc__get_time_ms m)).
Proof.
  unfold tc__get_time_ms. destruct (clock_ms (world m)) as [t w].
  apply quiet_set_world.
Qed.

Lemma quiet_run_test (t : Test) (env : Env) (m : Machine) :
  quiet m (snd (tc_run_test t env m)).
Proof.
  unfold tc_run_test. destruct (fn t) as [f|]; [|apply quiet_refl].
  pose proof (quiet_get_time m) as H1.
  destruct (tc__get_time_ms m) as [start m1]. cbn [snd] in H1.
  pose proof (quiet_emit (EvTest (test_name t)) m1) as H2.
  destruct (f env (world (emit (EvTest (test_name t)) m1))) as [r w].
  pose proof (quiet_set_world w (emit (EvTest (test_name t)) m1)) as H3.
  pose proof (quiet_get_time (set_world w (emit (EvTest (test_name t)) m1)))
    as H4.
  destruct (tc__get_time_ms (set_world w (emit (EvTest (test_name t)) m1)))
    as [stop m2]. cbn [snd] in *.
  eauto using quiet_trans.
Qed.

Lemma quiet_print_errors (color : string) (errs : list TestError) :
  forall m : Machine, quiet m (tc__print_errors color errs m).
Proof.
  induction errs as [|e errs IH]; intros m; cbn [tc__print_errors];
    [apply quiet_refl|].
  eapply quiet_trans; [|apply IH].
  eapply quiet_trans; [apply quiet_printf|].
  destruct (negb _); [|apply quiet_refl].
  eapply quiet_trans; apply quiet_printf.
Qed.

Lemma quiet_print_result (name : string) (r : TestResult) (m : Machine) :
  quiet m (tc_print_result name r m).
Proof.
  unfold tc_print_result.
  destruct (tag r); cbn zeta beta iota.
  - apply quiet_printf.
  - eapply quiet_trans; [apply quiet_printf|apply quiet_print_errors].
  - destruct (0 <? error_count r).
    + eapply quiet_trans; apply quiet_printf.
    + apply quiet_printf.
Qed.

Lemma frame_store_result (suite_idx : Z) (i : nat) (r : TestResult)
    (m : Machine) :
  frame suite_idx m (tc__store_result suite_idx i r m).
Proof.
  unfold tc__store_result.
  destruct ((0 <=? suite_idx) && (suite_idx <? TC_MAX_SUITES)) eqn:Hin;
    [|apply frame_refl].
  split; [unfold extends; reflexivity|].
  intros k Hk. cbn [tc__result_counts]. apply list_lookup_insert_ne.
  apply andb_true_iff in Hin as [Hlo _]. apply Z.leb_le in Hlo. lia.
Qed.

Lemma frame_run_tests (ts : list Test) (suite_idx : Z) (env : Env) :
  forall (i : nat) (summary : RunSummary) (m : Machine),
    frame suite_idx m (snd (tc__run_tests ts i suite_idx env summary m)).
Proof.
  induction ts as [|t ts IH]; intros i summary m; cbn [tc__run_tests];
    [apply frame_refl|].
  pose proof (quiet_run_test t env m) as H1.
  destruct (tc_run_test t env m) as [r m1]. cbn [snd] in H1.
  eapply frame_trans; [|apply IH].
  eapply frame_trans; [apply quiet_frame, H1|].
  eapply frame_trans; [apply quiet_frame, quiet_print_result|].
  apply frame_store_result.
Qed.

Lemma quiet_run_teardown (suite : Suite) (env : Env) (m : Machine) :
  quiet m (tc__run_teardown suite env m).
Proof.
  unfold tc__run_teardown. destruct (teardown suite); [|apply quiet_refl].
  eapply quiet_trans; [apply quiet_emit|apply quiet_set_world].
Qed.

Lemma frame_run_suite_body (suite : Suite) (suite_idx : Z) (start : float)
    (env : Env) (m : Machine) :
  frame suite_idx m (snd (tc__run_suite_body suite suite_idx start env m)).
Proof.
  unfold tc__run_suite_body.
  pose proof (frame_run_tests (suite_tests suite) suite_idx env 0%nat
                zero_summary m) as H1.
  destruct (tc__run_tests (suite_tests suite) 0 suite_idx env zero_summary m)
    as [summary m1]. cbn [snd] in H1.
  pose proof (quiet_run_teardown suite env m1) as H2.
  pose proof (quiet_get_time (tc__run_teardown suite env m1)) as H3.
  destruct (tc__get_time_ms (tc__run_teardown suite env m1)) as [stop m2].
  cbn [snd] in *.
  eapply frame_trans; [exact H1|]. apply quiet_frame.
  eapply quiet_trans; [exact H2|].
  eapply quiet_trans; [exact H3|apply quiet_printf].
Qed.

Lemma frame_run_suite_ex (suite : Suite) (suite_idx : Z) (m : Machine) :
  frame suite_idx m (snd (tc__run_suite_ex suite suite_idx m)).
Proof.
  unfold tc__run_suite_ex.
  pose proof (quiet_get_time m) as H1.
  destruct (tc__get_time_ms m) as [start m1]. cbn [snd] in H1.
  eapply frame_trans; [apply quiet_frame, H1|].
  eapply frame_trans; [apply quiet_frame, quiet_printf|].
  destruct (setup suite) as [su|]; [|apply frame_run_suite_body].
  destruct (su _) as [[ret env] w].
  eapply frame_trans; [apply quiet_frame, quiet_emit|].
  eapply frame_trans; [apply quiet_frame, quiet_set_world|].
  destruct (negb (ret =? 0)); [|apply frame_run_suite_body].
  cbn [snd]. apply quiet_frame, quiet_printf.
Qed.

(** Running the suites numbered from [i] on grows the trace and touches
    the counts of these suites only. *)
Lemma tc__run_suites_frame (suites : list Suite) (store : bool) :
  forall (i : nat) (total : RunSummary) (m : Machine),
    let m' := snd (tc__run_suites suites i store total m) in
    extends m m' /\
    forall k : nat,
      (k < i \/ i + length suites <= k)%nat ->
      tc__result_counts m' !! k = tc__result_counts m !! k.
Proof.
  induction suites as [|suite suites IH]; intros i total m;
    cbn [tc__run_suites].
  - split; [unfold extends; reflexivity|reflexivity].
  - pose proof (frame_run_suite_ex suite
                  (if store then Z.of_nat i else -1) m) as [He Hk].
    destruct (tc__run_suite_ex suite (if store then Z.of_nat i else -1) m)
      as [s m1]. cbn [snd] in *.
    match goal with
    | |- context [tc__run_suites suites (S i) store ?t m1] =>
        destruct (IH (S i) t m1) as [He' Hk']
    end.
    cbn zeta in *. split.
    + unfold extends in *. etrans; eassumption.
    + intros k Hrange. cbn [length] in Hrange.
      rewrite Hk' by lia. apply Hk. destruct store; lia.
Qed.

(** The totals add up, and the machine does not depend on them. *)
Lemma tc__run_suites_total (suites : list Suite) (store : bool) :
  forall (i : nat) (total : RunSummary) (m : Machine),
    let out := tc__run_suites suites i store total m in
    let out0 := tc__run_suites suites i store zero_summary m in
    snd out = snd out0 /\
    passed (fst out) = passed total + passed (fst out0) /\
    failed (fst out) = failed total + failed (fst out0) /\
    skipped (fst out) = skipped total + skipped (fst out0).
Proof.
  induction suites as [|suite suites IH]; intros i total m;
    cbn [tc__run_suites].
  - cbn. repeat split; lia.
  - destruct (tc__run_suite_ex suite (if store then Z.of_nat i else -1) m)
      as [s m1].
    match goal with
    | |- context [tc__run_suites suites (S i) store ?t m1] =>
        destruct (IH (S i) t m1) as (Hm & Hp & Hf & Hs)
    end.
    match goal with
    | |- context [tc__run_suites suites (S i) store
                    {| passed := passed zero_summary + ?a;
                       failed := ?b; skipped := ?c; total_ms := ?d |} m1] =>
        destruct (IH (S i) {| passed := passed zero_summary + a; failed := b;
                              skipped := c; total_ms := d |} m1)
          as (Hm0 & Hp0 & Hf0 & Hs0)
    end.
    cbn zeta in *. cbn [passed failed skipped zero_summary] in *.
    repeat split; [congruence|lia..].
Qed.

Lemma tc__run_suites_app (pre post : list Suite) (store : bool) :
  forall (i : nat) (total : RunSummary) (m : Machine),
    tc__run_suites (pre ++ post) i store total m
    = tc__run_suites post (i + length pre) store
        (fst (tc__run_suites pre i store total m))
        (snd (tc__run_suites pre i store total m)).
Proof.
  induction pre as [|suite pre IH]; intros i total m.
  - cbn. now rewrite Nat.add_0_r.
  - cbn [app tc__run_suites length].
    destruct (tc__run_suite_ex suite (if store then Z.of_nat i else -1) m)
      as [s m1].
    rewrite IH. now replace (S i + length pre)%nat with (i + S (length pre))%nat
      by lia.
Qed.

End Frames.

(** ** The report *)

Section ReportFacts.
Context `{Platform}.

(** The report depends on the machine through the stored results only. *)
Lemma tc__xml_suite_store (i : nat) (suite : Suite) (m m' : Machine) :
  same_store m m' -> tc__xml_suite i suite m' = tc__xml_suite i suite m.
Proof. intros [Hc Hr]. unfold tc__xml_suite. now rewrite Hc, Hr. Qed.

Lemma tc__xml_suites_store (suites : list Suite) (m m' : Machine) :
  same_store m m' ->
  forall i : nat, tc__xml_suites suites i m' = tc__xml_suites suites i m.
Proof.
  intros Hs. induction suites as [|suite suites IH]; intros i;
    cbn [tc__xml_suites]; [reflexivity|].
  now rewrite (tc__xml_suite_store i suite m m' Hs), IH.
Qed.

(** The elements of the first suites come first. *)
Lemma tc__xml_suites_app (pre post : list Suite) (m : Machine) :
  forall i : nat,
    tc__xml_suites (pre ++ post) i m
    = (a ← tc__xml_suites pre i m;
       b ← tc__xml_suites post (i + length pre) m;
       Some (a ++ b)).
Proof.
  induction pre as [|suite pre IH]; intros i.
  - cbn [app tc__xml_suites length mbind option_bind]. rewrite Nat.add_0_r.
    destruct (tc__xml_suites post i m); reflexivity.
  - cbn [app tc__xml_suites length].
    destruct (tc__xml_suite i suite m) as [one|]; [|reflexivity].
    cbn [mbind option_bind]. rewrite IH.
    replace (i + S (length pre))%nat with (S i + length pre)%nat by lia.
    destruct (tc__xml_suites pre (S i) m) as [a|]; [|reflexivity].
    cbn [mbind option_bind].
    destruct (tc__xml_suites post _ m) as [b|]; [|reflexivity].
    cbn [mbind option_bind]. now rewrite app_assoc.
Qed.

Lemma fprintf_all_trace (path : string) (pieces : list string) :
  forall m : Machine,
    trace (fprintf_all path pieces m)
    = trace m ++ map (EvFprintf path) pieces /\
    world (fprintf_all path pieces m) = world m /\
    same_store m (fprintf_all path pieces m).
Proof.
  unfold fprintf_all.
  induction pieces as [|text pieces IH]; intros m; cbn [fold_left map].
  - rewrite app_nil_r. repeat split.
  - destruct (IH (emit (EvFprintf path text) m)) as (Ht & Hw & Hc & Hr).
    rewrite Ht, Hw. cbn [emit trace world]. rewrite <- app_assoc.
    repeat split; assumption.
Qed.

(** What [tc_write_junit_xml] does when the file can be opened: it writes
    the pieces of the document, in order, between opening and closing the
    file. *)
Lemma tc_write_junit_xml_spec (filename : string) (suites : list Suite)
    (summary : RunSummary) (m : Machine) (w : World) (doc : list string) :
  fopen_w filename (world m) = Some w ->
  tc__xml_document suites summary m = Some doc ->
  exists m' : Machine,
    tc_write_junit_xml filename suites summary m = Some (0, m') /\
    trace m' = trace m ++ [EvFopen filename true]
               ++ map (EvFprintf filename) doc ++ [EvFclose filename] /\
    world m' = w /\ same_store m m'.
Proof.
  intros Hopen Hdoc. unfold tc_write_junit_xml. rewrite Hopen.
  assert (Hdoc' : tc__xml_document suites summary
                    (set_world w (emit (EvFopen filename true) m)) = Some doc).
  { unfold tc__xml_document in *.
    rewrite (tc__xml_suites_store suites m); [exact Hdoc|].
    split; reflexivity. }
  rewrite Hdoc'. cbn [mbind option_bind].
  destruct (fprintf_all_trace filename doc
              (set_world w (emit (EvFopen filename true) m)))
    as (Ht & Hw & Hc & Hr).
  eexists. split; [reflexivity|].
  unfold same_store.
  change (world (emit ?e ?x)) with (world x).
  change (tc__result_counts (emit ?e ?x)) with (tc__result_counts x).
  change (tc__results (emit ?e ?x)) with (tc__results x).
  change (trace (emit ?e ?x)) with (trace x ++ [e]).
  rewrite Ht, Hw, Hc, Hr. unfold set_world, emit.
  cbn [trace world tc__result_counts tc__results].
  rewrite <- !app_assoc. repeat split.
Qed.

(** *** The elapsed times of the stored results *)

(** The time the tallies end with is the sum of the elapsed times. *)
Lemma tc__xml_tally_time (rs : list TestResult) :
  forall acc : Z * Z * Z * float,
    snd (tc__xml_tally rs acc)
    = fold_left (fun t r => PrimFloat.add t (elapsed_ms r)) rs (snd acc).
Proof.
  induction rs as [|r rs IH]; intros [[[p f] k] t]; [reflexivity|].
  cbn [tc__xml_tally fold_left snd]. rewrite IH.
  destruct (tag r); reflexivity.
Qed.

(** The counts of the tallies depend on the tags only. *)
Lemma tc__xml_tally_tags (rs rs' : list TestResult) :
  Forall2 (fun r r' => tag r = tag r') rs rs' ->
  forall (p f k : Z) (t t' : float),
    fst (tc__xml_tally rs (p, f, k, t)) = fst (tc__xml_tally rs' (p, f, k, t')).
Proof.
  induction 1 as [|r r' rs rs' Htag _ IH]; intros p f k t t'; [reflexivity|].
  cbn [tc__xml_tally]. rewrite <- Htag. destruct (tag r); apply IH.
Qed.

Lemma tc__tally_counts_alter (e : float) (j : nat) (rs : list TestResult) :
  tc__tally_counts (alter (set_elapsed e) j rs) = tc__tally_counts rs.
Proof.
  unfold tc__tally_counts. apply tc__xml_tally_tags.
  revert j. induction rs as [|r rs IH]; intros [|j]; cbn;
    repeat constructor; try apply IH.
  apply Forall2_same_length_lookup. split; [reflexivity|].
  intros i x y Hx Hy. congruence.
Qed.

(** What is written for suite number [i], with the tallies spelled out. *)
Lemma tc__xml_suite_spec (i : nat) (suite : Suite) (m : Machine) :
  tc__xml_suite i suite m
  = (count ← tc__result_counts m !! i;
     let stored := take (Z.to_nat count) (tc__results m !!! i) in
     cases ← tc__xml_testcases (suite_tests suite) stored;
     let '(p, f, k) := tc__tally_counts stored in
     Some (tc__xml_suite_open (suite_name suite) (p + f + k) f k
             (tc__elapsed_sum stored)
           :: cases ++ ["    </testsuite>" +:+ LF])).
Proof.
  unfold tc__xml_suite.
  destruct (tc__result_counts m !! i) as [count|]; [|reflexivity].
  cbn [mbind option_bind]. cbn zeta.
  set (stored := take (Z.to_nat count) (tc__results m !!! i)).
  unfold tc__tally_counts, tc__elapsed_sum.
  pose proof (tc__xml_tally_time stored (0, 0, 0, 0%float)) as Ht.
  destruct (tc__xml_tally stored (0, 0, 0, 0%float)) as [[[p f] k] t].
  cbn [fst snd] in *. now rewrite Ht.
Qed.

(** The element of a skipped test. *)
Lemma tc__xml_testcase_skip (name : string) (r : TestResult) :
  tag r = TC_SKIP ->
  tc__xml_testcase name r
  = Some ["        <testcase name=" +:+ DQUOTE
          +:+ tc__xml_escape (Some name) ESCAPED_SIZE +:+ DQUOTE
          +:+ " time=" +:+ DQUOTE +:+ "0" +:+ DQUOTE +:+ ">" +:+ LF;
          if 0 <? error_count r then
            "            <skipped message=" +:+ DQUOTE
            +:+ tc__xml_escape (Some (message (errors r !!! 0%nat)))
                  ESCAPED_SIZE
            +:+ DQUOTE +:+ "/>" +:+ LF
          else "            <skipped/>" +:+ LF;
          "        </testcase>" +:+ LF].
Proof. intros Htag. unfold tc__xml_testcase. now rewrite Htag. Qed.

(** Where the element of test [j] stands among those of its suite:
    behind the elements of the tests before it and before those of the
    tests after it. *)
Lemma tc__xml_testcases_at (ts : list Test) :
  forall (rs : list TestResult) (cases : list string) (j : nat) (t : Test)
         (r : TestResult) (one : list string),
    tc__xml_testcases ts rs = Some cases ->
    ts !! j = Some t -> rs !! j = Some r ->
    tc__xml_testcase (test_name t) r = Some one ->
    exists before after : list string,
      tc__xml_testcases (take j ts) (take j rs) = Some before /\
      tc__xml_testcases (drop (S j) ts) (drop (S j) rs) = Some after /\
      cases = before ++ one ++ after.
Proof.
  induction ts as [|t0 ts IH]; intros rs cases j t r one Hcases Ht Hr Hone;
    [discriminate|].
  destruct rs as [|r0 rs]; [discriminate|].
  cbn [tc__xml_testcases] in Hcases.
  destruct (tc__xml_testcase (test_name t0) r0) as [first|] eqn:Hfirst;
    [|discriminate].
  cbn [mbind option_bind] in Hcases.
  destruct (tc__xml_testcases ts rs) as [more|] eqn:Hmore; [|discriminate].
  cbn [mbind option_bind] in Hcases. injection Hcases as <-.
  destruct j as [|j]; cbn in Ht, Hr.
  - injection Ht as ->. injection Hr as ->.
    rewrite Hone in Hfirst. injection Hfirst as <-.
    exists [], more. cbn [take drop]. rewrite !drop_0.
    repeat split. exact Hmore.
  - destruct (IH rs more j t r one Hmore Ht Hr Hone)
      as (before & after & Hb & Ha & ->).
    exists (first ++ before), after.
    cbn [take drop tc__xml_testcases]. rewrite Hfirst, Hb.
    cbn [mbind option_bind]. split; [reflexivity|]. split; [exact Ha|].
    now rewrite <- app_assoc.
Qed.

(** The elapsed time of a skipped result does not show in the elements of
    the tests. *)
Lemma tc__xml_testcases_alter (e : float) (ts : list Test) :
  forall (rs : list TestResult) (j : nat) (r : TestResult),
    rs !! j = Some r -> tag r = TC_SKIP ->
    tc__xml_testcases ts (alter (set_elapsed e) j rs)
    = tc__xml_testcases ts rs.
Proof.
  induction ts as [|t0 ts IH]; intros rs j r Hr Htag.
  - destruct (alter (set_elapsed e) j rs), rs; reflexivity.
  - destruct rs as [|r0 rs]; [discriminate|].
    destruct j as [|j]; cbn in Hr.
    + injection Hr as ->. cbn [alter list_alter tc__xml_testcases].
      rewrite !tc__xml_testcase_skip by assumption. reflexivity.
    + cbn [alter list_alter tc__xml_testcases].
      change (list_alter (set_elapsed e) j rs)
        with (alter (set_elapsed e) j rs).
      now rewrite (IH rs j r Hr Htag).
Qed.

(** Changing one stored result leaves the elements of the other suites as
    they are. *)
Lemma tc__xml_suites_with_elapsed (i j : nat) (e : float) (m : Machine)
    (suites : list Suite) :
  forall k : nat,
    (i < k \/ k + length suites <= i)%nat ->
    tc__xml_suites suites k (tc__with_elapsed i j e m)
    = tc__xml_suites suites k m.
Proof.
  induction suites as [|suite suites IH]; intros k Hk; [reflexivity|].
  cbn [tc__xml_suites length] in *.
  rewrite IH by lia.
  assert (Hone : tc__xml_suite k suite (tc__with_elapsed i j e m)
                 = tc__xml_suite k suite m).
  { unfold tc__xml_suite, tc__with_elapsed.
    cbn [tc__result_counts tc__results].
    rewrite list_lookup_total_alter_ne by lia. reflexivity. }
  now rewrite Hone.
Qed.

(** C9 (as amended). In the report that [tc_write_junit_xml] writes, the
    stored result of a test of a suite that is tagged Skip is a [testcase]
    element whose [time] attribute is the literal ["0"], followed by the
    [skipped] marker and the closing tag, whatever [elapsed_ms] was
    recorded for it.  The recorded time still shows in the report: the
    [time] attribute of the [testsuite] element around it is the sum of
    the [elapsed_ms] of all stored results of the suite, skipped ones
    included.  With another [elapsed_ms] in that stored result the writer
    writes the same lines, except for the time in the opening line of that
    [testsuite] element.  The lines of the report are given in full: the
    declaration and the root, the elements of the suites before, the
    opening line of the suite, the elements of the tests before this one,
    the element of this test, those of the tests after it, the closing
    line of the suite, the elements of the suites after it and the closing
    line of the root. *)
Theorem skipped_testcase_time_zero (filename : string)
    (pre post : list Suite) (s : Suite) (summary : RunSummary) (m : Machine)
    (w : World) (doc : list string) (count : Z) (j : nat) (t : Test)
    (r : TestResult) :
  fopen_w filename (world m) = Some w ->
  tc__xml_document (pre ++ s :: post) summary m = Some doc ->
  tc__result_counts m !! length pre = Some count ->
  (j < Z.to_nat count)%nat ->
  (tc__results m !!! length pre) !! j = Some r ->
  suite_tests s !! j = Some t ->
  tag r = TC_SKIP ->
  let stored := take (Z.to_nat count) (tc__results m !!! length pre) in
  let element :=
    ["        <testcase name=" +:+ DQUOTE
     +:+ tc__xml_escape (Some (test_name t)) ESCAPED_SIZE +:+ DQUOTE
     +:+ " time=" +:+ DQUOTE +:+ "0" +:+ DQUOTE +:+ ">" +:+ LF;
     if 0 <? error_count r then
       "            <skipped message=" +:+ DQUOTE
       +:+ tc__xml_escape (Some (message (errors r !!! 0%nat))) ESCAPED_SIZE
       +:+ DQUOTE +:+ "/>" +:+ LF
     else "            <skipped/>" +:+ LF;
     "        </testcase>" +:+ LF] in
  exists (m' : Machine)
         (before_s cases_before cases_after after_s : list string)
         (p f k : Z),
    let report (suite_time : float) :=
      ["<?xml version=" +:+ DQUOTE +:+ "1.0" +:+ DQUOTE +:+ " encoding="
       +:+ DQUOTE +:+ "UTF-8" +:+ DQUOTE +:+ "?>" +:+ LF;
       tc__xml_root_open summary]
      ++ before_s
      ++ [tc__xml_suite_open (suite_name s) (p + f + k) f k suite_time]
      ++ cases_before ++ element ++ cases_after
      ++ ["    </testsuite>" +:+ LF]
      ++ after_s ++ ["</testsuites>" +:+ LF] in
    tc_write_junit_xml filename (pre ++ s :: post) summary m = Some (0, m') /\
    trace m' = trace m ++ [EvFopen filename true]
               ++ map (EvFprintf filename) doc ++ [EvFclose filename] /\
    doc = report (tc__elapsed_sum stored) /\
    tc__xml_suites pre 0 m = Some before_s /\
    tc__xml_testcases (take j (suite_tests s)) (take j stored)
    = Some cases_before /\
    tc__xml_testcases (drop (S j) (suite_tests s)) (drop (S j) stored)
    = Some cases_after /\
    tc__xml_suites post (S (length pre)) m = Some after_s /\
    tc__tally_counts stored = (p, f, k) /\
    forall e : float,
      let m2 := tc__with_elapsed (length pre) j e m in
      let stored2 := take (Z.to_nat count) (tc__results m2 !!! length pre) in
      stored2 = alter (set_elapsed e) j stored /\
      exists m2' : Machine,
        tc_write_junit_xml filename (pre ++ s :: post) summary m2
        = Some (0, m2') /\
        trace m2' = trace m ++ [EvFopen filename true]
                    ++ map (EvFprintf filename)
                         (report (tc__elapsed_sum stored2))
                    ++ [EvFclose filename].
Proof.
  intros Hopen Hdoc Hcount Hj Hr Ht Htag. cbn zeta.
  set (i := length pre) in *.
  set (row := tc__results m !!! i) in *.
  set (stored := take (Z.to_nat count) row).
  assert (Hi : (i < length (tc__results m))%nat).
  { destruct (decide (i < length (tc__results m))%nat) as [Hlt|Hge];
      [exact Hlt|exfalso].
    subst row. rewrite list_lookup_total_alt in Hr.
    rewrite (lookup_ge_None_2 (tc__results m) i) in Hr; [discriminate Hr|].
    lia. }
  assert (Hstored : stored !! j = Some r).
  { subst stored. now rewrite lookup_take_lt. }
  destruct (tc__tally_counts stored) as [[p f] k] eqn:Htally.
  pose proof Hdoc as Hwhole.
  unfold tc__xml_document in Hdoc.
  rewrite tc__xml_suites_app in Hdoc.
  destruct (tc__xml_suites pre 0 m) as [a|] eqn:Ha; [|discriminate].
  cbn [mbind option_bind Nat.add tc__xml_suites] in Hdoc.
  rewrite tc__xml_suite_spec in Hdoc. fold i in Hdoc. rewrite Hcount in Hdoc.
  cbn [mbind option_bind] in Hdoc. cbn zeta in Hdoc.
  fold row in Hdoc. fold stored in Hdoc. rewrite Htally in Hdoc.
  cbn [fst snd] in Hdoc.
  destruct (tc__xml_testcases (suite_tests s) stored) as [cases|] eqn:Hcases;
    [|discriminate].
  cbn [mbind option_bind] in Hdoc.
  destruct (tc__xml_suites post (S i) m) as [b|] eqn:Hb; [|discriminate].
  cbn [mbind option_bind] in Hdoc.
  destruct (tc__xml_testcases_at (suite_tests s) stored cases j t r _ Hcases
              Ht Hstored (tc__xml_testcase_skip (test_name t) r Htag))
    as (cb & ca & Hcb & Hca & ->).
  set (element := [_; _; _]) in *.
  set (declaration := ("<?xml version=" +:+ _)%string) in Hdoc.
  assert (Hshape : forall line : string,
             declaration :: tc__xml_root_open summary
             :: (a ++ (line :: (cb ++ element ++ ca)
                       ++ ["    </testsuite>" +:+ LF]) ++ b)
                ++ ["</testsuites>" +:+ LF]
             = [declaration; tc__xml_root_open summary] ++ a ++ [line] ++ cb
               ++ element ++ ca ++ ["    </testsuite>" +:+ LF] ++ b
               ++ ["</testsuites>" +:+ LF]).
  { intros line. cbn [app].
    repeat (rewrite <- ?app_assoc; cbn [app]). reflexivity. }
  rewrite Hshape in Hdoc. injection Hdoc as Hdoc.
  destruct (tc_write_junit_xml_spec filename (pre ++ s :: post) summary m w doc
              Hopen Hwhole) as (m' & Hwrite & Htrace & _).
  exists m', a, cb, ca, b, p, f, k.
  split; [exact Hwrite|]. split; [exact Htrace|].
  split; [exact (eq_sym Hdoc)|]. split; [reflexivity|].
  split; [exact Hcb|]. split; [exact Hca|]. split; [reflexivity|].
  split; [reflexivity|].
  intros e.
  assert (Hrow2 : tc__results (tc__with_elapsed i j e m) !!! i
                  = alter (set_elapsed e) j row).
  { unfold tc__with_elapsed. cbn [tc__results].
    now rewrite list_lookup_total_alter_eq. }
  assert (Hstored2 : take (Z.to_nat count)
                       (tc__results (tc__with_elapsed i j e m) !!! i)
                     = alter (set_elapsed e) j stored).
  { rewrite Hrow2. subst stored. now rewrite take_alter_lt. }
  split; [exact Hstored2|].
  destruct (tc_write_junit_xml_spec filename (pre ++ s :: post) summary
              (tc__with_elapsed i j e m) w
              ([declaration; tc__xml_root_open summary] ++ a
               ++ [tc__xml_suite_open (suite_name s) (p + f + k) f k
                     (tc__elapsed_sum
                        (take (Z.to_nat count)
                           (tc__results (tc__with_elapsed i j e m) !!! i)))]
               ++ cb ++ element ++ ca ++ ["    </testsuite>" +:+ LF] ++ b
               ++ ["</testsuites>" +:+ LF]) Hopen)
    as (m2' & Hwrite2 & Htrace2 & _).
  { unfold tc__xml_document. rewrite tc__xml_suites_app.
    rewrite (tc__xml_suites_with_elapsed i j e m pre 0) by (subst i; lia).
    rewrite Ha. cbn [mbind option_bind Nat.add tc__xml_suites]. fold i.
    rewrite (tc__xml_suites_with_elapsed i j e m post (S i)) by lia.
    rewrite Hb.
    rewrite tc__xml_suite_spec. fold i.
    change (tc__result_counts (tc__with_elapsed i j e m))
      with (tc__result_counts m).
    rewrite Hcount. cbn [mbind option_bind]. cbn zeta.
    rewrite Hstored2, tc__tally_counts_alter, Htally.
    rewrite (tc__xml_testcases_alter e (suite_tests s) stored j r Hstored Htag).
    rewrite Hcases. cbn [fst snd mbind option_bind].
    fold declaration. exact (f_equal Some (Hshape _)). }
  exists m2'. split; [exact Hwrite2|exact Htrace2].
Qed.

End ReportFacts.

(** C9, at a run on a platform whose clock advances: the only test of the
    suite runs for 250 ms and returns a skip.  Its [testcase] element in
    the report that is written has the time ["0"]. *)
Lemma skipped_testcase_time_zero_witness :
  let out := @tc_run_all timed_platform [timed_suite] timed_machine in
  exists m' : @Machine timed_platform,
    @tc_write_junit_xml timed_platform "report.xml" [timed_suite] (fst out)
      (snd out) = Some (0, m') /\
    trace m'
    = trace (snd out)
      ++ [EvFopen "report.xml" true]
      ++ map (EvFprintf "report.xml")
           ["<?xml version=" +:+ DQUOTE +:+ "1.0" +:+ DQUOTE +:+ " encoding="
            +:+ DQUOTE +:+ "UTF-8" +:+ DQUOTE +:+ "?>" +:+ LF;
            "<testsuites tests=" +:+ DQUOTE +:+ "1" +:+ DQUOTE
            +:+ " failures=" +:+ DQUOTE +:+ "0" +:+ DQUOTE
            +:+ " errors=" +:+ DQUOTE +:+ "0" +:+ DQUOTE
            +:+ " skipped=" +:+ DQUOTE +:+ "1" +:+ DQUOTE
            +:+ " time=" +:+ DQUOTE +:+ "1.250" +:+ DQUOTE +:+ ">" +:+ LF;
            "    <testsuite name=" +:+ DQUOTE +:+ "net" +:+ DQUOTE
            +:+ " tests=" +:+ DQUOTE +:+ "1" +:+ DQUOTE
            +:+ " failures=" +:+ DQUOTE +:+ "0" +:+ DQUOTE
            +:+ " errors=" +:+ DQUOTE +:+ "0" +:+ DQUOTE
            +:+ " skipped=" +:+ DQUOTE +:+ "1" +:+ DQUOTE
            +:+ " time=" +:+ DQUOTE +:+ "0.250" +:+ DQUOTE +:+ ">" +:+ LF;
            "        <testcase name=" +:+ DQUOTE +:+ "fetch" +:+ DQUOTE
            +:+ " time=" +:+ DQUOTE +:+ "0" +:+ DQUOTE +:+ ">" +:+ LF;
            "            <skipped message=" +:+ DQUOTE +:+ "no network"
            +:+ DQUOTE +:+ "/>" +:+ LF;
            "        </testcase>" +:+ LF;
            "    </testsuite>" +:+ LF;
            "</testsuites>" +:+ LF]
      ++ [EvFclose "report.xml"].
Proof.
  cbn zeta.
  set (out := @tc_run_all timed_platform [timed_suite] timed_machine).
  match goal with
  | |- context [map (EvFprintf "report.xml") ?lines] => set (doc := lines)
  end.
  destruct (@skipped_testcase_time_zero timed_platform "report.xml" [] []
               timed_suite (fst out) (snd out) (world (snd out)) doc 1 0%nat
               (@mkTest timed_platform "fetch"
                  (Some (fun _ w => (tc_skip (Some "no network"), w))) None)
               (set_elapsed 250%float (tc_skip (Some "no network"))))
    as (m' & _ & _ & _ & _ & _ & _ & _ & Hwrite & Htrace & _).
  - reflexivity.
  - vm_compute. reflexivity.
  - vm_compute. reflexivity.
  - vm_compute. lia.
  - vm_compute. reflexivity.
  - reflexivity.
  - reflexivity.
  - exists m'. split; [exact Hwrite|exact Htrace].
Defined.

(** C9, as stated, fails in its last part: the time measured for a test
    that ran and returned a skip is not lost from the report.  In the run
    above the stored result is tagged Skip with 250 ms, the element of the
    test says ["0"], and the [testsuite] element around it says
    ["0.250"]. *)
Lemma skipped_testcase_time_zero_counterexample :
  let out := @tc_run_all timed_platform [timed_suite] timed_machine in
  let r := (tc__results (snd out) !!! 0%nat) !!! 0%nat in
  tag r = TC_SKIP /\ elapsed_ms r = 250%float /\
  tc__result_counts (snd out) !! 0%nat = Some 1 /\
  @tc__xml_document timed_platform [timed_suite] (fst out) (snd out)
  = Some ["<?xml version=" +:+ DQUOTE +:+ "1.0" +:+ DQUOTE +:+ " encoding="
          +:+ DQUOTE +:+ "UTF-8" +:+ DQUOTE +:+ "?>" +:+ LF;
          "<testsuites tests=" +:+ DQUOTE +:+ "1" +:+ DQUOTE
          +:+ " failures=" +:+ DQUOTE +:+ "0" +:+ DQUOTE
          +:+ " errors=" +:+ DQUOTE +:+ "0" +:+ DQUOTE
          +:+ " skipped=" +:+ DQUOTE +:+ "1" +:+ DQUOTE
          +:+ " time=" +:+ DQUOTE +:+ "1.250" +:+ DQUOTE +:+ ">" +:+ LF;
          "    <testsuite name=" +:+ DQUOTE +:+ "net" +:+ DQUOTE
          +:+ " tests=" +:+ DQUOTE +:+ "1" +:+ DQUOTE
          +:+ " failures=" +:+ DQUOTE +:+ "0" +:+ DQUOTE
          +:+ " errors=" +:+ DQUOTE +:+ "0" +:+ DQUOTE
          +:+ " skipped=" +:+ DQUOTE +:+ "1" +:+ DQUOTE
          +:+ " time=" +:+ DQUOTE +:+ "0.250" +:+ DQUOTE +:+ ">" +:+ LF;
          "        <testcase name=" +:+ DQUOTE +:+ "fetch" +:+ DQUOTE
          +:+ " time=" +:+ DQUOTE +:+ "0" +:+ DQUOTE +:+ ">" +:+ LF;
          "            <skipped message=" +:+ DQUOTE +:+ "no network"
          +:+ DQUOTE +:+ "/>" +:+ LF;
          "        </testcase>" +:+ LF;
          "    </testsuite>" +:+ LF;
          "</testsuites>" +:+ LF] /\
  fmt_fixed 3 (ms_to_s (elapsed_ms r)) = "0.250" /\
  fmt_fixed 3 (ms_to_s 0%float) = "0.000".
Proof. cbn zeta. repeat split; vm_compute; reflexivity. Qed.

Section SetupFailureReport.
Context `{Platform}.

(** After a run in which the setup of suite number [length pre] failed, no
    result is stored for that suite. *)
Lemma setup_failure_stores_nothing (pre post : list Suite) (s : Suite)
    (su : SetupFn) (m : Machine) :
  (length pre < Z.to_nat TC_MAX_SUITES)%nat ->
  setup s = Some su ->
  fst (fst (su (snd (clock_ms (world (snd (tc__run_all_upto pre m))))))) <> 0 ->
  let out := tc__run_all_ex (pre ++ s :: post) true m in
  let after :=
    tc__run_suites post (S (length pre)) true zero_summary
      (snd (tc__run_suite_ex s (Z.of_nat (length pre))
              (snd (tc__run_all_upto pre m)))) in
  tc__result_counts (snd out) !! length pre = Some 0 /\
  failed (fst out)
  = failed (fst (tc__run_all_upto pre m)) + test_count s + failed (fst after).
Proof.
  intros Hlen Hsetup Hret. cbn zeta.
  unfold tc__run_all_ex, tc__run_all_upto in *.
  pose proof (quiet_get_time (tc__reset_counts m)) as (_ & Hc1 & _).
  destruct (tc__get_time_ms (tc__reset_counts m)) as [start m1].
  cbn [snd] in *.
  rewrite tc__run_suites_app. cbn [tc__run_suites].
  pose proof (tc__run_suites_frame pre true 0%nat zero_summary m1)
    as [_ Hpre].
  destruct (tc__run_suites pre 0 true zero_summary m1) as [t_pre m_pre].
  cbn [fst snd] in *. cbn [Nat.add].
  destruct (su (snd (clock_ms (world m_pre)))) as [[ret env] w] eqn:Hsu.
  cbn [fst] in Hret.
  rewrite (tc__run_suite_ex_setup_failed s (Z.of_nat (length pre)) m_pre
             su ret env w Hsetup Hsu Hret).
  cbn [fst snd passed failed skipped].
  set (m_s := {| world := w; trace := _; tc__results := tc__results m_pre;
                 tc__result_counts := tc__result_counts m_pre |}).
  set (t_s := {| passed := passed t_pre + 0;
                 failed := failed t_pre + test_count s;
                 skipped := skipped t_pre + 0;
                 total_ms := total_ms t_pre |}).
  pose proof (tc__run_suites_frame post true (S (length pre)) t_s m_s)
    as [_ Hpost].
  destruct (tc__run_suites_total post true (S (length pre)) t_s m_s)
    as (Hm & _ & Hf & _).
  destruct (tc__run_suites post (S (length pre)) true t_s m_s)
    as [total m2] eqn:Hrun.
  cbn [fst snd] in *. cbn zeta in Hpost.
  pose proof (quiet_get_time m2) as (_ & Hc3 & _).
  destruct (tc__get_time_ms m2) as [stop m3]. cbn [fst snd] in *.
  split.
  - rewrite Hc3, Hpost by lia. subst m_s. cbn [tc__result_counts].
    rewrite Hpre by lia. rewrite Hc1. cbn [tc__result_counts tc__reset_counts].
    apply lookup_replicate_2. exact Hlen.
  - cbn [failed set_total_ms]. rewrite Hf. subst t_s. cbn [failed].
    reflexivity.
Qed.

(** C10. When the setup of a suite returned nonzero during a run that stores
    its results ([tc_run_all], which is also the run of [tc_main]), no
    result is stored for that suite, and the report that
    [tc_write_junit_xml] writes of the run has for it a [testsuite] element
    with [tests="0"], [failures="0"] and no [testcase] child, while the
    [failures] attribute of the root element is the number of failures of
    the run, which includes the [test_count] tests of that suite.  The
    report is written whenever the file can be opened and the elements of
    the other suites can be written. *)
Theorem setup_failure_in_report (filename : string) (pre post : list Suite)
    (s : Suite) (su : SetupFn) (m : Machine) (w : World)
    (before_s after_s : list string) :
  (length pre < Z.to_nat TC_MAX_SUITES)%nat ->
  setup s = Some su ->
  fst (fst (su (snd (clock_ms (world (snd (tc__run_all_upto pre m))))))) <> 0 ->
  let out := tc_run_all (pre ++ s :: post) m in
  let after :=
    tc__run_suites post (S (length pre)) true zero_summary
      (snd (tc__run_suite_ex s (Z.of_nat (length pre))
              (snd (tc__run_all_upto pre m)))) in
  let root :=
    "<testsuites tests=" +:+ DQUOTE
    +:+ fmt_d (passed (fst out) + failed (fst out) + skipped (fst out))
    +:+ DQUOTE +:+ " failures=" +:+ DQUOTE +:+ fmt_d (failed (fst out))
    +:+ DQUOTE +:+ " errors=" +:+ DQUOTE +:+ "0" +:+ DQUOTE
    +:+ " skipped=" +:+ DQUOTE +:+ fmt_d (skipped (fst out)) +:+ DQUOTE
    +:+ " time=" +:+ DQUOTE +:+ fmt_3f (ms_to_s (total_ms (fst out)))
    +:+ DQUOTE +:+ ">" +:+ LF in
  let element :=
    ["    <testsuite name=" +:+ DQUOTE
     +:+ tc__xml_escape (Some (suite_name s)) ESCAPED_SIZE +:+ DQUOTE
     +:+ " tests=" +:+ DQUOTE +:+ "0" +:+ DQUOTE
     +:+ " failures=" +:+ DQUOTE +:+ "0" +:+ DQUOTE
     +:+ " errors=" +:+ DQUOTE +:+ "0" +:+ DQUOTE
     +:+ " skipped=" +:+ DQUOTE +:+ "0" +:+ DQUOTE
     +:+ " time=" +:+ DQUOTE +:+ fmt_3f (ms_to_s 0%float) +:+ DQUOTE
     +:+ ">" +:+ LF;
     "    </testsuite>" +:+ LF] in
  fopen_w filename (world (snd out)) = Some w ->
  tc__xml_suites pre 0 (snd out) = Some before_s ->
  tc__xml_suites post (S (length pre)) (snd out) = Some after_s ->
  tc__result_counts (snd out) !! length pre = Some 0 /\
  failed (fst out)
  = failed (fst (tc__run_all_upto pre m)) + test_count s + failed (fst after) /\
  exists m' : Machine,
    tc_write_junit_xml filename (pre ++ s :: post) (fst out) (snd out)
    = Some (0, m') /\
    trace m'
    = trace (snd out) ++ [EvFopen filename true]
      ++ map (EvFprintf filename)
           (["<?xml version=" +:+ DQUOTE +:+ "1.0" +:+ DQUOTE
             +:+ " encoding=" +:+ DQUOTE +:+ "UTF-8" +:+ DQUOTE +:+ "?>"
             +:+ LF;
             root]
            ++ before_s ++ element ++ after_s ++ ["</testsuites>" +:+ LF])
      ++ [EvFclose filename].
Proof.
  intros Hlen Hsetup Hret. cbn zeta. intros Hopen Hbefore Hafter.
  destruct (setup_failure_stores_nothing pre post s su m Hlen Hsetup Hret)
    as [Hcount Hfailed].
  cbn zeta in *.
  change (tc_run_all (pre ++ s :: post) m)
    with (tc__run_all_ex (pre ++ s :: post) true m) in *.
  set (out := tc__run_all_ex (pre ++ s :: post) true m) in *.
  assert (Hsuite : tc__xml_suite (length pre) s (snd out)
                   = Some [tc__xml_suite_open (suite_name s) (0 + 0 + 0) 0 0
                             0%float;
                           "    </testsuite>" +:+ LF]).
  { unfold tc__xml_suite. rewrite Hcount. cbn [mbind option_bind].
    cbn [Z.to_nat take tc__xml_tally].
    destruct (suite_tests s); reflexivity. }
  split; [exact Hcount|]. split; [exact Hfailed|].
  destruct (tc_write_junit_xml_spec filename (pre ++ s :: post) (fst out)
              (snd out) w
              (["<?xml version=" +:+ DQUOTE +:+ "1.0" +:+ DQUOTE
                +:+ " encoding=" +:+ DQUOTE +:+ "UTF-8" +:+ DQUOTE +:+ "?>"
                +:+ LF;
                tc__xml_root_open (fst out)]
               ++ before_s
               ++ [tc__xml_suite_open (suite_name s) (0 + 0 + 0) 0 0 0%float;
                   "    </testsuite>" +:+ LF]
               ++ after_s ++ ["</testsuites>" +:+ LF]) Hopen)
    as (m' & Hwrite & Htrace & _).
  { unfold tc__xml_document. rewrite tc__xml_suites_app, Hbefore.
    cbn [mbind option_bind Nat.add tc__xml_suites].
    rewrite Hsuite, Hafter. cbn [mbind option_bind app].
    now rewrite <- !app_assoc. }
  exists m'. split; [exact Hwrite|exact Htrace].
Qed.

End SetupFailureReport.

(** C10, at the run of the suites [A; broken; B], of which the second has
    two tests and a setup that returns 3: the report that is written counts
    five tests and two failures in its root, and the element of the second
    suite is empty. *)
Lemma setup_failure_in_report_witness :
  let suites := [demo_suite_A; demo_broken_suite; demo_suite_B] in
  let out := @tc_run_all demo_platform suites demo_machine in
  exists m' : @Machine demo_platform,
    @tc_write_junit_xml demo_platform "report.xml" suites (fst out) (snd out)
    = Some (0, m') /\
    trace m'
    = trace (snd out)
      ++ [EvFopen "report.xml" true]
      ++ map (EvFprintf "report.xml")
           ["<?xml version=" +:+ DQUOTE +:+ "1.0" +:+ DQUOTE +:+ " encoding="
            +:+ DQUOTE +:+ "UTF-8" +:+ DQUOTE +:+ "?>" +:+ LF;
            "<testsuites tests=" +:+ DQUOTE +:+ "5" +:+ DQUOTE
            +:+ " failures=" +:+ DQUOTE +:+ "2" +:+ DQUOTE
            +:+ " errors=" +:+ DQUOTE +:+ "0" +:+ DQUOTE
            +:+ " skipped=" +:+ DQUOTE +:+ "0" +:+ DQUOTE
            +:+ " time=" +:+ DQUOTE +:+ "0.000" +:+ DQUOTE +:+ ">" +:+ LF;
            "    <testsuite name=" +:+ DQUOTE +:+ "A" +:+ DQUOTE
            +:+ " tests=" +:+ DQUOTE +:+ "2" +:+ DQUOTE
            +:+ " failures=" +:+ DQUOTE +:+ "0" +:+ DQUOTE
            +:+ " errors=" +:+ DQUOTE +:+ "0" +:+ DQUOTE
            +:+ " skipped=" +:+ DQUOTE +:+ "0" +:+ DQUOTE
            +:+ " time=" +:+ DQUOTE +:+ "0.000" +:+ DQUOTE +:+ ">" +:+ LF;
            "        <testcase name=" +:+ DQUOTE +:+ "t1" +:+ DQUOTE
            +:+ " time=" +:+ DQUOTE +:+ "0.000" +:+ DQUOTE +:+ "/>" +:+ LF;
            "        <testcase name=" +:+ DQUOTE +:+ "t2" +:+ DQUOTE
            +:+ " time=" +:+ DQUOTE +:+ "0.000" +:+ DQUOTE +:+ "/>" +:+ LF;
            "    </testsuite>" +:+ LF;
            "    <testsuite name=" +:+ DQUOTE +:+ "broken" +:+ DQUOTE
            +:+ " tests=" +:+ DQUOTE +:+ "0" +:+ DQUOTE
            +:+ " failures=" +:+ DQUOTE +:+ "0" +:+ DQUOTE
            +:+ " errors=" +:+ DQUOTE +:+ "0" +:+ DQUOTE
            +:+ " skipped=" +:+ DQUOTE +:+ "0" +:+ DQUOTE
            +:+ " time=" +:+ DQUOTE +:+ "0.000" +:+ DQUOTE +:+ ">" +:+ LF;
            "    </testsuite>" +:+ LF;
            "    <testsuite name=" +:+ DQUOTE +:+ "B" +:+ DQUOTE
            +:+ " tests=" +:+ DQUOTE +:+ "1" +:+ DQUOTE
            +:+ " failures=" +:+ DQUOTE +:+ "0" +:+ DQUOTE
            +:+ " errors=" +:+ DQUOTE +:+ "0" +:+ DQUOTE
            +:+ " skipped=" +:+ DQUOTE +:+ "0" +:+ DQUOTE
            +:+ " time=" +:+ DQUOTE +:+ "0.000" +:+ DQUOTE +:+ ">" +:+ LF;
            "        <testcase name=" +:+ DQUOTE +:+ "t3" +:+ DQUOTE
            +:+ " time=" +:+ DQUOTE +:+ "0.000" +:+ DQUOTE +:+ "/>" +:+ LF;
            "    </testsuite>" +:+ LF;
            "</testsuites>" +:+ LF]
      ++ [EvFclose "report.xml"].
Proof.
  cbn zeta.
  set (out := @tc_run_all demo_platform
                [demo_suite_A; demo_broken_suite; demo_suite_B] demo_machine).
  destruct (@setup_failure_in_report demo_platform "report.xml" [demo_suite_A]
              [demo_suite_B] demo_broken_suite demo_failing_setup demo_machine
              (world (snd out))
              ["    <testsuite name=" +:+ DQUOTE +:+ "A" +:+ DQUOTE
               +:+ " tests=" +:+ DQUOTE +:+ "2" +:+ DQUOTE
               +:+ " failures=" +:+ DQUOTE +:+ "0" +:+ DQUOTE
               +:+ " errors=" +:+ DQUOTE +:+ "0" +:+ DQUOTE
               +:+ " skipped=" +:+ DQUOTE +:+ "0" +:+ DQUOTE
               +:+ " time=" +:+ DQUOTE +:+ "0.000" +:+ DQUOTE +:+ ">" +:+ LF;
               "        <testcase name=" +:+ DQUOTE +:+ "t1" +:+ DQUOTE
               +:+ " time=" +:+ DQUOTE +:+ "0.000" +:+ DQUOTE +:+ "/>" +:+ LF;
               "        <testcase name=" +:+ DQUOTE +:+ "t2" +:+ DQUOTE
               +:+ " time=" +:+ DQUOTE +:+ "0.000" +:+ DQUOTE +:+ "/>" +:+ LF;
               "    </testsuite>" +:+ LF]
              ["    <testsuite name=" +:+ DQUOTE +:+ "B" +:+ DQUOTE
               +:+ " tests=" +:+ DQUOTE +:+ "1" +:+ DQUOTE
               +:+ " failures=" +:+ DQUOTE +:+ "0" +:+ DQUOTE
               +:+ " errors=" +:+ DQUOTE +:+ "0" +:+ DQUOTE
               +:+ " skipped=" +:+ DQUOTE +:+ "0" +:+ DQUOTE
               +:+ " time=" +:+ DQUOTE +:+ "0.000" +:+ DQUOTE +:+ ">" +:+ LF;
               "        <testcase name=" +:+ DQUOTE +:+ "t3" +:+ DQUOTE
               +:+ " time=" +:+ DQUOTE +:+ "0.000" +:+ DQUOTE +:+ "/>" +:+ LF;
               "    </testsuite>" +:+ LF])
    as (_ & _ & m' & Hwrite & Htrace).
  - vm_compute. lia.
  - reflexivity.
  - vm_compute. discriminate.
  - reflexivity.
  - vm_compute. reflexivity.
  - vm_compute. reflexivity.
  - exists m'. split; [exact Hwrite|].
    etrans; [exact Htrace|]. fold out.
    apply (f_equal (fun evs => trace (snd out) ++ [EvFopen "report.xml" true]
                               ++ map (EvFprintf "report.xml") evs
                               ++ [EvFclose "report.xml"])).
    vm_compute. reflexivity.
Defined.

(** The scenario of the specification: the report of one passing suite
    with one test has a root with one test and no failure, and one
    [testsuite] element holding one self-closing [testcase]. *)
Example xml_report_one_passing_test :
  let out := @tc_run_all demo_platform [demo_suite_B] demo_machine in
  @tc__xml_document demo_platform [demo_suite_B] (fst out) (snd out)
  = Some ["<?xml version=" +:+ DQUOTE +:+ "1.0" +:+ DQUOTE +:+ " encoding="
          +:+ DQUOTE +:+ "UTF-8" +:+ DQUOTE +:+ "?>" +:+ LF;
          "<testsuites tests=" +:+ DQUOTE +:+ "1" +:+ DQUOTE
          +:+ " failures=" +:+ DQUOTE +:+ "0" +:+ DQUOTE
          +:+ " errors=" +:+ DQUOTE +:+ "0" +:+ DQUOTE
          +:+ " skipped=" +:+ DQUOTE +:+ "0" +:+ DQUOTE
          +:+ " time=" +:+ DQUOTE +:+ "0.000" +:+ DQUOTE +:+ ">" +:+ LF;
          "    <testsuite name=" +:+ DQUOTE +:+ "B" +:+ DQUOTE
          +:+ " tests=" +:+ DQUOTE +:+ "1" +:+ DQUOTE
          +:+ " failures=" +:+ DQUOTE +:+ "0" +:+ DQUOTE
          +:+ " errors=" +:+ DQUOTE +:+ "0" +:+ DQUOTE
          +:+ " skipped=" +:+ DQUOTE +:+ "0" +:+ DQUOTE
          +:+ " time=" +:+ DQUOTE +:+ "0.000" +:+ DQUOTE +:+ ">" +:+ LF;
          "        <testcase name=" +:+ DQUOTE +:+ "t3" +:+ DQUOTE
          +:+ " time=" +:+ DQUOTE +:+ "0.000" +:+ DQUOTE +:+ "/>" +:+ LF;
          "    </testsuite>" +:+ LF;
          "</testsuites>" +:+ LF].
Proof. vm_compute. reflexivity. Qed.

(** Where the report writer leaves defined behaviour: a failure whose
    message and expected text are 511 ampersands each (both within
    [TC_MAX_MSG_LEN]) moves [pos] past the end of [detail], and the next
    [snprintf] is handed a pointer and a size outside of the buffer. *)
Example tc__xml_testcase_detail_overrun :
  let amps := str_repeat "&"%char 511 in
  let r := tc_fail_with (Some amps) (Some amps) (Some "x") in
  strlen amps < TC_MAX_MSG_LEN /\
  message (errors r !!! 0%nat) = amps /\
  @tc__xml_testcase demo_platform "t" r = None.
Proof. cbn zeta. repeat split; vm_compute; reflexivity. Qed.

(** ** Which user code a run calls *)

Section Calls.
Context `{Platform}.

Lemma calls_refl (m : Machine) : calls_between m m [].
Proof. exists []. now rewrite app_nil_r. Qed.

Lemma calls_trans (m1 m2 m3 : Machine) (c1 c2 : list Event) :
  calls_between m1 m2 c1 -> calls_between m2 m3 c2 ->
  calls_between m1 m3 (c1 ++ c2).
Proof.
  intros (e1 & Ht1 & Hc1) (e2 & Ht2 & Hc2). exists (e1 ++ e2).
  rewrite Ht2, Ht1, app_assoc. split; [reflexivity|].
  unfold user_calls in *. now rewrite List.filter_app, Hc1, Hc2.
Qed.

Lemma calls_extends (m m' : Machine) (c : list Event) :
  calls_between m m' c -> extends m m'.
Proof. intros (evs & Ht & _). exists evs. exact Ht. Qed.

Lemma calls_emit (e : Event) (m : Machine) :
  calls_between m (emit e m) (user_calls [e]).
Proof. exists [e]. split; reflexivity. Qed.

Lemma calls_printf (text : string) (m : Machine) :
  calls_between m (printf text m) [].
Proof. apply (calls_emit (EvStdout text)). Qed.

Lemma calls_set_world (w : World) (m : Machine) :
  calls_between m (set_world w m) [].
Proof. exists []. cbn. now rewrite app_nil_r. Qed.

Lemma calls_get_time (m : Machine) :
  calls_between m (snd (tc__get_time_ms m)) [].
Proof.
  unfold tc__get_time_ms. destruct (clock_ms (world m)).
  apply calls_set_world.
Qed.

(** Chaining steps that call no user code. *)
Lemma calls_nil_trans (m1 m2 m3 : Machine) (c : list Event) :
  calls_between m1 m2 [] -> calls_between m2 m3 c -> calls_between m1 m3 c.
Proof. intros H1 H2. apply (calls_trans _ _ _ [] c H1 H2). Qed.

Lemma calls_trans_nil (m1 m2 m3 : Machine) (c : list Event) :
  calls_between m1 m2 c -> calls_between m2 m3 [] -> calls_between m1 m3 c.
Proof.
  intros H1 H2. rewrite <- (app_nil_r c). apply (calls_trans _ _ _ c [] H1 H2).
Qed.

(** Running a test calls its function, and nothing else. *)
Lemma calls_run_test (t : Test) (env : Env) (m : Machine) :
  calls_between m (snd (tc_run_test t env m)) (test_calls t).
Proof.
  unfold tc_run_test, test_calls. destruct (fn t) as [f|]; [|apply calls_refl].
  pose proof (calls_get_time m) as H1.
  destruct (tc__get_time_ms m) as [start m1]. cbn [snd] in H1.
  pose proof (calls_emit (EvTest (test_name t)) m1) as H2.
  destruct (f env (world (emit (EvTest (test_name t)) m1))) as [r w].
  pose proof (calls_set_world w (emit (EvTest (test_name t)) m1)) as H3.
  pose proof (calls_get_time (set_world w (emit (EvTest (test_name t)) m1)))
    as H4.
  destruct (tc__get_time_ms (set_world w (emit (EvTest (test_name t)) m1)))
    as [stop m2]. cbn [snd] in *.
  eapply calls_nil_trans; [exact H1|].
  eapply calls_trans_nil; [exact H2|].
  eapply calls_nil_trans; [exact H3|exact H4].
Qed.

Lemma calls_print_errors (color : string) (errs : list TestError) :
  forall m : Machine, calls_between m (tc__print_errors color errs m) [].
Proof.
  induction errs as [|e errs IH]; intros m; cbn [tc__print_errors];
    [apply calls_refl|].
  eapply calls_nil_trans; [|apply IH].
  eapply calls_nil_trans; [apply calls_printf|].
  destruct (negb _); [|apply calls_refl].
  eapply calls_nil_trans; apply calls_printf.
Qed.

Lemma calls_print_result (name : string) (r : TestResult) (m : Machine) :
  calls_between m (tc_print_result name r m) [].
Proof.
  unfold tc_print_result.
  destruct (tag r); cbn zeta beta iota.
  - apply calls_printf.
  - eapply calls_nil_trans; [apply calls_printf|apply calls_print_errors].
  - destruct (0 <? error_count r).
    + eapply calls_nil_trans; apply calls_printf.
    + apply calls_printf.
Qed.

Lemma calls_store_result (suite_idx : Z) (i : nat) (r : TestResult)
    (m : Machine) :
  calls_between m (tc__store_result suite_idx i r m) [].
Proof.
  unfold tc__store_result. destruct (_ && _); [|apply calls_refl].
  exists []. cbn. now rewrite app_nil_r.
Qed.

(** The loop over the tests calls the functions of the tests, one after
    the other, in the order of the suite. *)
Lemma calls_run_tests (ts : list Test) (suite_idx : Z) (env : Env) :
  forall (i : nat) (summary : RunSummary) (m : Machine),
    calls_between m (snd (tc__run_tests ts i suite_idx env summary m))
      (concat (map test_calls ts)).
Proof.
  induction ts as [|t ts IH]; intros i summary m; cbn [tc__run_tests];
    [apply calls_refl|].
  pose proof (calls_run_test t env m) as H1.
  destruct (tc_run_test t env m) as [r m1]. cbn [snd] in H1.
  cbn [map concat]. eapply calls_trans; [|apply IH].
  eapply calls_trans_nil; [exact H1|].
  eapply calls_nil_trans; [apply calls_print_result|apply calls_store_result].
Qed.

Lemma calls_run_teardown (suite : Suite) (env : Env) (m : Machine) :
  calls_between m (tc__run_teardown suite env m)
    (match teardown suite with
     | Some _ => [EvTeardown (suite_name suite)]
     | None => []
     end).
Proof.
  unfold tc__run_teardown. destruct (teardown suite); [|apply calls_refl].
  eapply calls_trans_nil;
    [exact (calls_emit (EvTeardown (suite_name suite)) m)
    |apply calls_set_world].
Qed.

Lemma calls_run_suite_body (suite : Suite) (suite_idx : Z) (start : float)
    (env : Env) (m : Machine) :
  calls_between m (snd (tc__run_suite_body suite suite_idx start env m))
    (concat (map test_calls (suite_tests suite))
     ++ match teardown suite with
        | Some _ => [EvTeardown (suite_name suite)]
        | None => []
        end).
Proof.
  unfold tc__run_suite_body.
  pose proof (calls_run_tests (suite_tests suite) suite_idx env 0%nat
                zero_summary m) as H1.
  destruct (tc__run_tests (suite_tests suite) 0 suite_idx env zero_summary m)
    as [summary m1]. cbn [snd] in H1.
  pose proof (calls_run_teardown suite env m1) as H2.
  pose proof (calls_get_time (tc__run_teardown suite env m1)) as H3.
  destruct (tc__get_time_ms (tc__run_teardown suite env m1)) as [stop m2].
  cbn [snd] in *.
  eapply calls_trans; [exact H1|].
  eapply calls_trans_nil; [exact H2|].
  eapply calls_nil_trans; [exact H3|apply calls_printf].
Qed.

(** A suite without setup: its tests are called, then its teardown. *)
Lemma calls_run_suite_no_setup (suite : Suite) (suite_idx : Z) (m : Machine) :
  setup suite = None ->
  calls_between m (snd (tc__run_suite_ex suite suite_idx m))
    (concat (map test_calls (suite_tests suite))
     ++ match teardown suite with
        | Some _ => [EvTeardown (suite_name suite)]
        | None => []
        end).
Proof.
  intros Hsetup. unfold tc__run_suite_ex.
  pose proof (calls_get_time m) as H1.
  destruct (tc__get_time_ms m) as [start m1]. cbn [snd] in H1.
  rewrite Hsetup.
  eapply calls_nil_trans; [exact H1|].
  eapply calls_nil_trans; [apply calls_printf|apply calls_run_suite_body].
Qed.

Lemma extends_run_all_ex (suites : list Suite) (store : bool) (m : Machine) :
  extends m (snd (tc__run_all_ex suites store m)).
Proof.
  unfold tc__run_all_ex.
  pose proof (quiet_get_time (tc__reset_counts m)) as [H1 _].
  destruct (tc__get_time_ms (tc__reset_counts m)) as [start m1].
  pose proof (tc__run_suites_frame suites store 0%nat zero_summary m1)
    as [H2 _].
  destruct (tc__run_suites suites 0 store zero_summary m1) as [total m2].
  pose proof (quiet_get_time m2) as [H3 _].
  destruct (tc__get_time_ms m2) as [stop m3]. cbn [snd] in *.
  unfold extends in *. cbn [trace tc__reset_counts] in H1.
  etrans; [exact H1|]. etrans; [exact H2|exact H3].
Qed.

Lemma extends_write_junit_xml (filename : string) (suites : list Suite)
    (summary : RunSummary) (m m' : Machine) (ret : Z) :
  tc_write_junit_xml filename suites summary m = Some (ret, m') ->
  extends m m'.
Proof.
  unfold tc_write_junit_xml. destruct (fopen_w filename (world m)) as [w|].
  - destruct (tc__xml_document _ _ _) as [doc|]; [|discriminate].
    cbn [mbind option_bind]. intros [= _ <-].
    destruct (fprintf_all_trace filename doc
                (set_world w (emit (EvFopen filename true) m)))
      as (Ht & _ & _).
    unfold extends. cbn [emit trace]. rewrite Ht. cbn [set_world emit trace].
    rewrite <- !app_assoc. now apply prefix_app_r.
  - intros [= _ <-]. unfold extends. cbn [emit trace].
    rewrite <- !app_assoc. now apply prefix_app_r.
Qed.

Lemma extends_print_summary (summary : RunSummary) (m : Machine) :
  extends m (snd (tc_print_summary summary m)).
Proof.
  unfold tc_print_summary. cbn [snd].
  repeat match goal with
         | |- context [if ?b then _ else _] => destruct b
         end;
    repeat (eapply quiet_trans; [|apply quiet_printf]); apply quiet_refl.
Qed.

Lemma extends_list_suite_tests (ts : list Test) :
  forall m : Machine, extends m (tc__list_suite_tests ts m).
Proof.
  induction ts as [|t ts IH]; intros m; cbn [tc__list_suite_tests].
  - apply quiet_refl.
  - unfold extends in *. etrans; [|apply IH]. apply quiet_printf.
Qed.

Lemma extends_list_tests (suites : list Suite) :
  forall m : Machine, extends m (tc__list_tests suites m).
Proof.
  induction suites as [|s suites IH]; intros m; cbn [tc__list_tests].
  - apply quiet_refl.
  - unfold extends in *. etrans; [|apply IH].
    etrans; [|apply extends_list_suite_tests]. apply quiet_printf.
Qed.

Lemma extends_main_run (o : Options) (suites : list Suite) (m m' : Machine)
    (code : Z) :
  tc__main_run o suites m = Some (code, m') -> extends m m'.
Proof.
  unfold tc__main_run.
  destruct (Z.of_nat (length (tc__filter_suites o suites [])) =? 0).
  - intros [= _ <-]. apply quiet_printf.
  - pose proof (extends_run_all_ex (tc__filter_suites o suites []) true m)
      as H1.
    destruct (tc__run_all_ex (tc__filter_suites o suites []) true m)
      as [summary m1]. cbn [snd] in H1.
    destruct (xml_file o) as [path|].
    + destruct (tc_write_junit_xml path _ summary m1) as [[ret m2]|] eqn:Hw;
        [|discriminate].
      cbn [mbind option_bind]. intros Hres.
      apply extends_write_junit_xml in Hw.
      pose proof (extends_print_summary summary
                    (if ret =? 0
                     then printf (LF +:+ "Results written to " +:+ path +:+ LF) m2
                     else m2)) as H3.
      rewrite (surjective_pairing (tc_print_summary _ _)) in Hres.
      injection Hres as _ <-.
      unfold extends in *. etrans; [exact H1|]. etrans; [exact Hw|].
      etrans; [|exact H3]. destruct (ret =? 0); [apply quiet_printf|reflexivity].
    + cbn [mbind option_bind]. intros Hres.
      pose proof (extends_print_summary summary m1) as H3.
      rewrite (surjective_pairing (tc_print_summary _ _)) in Hres.
      injection Hres as _ <-.
      unfold extends in *. etrans; [exact H1|exact H3].
Qed.

End Calls.

(** ** The command line *)

Section MainFacts.
Context `{Platform}.

Lemma calls_print_summary (summary : RunSummary) (m : Machine) :
  calls_between m (snd (tc_print_summary summary m)) [].
Proof.
  unfold tc_print_summary. cbn [snd].
  repeat match goal with
         | |- context [if ?b then _ else _] => destruct b
         end;
    repeat (eapply calls_trans_nil; [|apply calls_printf]); apply calls_refl.
Qed.

(** Suites without setup: a run calls the tests of each suite in order and
    then its teardown, suite after suite. *)
Lemma calls_run_suites (suites : list Suite) (store : bool) :
  Forall (fun s => setup s = None) suites ->
  forall (i : nat) (total : RunSummary) (m : Machine),
    calls_between m (snd (tc__run_suites suites i store total m))
      (concat (map suite_calls suites)).
Proof.
  induction 1 as [|s suites Hs _ IH]; intros i total m; cbn [tc__run_suites].
  - apply calls_refl.
  - pose proof (calls_run_suite_no_setup s
                  (if store then Z.of_nat i else -1) m Hs) as H1.
    destruct (tc__run_suite_ex s (if store then Z.of_nat i else -1) m)
      as [r m1]. cbn [snd] in H1.
    cbn [map concat]. eapply calls_trans; [exact H1|apply IH].
Qed.

Lemma calls_run_all_ex (suites : list Suite) (store : bool) (m : Machine) :
  Forall (fun s => setup s = None) suites ->
  calls_between m (snd (tc__run_all_ex suites store m))
    (concat (map suite_calls suites)).
Proof.
  intros Hs. unfold tc__run_all_ex.
  pose proof (calls_get_time (tc__reset_counts m)) as H1.
  destruct (tc__get_time_ms (tc__reset_counts m)) as [start m1].
  pose proof (calls_run_suites suites store Hs 0%nat zero_summary m1) as H2.
  destruct (tc__run_suites suites 0 store zero_summary m1) as [total m2].
  pose proof (calls_get_time m2) as H3.
  destruct (tc__get_time_ms m2) as [stop m3]. cbn [snd] in *.
  eapply calls_nil_trans; [|eapply calls_trans_nil; [exact H2|exact H3]].
  destruct H1 as (evs & Ht & Hc). exists evs. split; [exact Ht|exact Hc].
Qed.

(** The filter of [tc_main] keeps a subsequence of the suites, in their
    order, each passed on as it is or trimmed to the tests that match; when
    a test or match filter is set, no suite without a test is kept. *)
Lemma tc__filter_suites_spec (o : Options) (suites : list Suite) :
  forall acc : list Suite,
    exists kept : list Suite,
      kept `sublist_of` suites /\
      tc__filter_suites o suites acc = acc ++ map (tc__selected_suite o) kept /\
      (bool_decide (is_Some (test_filter o))
       || bool_decide (is_Some (match_filter o)) = true ->
       Forall (fun s => 0 < test_count (tc__selected_suite o s)) kept).
Proof.
  induction suites as [|s suites IH]; intros acc; cbn [tc__filter_suites].
  - exists []. rewrite app_nil_r. repeat split; constructor.
  - destruct (Z.of_nat (length acc) <? TC_MAX_SUITES).
    2:{ exists []. rewrite app_nil_r.
        repeat split; [apply sublist_nil_l|constructor]. }
    destruct (match suite_filter o with
              | Some sf => negb (tc__matches (suite_name s) sf)
              | None => false
              end).
    { destruct (IH acc) as (kept & Hsub & Heq & Hne).
      exists kept. repeat split; [now apply sublist_cons|exact Heq|exact Hne]. }
    destruct (bool_decide (is_Some (test_filter o))
              || bool_decide (is_Some (match_filter o))) eqn:Hset.
    + assert (Hsel : tc__selected_suite o s = tc__filtered_suite o s)
        by (unfold tc__selected_suite; now rewrite Hset).
      cbn zeta.
      destruct (Z.ltb_spec 0 (test_count (tc__filtered_suite o s))) as [Hpos|_].
      * destruct (IH (acc ++ [tc__filtered_suite o s]))
          as (kept & Hsub & Heq & Hne).
        exists (s :: kept). split; [now apply sublist_skip|]. split.
        -- rewrite Heq, <- app_assoc. cbn [map]. now rewrite Hsel.
        -- intros _. constructor; [now rewrite Hsel|]. now apply Hne.
      * destruct (IH acc) as (kept & Hsub & Heq & Hne).
        exists kept.
        repeat split; [now apply sublist_cons|exact Heq|exact Hne].
    + assert (Hsel : tc__selected_suite o s = s)
        by (unfold tc__selected_suite; now rewrite Hset).
      destruct (IH (acc ++ [s])) as (kept & Hsub & Heq & Hne).
      exists (s :: kept). split; [now apply sublist_skip|]. split.
      * rewrite Heq, <- app_assoc. cbn [map]. now rewrite Hsel.
      * discriminate.
Qed.

(** The filter never selects more suites than the stored results have
    rows. *)
Lemma tc__filter_suites_length (o : Options) (suites : list Suite) :
  forall acc : list Suite,
    Z.of_nat (length acc) <= TC_MAX_SUITES ->
    Z.of_nat (length (tc__filter_suites o suites acc)) <= TC_MAX_SUITES.
Proof.
  induction suites as [|s suites IH]; intros acc Hacc;
    cbn [tc__filter_suites]; [exact Hacc|].
  destruct (Z.ltb_spec (Z.of_nat (length acc)) TC_MAX_SUITES) as [Hlt|_];
    [|exact Hacc].
  assert (Hgrow : forall x : Suite,
             Z.of_nat (length (acc ++ [x])) <= TC_MAX_SUITES)
    by (intros x; rewrite length_app; cbn [length]; lia).
  destruct (match suite_filter o with Some _ => _ | None => _ end);
    [now apply IH|].
  destruct (_ || _).
  - cbn zeta. destruct (0 <? _); apply IH; [apply Hgrow|exact Hacc].
  - apply IH, Hgrow.
Qed.

(** The tests copied for a suite are tests of that suite, in their order,
    and their names contain the test filter or the match filter. *)
Lemma tc__filter_tests_spec (o : Options) (ts : list Test) :
  tc__filter_tests o ts `sublist_of` ts /\
  Forall (fun t => tc__filter_hit (test_filter o) (test_name t)
                   || tc__filter_hit (match_filter o) (test_name t) = true)
         (tc__filter_tests o ts).
Proof.
  induction ts as [|t ts [IHs IHf]]; cbn [tc__filter_tests].
  - split; constructor.
  - destruct (tc__filter_hit (test_filter o) (test_name t)) eqn:H1;
      destruct (tc__filter_hit (match_filter o) (test_name t)) eqn:H2;
      cbn zeta; split;
        try (apply sublist_skip; assumption);
        try (apply sublist_cons; assumption);
        try assumption;
        constructor; try assumption; rewrite H1, H2; reflexivity.
Qed.

(** The tests copied are exactly those whose name contains the test filter
    or the match filter. *)
Lemma tc__filter_tests_filter (o : Options) (ts : list Test) :
  tc__filter_tests o ts = List.filter (tc__test_selected o) ts.
Proof.
  unfold tc__test_selected.
  induction ts as [|t ts IH]; cbn [tc__filter_tests List.filter];
    [reflexivity|].
  destruct (tc__filter_hit (test_filter o) (test_name t));
    destruct (tc__filter_hit (match_filter o) (test_name t));
    cbn [orb]; now rewrite IH.
Qed.

(** The suites selected are the first [TC_MAX_SUITES] of those that pass
    [tc__suite_selected], each as [tc__selected_suite] makes it. *)
Lemma tc__filter_suites_take (o : Options) (suites : list Suite) :
  forall acc : list Suite,
    Z.of_nat (length acc) <= TC_MAX_SUITES ->
    tc__filter_suites o suites acc
    = acc ++ take (Z.to_nat TC_MAX_SUITES - length acc)
               (map (tc__selected_suite o)
                  (List.filter (tc__suite_selected o) suites)).
Proof.
  induction suites as [|s suites IH]; intros acc Hacc;
    cbn [tc__filter_suites List.filter].
  - cbn [map]. now rewrite take_nil, app_nil_r.
  - destruct (Z.ltb_spec (Z.of_nat (length acc)) TC_MAX_SUITES) as [Hlt|Hge].
    2:{ replace (Z.to_nat TC_MAX_SUITES - length acc)%nat with 0%nat by lia.
        now rewrite take_0, app_nil_r. }
    assert (Hgrow : forall x : Suite,
               Z.of_nat (length (acc ++ [x])) <= TC_MAX_SUITES)
      by (intros x; rewrite length_app; cbn [length]; lia).
    assert (Hstep : forall (x : Suite) (rest : list Suite),
               (acc ++ [x])
               ++ take (Z.to_nat TC_MAX_SUITES - length (acc ++ [x])) rest
               = acc ++ take (Z.to_nat TC_MAX_SUITES - length acc) (x :: rest)).
    { intros x rest. rewrite length_app. cbn [length].
      replace (Z.to_nat TC_MAX_SUITES - length acc)%nat
        with (S (Z.to_nat TC_MAX_SUITES - (length acc + 1)))%nat by lia.
      cbn [take]. now rewrite <- app_assoc. }
    destruct (match suite_filter o with
              | Some sf => negb (tc__matches (suite_name s) sf)
              | None => false
              end) eqn:Hskip.
    { assert (Hno : tc__suite_selected o s = false).
      { unfold tc__suite_selected. destruct (suite_filter o); [|discriminate].
        apply negb_true_iff in Hskip. now rewrite Hskip. }
      rewrite Hno. now apply IH. }
    assert (Hname : match suite_filter o with
                    | Some sf => tc__matches (suite_name s) sf
                    | None => true
                    end = true).
    { destruct (suite_filter o); [|reflexivity].
      now apply negb_false_iff in Hskip. }
    destruct (bool_decide (is_Some (test_filter o))
              || bool_decide (is_Some (match_filter o))) eqn:Hset.
    + assert (Hsel : tc__selected_suite o s = tc__filtered_suite o s)
        by (unfold tc__selected_suite; now rewrite Hset).
      assert (Hyes : tc__suite_selected o s
                     = (0 <? test_count (tc__filtered_suite o s)))
        by (unfold tc__suite_selected; now rewrite Hname, Hset).
      rewrite Hyes. cbn zeta.
      destruct (0 <? test_count (tc__filtered_suite o s)).
      * rewrite IH by apply Hgrow. cbn [map]. rewrite Hsel. apply Hstep.
      * now apply IH.
    + assert (Hsel : tc__selected_suite o s = s)
        by (unfold tc__selected_suite; now rewrite Hset).
      assert (Hyes : tc__suite_selected o s = true)
        by (unfold tc__suite_selected; now rewrite Hname, Hset).
      rewrite Hyes, IH by apply Hgrow. cbn [map]. rewrite Hsel. apply Hstep.
Qed.

(** [tc_main] when no test is selected. *)
Lemma tc__main_run_empty (o : Options) (suites : list Suite) (m : Machine) :
  tc__filter_suites o suites [] = [] ->
  tc__main_run o suites m
  = Some (1, printf ("No tests matched filters." +:+ LF) m).
Proof. intros Hempty. unfold tc__main_run. now rewrite Hempty. Qed.

Lemma tc__main_parsed_ready (o : Options) (suites : list Suite)
    (m m1 : Machine) :
  xml_ready o m m1 ->
  tc__main_parsed o suites m
  = if list_only o then Some (0, tc__list_tests suites m1)
    else tc__main_run o suites m1.
Proof.
  unfold xml_ready, tc__main_parsed. destruct (xml_file o) as [path|].
  - intros (w & Hopen & ->). now rewrite Hopen.
  - now intros ->.
Qed.

(** C5 (as amended). When the argument scan of [tc_main] ends without a
    request for help or for the list, and the report file, if one is asked
    for, could be created: if the filters select no test, [tc_main] prints
    ["No tests matched filters."] and returns 1, and runs nothing.  An empty
    suite collection takes the same path whatever the filters, also with no
    filter set, so the two outcomes are the same.  What differs is an empty
    collection run through [tc_run_all] and [tc_print_summary], which
    returns 0. *)
Theorem no_tests_matched (argv : list string) (suites : list Suite)
    (o : Options) (m m1 : Machine) :
  tc__parse_args (tail argv) no_options = ParseRun o ->
  list_only o = false ->
  xml_ready o m m1 ->
  (tc__filter_suites o suites [] = [] ->
   tc_main argv suites m
   = Some (1, printf ("No tests matched filters." +:+ LF) m1)) /\
  (suites = [] ->
   tc_main argv suites m
   = Some (1, printf ("No tests matched filters." +:+ LF) m1)) /\
  (forall m2 : Machine,
     failed (fst (tc_run_all [] m)) = 0 /\
     fst (tc_print_summary (fst (tc_run_all [] m)) m2) = 0).
Proof.
  intros Hparse Hlist Hready.
  assert (Hmain : tc__filter_suites o suites [] = [] ->
                  tc_main argv suites m
                  = Some (1, printf ("No tests matched filters." +:+ LF) m1)).
  { intros Hempty. unfold tc_main. rewrite Hparse.
    rewrite (tc__main_parsed_ready o suites m m1 Hready), Hlist.
    now apply tc__main_run_empty. }
  split; [exact Hmain|]. split.
  - intros ->. apply Hmain. reflexivity.
  - intros m2. unfold tc_run_all, tc__run_all_ex.
    destruct (tc__get_time_ms (tc__reset_counts m)) as [start ma].
    cbn [tc__run_suites].
    destruct (tc__get_time_ms ma) as [stop mb].
    cbn [fst failed set_total_ms zero_summary tc_print_summary].
    split; reflexivity.
Qed.

(** C6. When the argument scan of [tc_main] ends with [--xml path] recorded,
    [tc_main] first opens that file for writing.  If this fails it reports
    the error and returns 1: nothing else happened, no user code ran.  If it
    succeeds the file has been created or truncated, and closed, before
    anything else is done: the listing or the run start from that machine,
    and whatever they add to the trace comes after these two events. *)
Theorem xml_file_created_first (argv : list string) (suites : list Suite)
    (o : Options) (path : string) (m : Machine) :
  tc__parse_args (tail argv) no_options = ParseRun o ->
  xml_file o = Some path ->
  (fopen_w path (world m) = None ->
   tc_main argv suites m
   = Some (1, {| world := world m;
                 trace := trace m
                          ++ [EvFopen path false;
                              EvStderr ("Error: Cannot create XML file '"
                                        +:+ path +:+ "'" +:+ LF)];
                 tc__results := tc__results m;
                 tc__result_counts := tc__result_counts m |})) /\
  (forall w : World,
     fopen_w path (world m) = Some w ->
     tc_main argv suites m
     = (if list_only o
        then Some (0, tc__list_tests suites (tc__precreated path w m))
        else tc__main_run o suites (tc__precreated path w m)) /\
     world (tc__precreated path w m) = w /\
     forall (code : Z) (m' : Machine),
       tc_main argv suites m = Some (code, m') ->
       exists evs : list Event,
         trace m' = trace m ++ [EvFopen path true; EvFclose path] ++ evs).
Proof.
  intros Hparse Hxml. unfold tc_main. rewrite Hparse. split.
  - intros Hfail. unfold tc__main_parsed. rewrite Hxml, Hfail.
    unfold emit. cbn [world trace tc__results tc__result_counts].
    now rewrite <- app_assoc.
  - intros w Hopen.
    assert (Hready : xml_ready o m (tc__precreated path w m)).
    { unfold xml_ready. rewrite Hxml. now exists w. }
    rewrite (tc__main_parsed_ready o suites m _ Hready).
    split; [reflexivity|]. split; [reflexivity|].
    intros code m' Hres.
    assert (Hext : extends (tc__precreated path w m) m').
    { destruct (list_only o).
      - injection Hres as _ <-. apply extends_list_tests.
      - now apply extends_main_run in Hres. }
    destruct Hext as [evs Hevs]. exists evs. rewrite Hevs.
    unfold tc__precreated, emit, set_world. cbn [trace].
    now rewrite <- !app_assoc.
Qed.

End MainFacts.

Section FilterScenario.
Context `{Platform}.

(** C4. With the suites [A{t1,t2}; B{t3}], [tc_main] called with
    [--test "A" "t1"] records the pair of filters, selects exactly suite [A]
    holding exactly test [t1], and runs that selection: the only user code
    it calls is the function of [t1].  The pair is matched as the
    specification describes the filter, by containment ([tc__matches]): for
    every collection and every filter, the suites selected are those whose
    name contains the suite filter and, when a test or match filter is set,
    have a test whose name contains it (the first [TC_MAX_SUITES] of them),
    each trimmed to those tests.  So the surviving suites keep their
    original order, name, setup and teardown, and a suite whose filtered
    list of tests is empty is dropped. *)
Theorem test_filter_selects_pair (f1 f2 f3 : option TestFn)
    (r1 r2 r3 : option string) (m : Machine) :
  let t1 := mkTest "t1" f1 r1 in
  let t2 := mkTest "t2" f2 r2 in
  let t3 := mkTest "t3" f3 r3 in
  let A := tc_suite "A" [t1; t2] in
  let B := tc_suite "B" [t3] in
  let o := {| suite_filter := Some "A"; test_filter := Some "t1";
              match_filter := None; xml_file := None; list_only := false |} in
  let run := tc__run_all_ex [tc_suite "A" [t1]] true m in
  tc__parse_args ["--test"; "A"; "t1"] no_options = ParseRun o /\
  tc__filter_suites o [A; B] [] = [tc_suite "A" [t1]] /\
  tc_main ["prog"; "--test"; "A"; "t1"] [A; B] m
  = Some (tc_print_summary (fst run) (snd run)) /\
  calls_between m (snd (tc_print_summary (fst run) (snd run))) (test_calls t1) /\
  (forall (o' : Options) (suites : list Suite),
     tc__filter_suites o' suites []
     = take (Z.to_nat TC_MAX_SUITES)
         (map (tc__selected_suite o')
            (List.filter (tc__suite_selected o') suites))) /\
  (forall (o' : Options) (ts : list Test),
     tc__filter_tests o' ts = List.filter (tc__test_selected o') ts) /\
  (forall (o' : Options) (suites : list Suite),
     exists kept : list Suite,
       kept `sublist_of` suites /\
       tc__filter_suites o' suites [] = map (tc__selected_suite o') kept /\
       Forall (fun s => suite_name (tc__selected_suite o' s) = suite_name s /\
                        setup (tc__selected_suite o' s) = setup s /\
                        teardown (tc__selected_suite o' s) = teardown s /\
                        suite_tests (tc__selected_suite o' s)
                          `sublist_of` suite_tests s) kept /\
       (is_Some (test_filter o') \/ is_Some (match_filter o') ->
        Forall (fun s => 0 < test_count s /\ suite_tests s <> [])
               (tc__filter_suites o' suites []))).
Proof.
  cbn zeta.
  assert (Hfilter : tc__filter_suites
                      {| suite_filter := Some "A"; test_filter := Some "t1";
                         match_filter := None; xml_file := None;
                         list_only := false |}
                      [tc_suite "A" [mkTest "t1" f1 r1; mkTest "t2" f2 r2];
                       tc_suite "B" [mkTest "t3" f3 r3]] []
                    = [tc_suite "A" [mkTest "t1" f1 r1]]) by reflexivity.
  split; [reflexivity|]. split; [exact Hfilter|].
  split; [|split; [|split; [|split]]].
  - unfold tc_main.
    change (tc__parse_args (tail ["prog"; "--test"; "A"; "t1"]) no_options)
      with (ParseRun {| suite_filter := Some "A"; test_filter := Some "t1";
                        match_filter := None; xml_file := None;
                        list_only := false |}).
    unfold tc__main_parsed, tc__main_run.
    cbn [xml_file list_only]. rewrite Hfilter. cbn [length Z.of_nat Z.eqb].
    destruct (tc__run_all_ex _ true m) as [summary m1].
    reflexivity.
  - eapply calls_trans_nil; [|apply calls_print_summary].
    assert (Hc : concat (map suite_calls [tc_suite "A" [mkTest "t1" f1 r1]])
                 = test_calls (mkTest "t1" f1 r1)).
    { clear Hfilter. destruct f1; reflexivity. }
    rewrite <- Hc. apply calls_run_all_ex. repeat constructor.
  - intros o' suites.
    rewrite (tc__filter_suites_take o' suites []) by (cbn [length]; discriminate).
    cbn [app length]. now rewrite Nat.sub_0_r.
  - intros o' ts. apply tc__filter_tests_filter.
  - intros o' suites.
    destruct (tc__filter_suites_spec o' suites []) as (kept & Hsub & Heq & Hne).
    cbn [app] in Heq. exists kept.
    split; [exact Hsub|]. split; [exact Heq|]. split.
    + apply Forall_forall. intros s _. unfold tc__selected_suite.
      destruct (_ || _); [|repeat split; reflexivity].
      repeat split.
      unfold suite_tests at 1, tc__filtered_suite. cbn [tests test_count].
      rewrite Nat2Z.id, firstn_all. apply tc__filter_tests_spec.
    + intros Hset.
      assert (Hb : bool_decide (is_Some (test_filter o'))
                   || bool_decide (is_Some (match_filter o')) = true).
      { apply orb_true_iff.
        destruct Hset; [left|right]; now apply bool_decide_eq_true_2. }
      specialize (Hne Hb). rewrite Heq. apply Forall_map.
      eapply Forall_impl; [exact Hne|]. cbn beta. intros s Hpos.
      split; [exact Hpos|].
      unfold tc__selected_suite in *. rewrite Hb in *.
      unfold suite_tests, tc__filtered_suite in *. cbn [tests test_count] in *.
      rewrite Nat2Z.id, firstn_all.
      destruct (tc__filter_tests o' _); [cbn in Hpos; lia|discriminate].
Qed.

End FilterScenario.

(** C5, at a filter that matches no suite. *)
Lemma no_tests_matched_witness :
  @tc_main demo_platform ["prog"; "--suite"; "Z"] [demo_suite_A] demo_machine
  = Some (1, @printf demo_platform ("No tests matched filters." +:+ LF)
               demo_machine).
Proof.
  refine (proj1 (@no_tests_matched demo_platform ["prog"; "--suite"; "Z"]
                   [demo_suite_A]
                   {| suite_filter := Some "Z"; test_filter := None;
                      match_filter := None; xml_file := None;
                      list_only := false |}
                   demo_machine demo_machine eq_refl eq_refl eq_refl) _).
  reflexivity.
Defined.

(** C5, as stated, fails: [tc_main] called with a filter that matches
    nothing and [tc_main] called on an empty suite collection with no filter
    end in the same way, with the same output and the same exit code 1. *)
Lemma no_tests_matched_counterexample :
  @tc_main demo_platform ["prog"; "--suite"; "Z"] [demo_suite_A] demo_machine
  = Some (1, @printf demo_platform ("No tests matched filters." +:+ LF)
               demo_machine)
  /\ @tc_main demo_platform ["prog"] [] demo_machine
     = @tc_main demo_platform ["prog"; "--suite"; "Z"] [demo_suite_A]
         demo_machine.
Proof. split; reflexivity. Qed.

(** C6, at a report file that cannot be created: the exit code is 1 and the
    world shows that no test ran. *)
Lemma xml_file_created_first_witness :
  exists m' : @Machine demo_platform,
    @tc_main demo_platform ["prog"; "--xml"; "/readonly/report.xml"]
      [demo_suite_A; demo_suite_B] demo_machine = Some (1, m')
    /\ world m' = [] /\ user_calls (trace m') = [].
Proof.
  eexists. split.
  - refine (proj1 (@xml_file_created_first demo_platform
                     ["prog"; "--xml"; "/readonly/report.xml"]
                     [demo_suite_A; demo_suite_B]
                     {| suite_filter := None; test_filter := None;
                        match_filter := None;
                        xml_file := Some "/readonly/report.xml";
                        list_only := false |}
                     "/readonly/report.xml" demo_machine eq_refl eq_refl) _).
    reflexivity.
  - split; reflexivity.
Defined.

(** Matching by containment at work: with the suites [A{t1,t10}; AB{t1}]
    the arguments [--test "A" "t1"] select both suites, and both tests of
    the first one. *)
Example test_filter_matches_by_containment :
  let o := {| suite_filter := Some "A"; test_filter := Some "t1";
              match_filter := None; xml_file := None; list_only := false |} in
  let filtered := @tc__filter_suites demo_platform o
                    [demo_suite_A10; demo_suite_AB] [] in
  let out := @tc_main demo_platform ["prog"; "--test"; "A"; "t1"]
               [demo_suite_A10; demo_suite_AB] demo_machine in
  map (fun s => (suite_name s, map test_name (suite_tests s))) filtered
  = [("A", ["t1"; "t10"]); ("AB", ["t1"])] /\
  (fun x => user_calls (trace (snd x))) <$> out
  = Some [EvTest "t1"; EvTest "t10"; EvTest "t1"].
Proof. cbn zeta. split; vm_compute; reflexivity. Qed.

(** C4, at tests whose functions pass: the exit code is 0 and the only
    user code that ran is the function of [t1]. *)
Lemma test_filter_selects_pair_witness :
  let out := @tc_main demo_platform ["prog"; "--test"; "A"; "t1"]
               [demo_suite_A; demo_suite_B] demo_machine in
  fst <$> out = Some 0
  /\ (fun x => user_calls (trace (snd x))) <$> out = Some [EvTest "t1"]
  /\ (fun x => world (snd x)) <$> out = Some ["test ran"].
Proof.
  cbn zeta.
  destruct (@test_filter_selects_pair demo_platform (Some demo_passing)
              (Some demo_passing) (Some demo_passing) None None None
              demo_machine) as (_ & _ & Hmain & _).
  change (@tc_main demo_platform ["prog"; "--test"; "A"; "t1"]
            [demo_suite_A; demo_suite_B] demo_machine)
    with (@tc_main demo_platform ["prog"; "--test"; "A"; "t1"]
            [@tc_suite demo_platform "A"
               [@mkTest demo_platform "t1" (Some demo_passing) None;
                @mkTest demo_platform "t2" (Some demo_passing) None];
             @tc_suite demo_platform "B"
               [@mkTest demo_platform "t3" (Some demo_passing) None]]
            demo_machine).
  rewrite Hmain. repeat split; vm_compute; reflexivity.
Defined.

(** ** Further scenarios of the specification *)

Section MoreScenarios.
Context `{Platform}.

(** With the suites [A{t1,t2}; B{t3}]: [--suite "A"] selects suite [A]
    alone, as it is, with both tests; [--match "t"] with no suite filter
    selects every suite whose filtered list of tests is not empty, here
    both suites with all their tests. *)
Theorem suite_and_match_filter_scenarios (f1 f2 f3 : option TestFn)
    (r1 r2 r3 : option string) :
  let A := tc_suite "A" [mkTest "t1" f1 r1; mkTest "t2" f2 r2] in
  let B := tc_suite "B" [mkTest "t3" f3 r3] in
  let by_suite := {| suite_filter := Some "A"; test_filter := None;
                     match_filter := None; xml_file := None;
                     list_only := false |} in
  let by_match := {| suite_filter := None; test_filter := None;
                     match_filter := Some "t"; xml_file := None;
                     list_only := false |} in
  tc__parse_args ["--suite"; "A"] no_options = ParseRun by_suite /\
  tc__filter_suites by_suite [A; B] [] = [A] /\
  tc__parse_args ["--match"; "t"] no_options = ParseRun by_match /\
  tc__filter_suites by_match [A; B] [] = [A; B].
Proof. cbn zeta. repeat split. Qed.

(** The argument loop over complete options: each one updates the local
    variables, and the loop goes on behind its last word. *)
Lemma tc__parse_args_words (opts : list CliOption) :
  Forall cli_option_wf opts ->
  forall (rest : list string) (o : Options),
    tc__parse_args (concat (map cli_words opts) ++ rest) o
    = tc__parse_args rest (fold_left cli_apply opts o).
Proof.
  induction 1 as [|c opts Hc _ IH]; intros rest o; [reflexivity|].
  cbn [map concat fold_left]. rewrite <- app_assoc.
  destruct c as [|name|suite test|pattern|file|word];
    try (cbn [cli_words app]; rewrite <- IH; reflexivity).
  cbn [cli_words app cli_apply]. rewrite <- IH.
  cbn [cli_option_wf] in Hc. unfold cli_keywords in Hc.
  rewrite !not_elem_of_cons in Hc.
  destruct Hc as (H1 & H2 & H3 & H4 & H5 & H6 & H7 & _).
  cbn [tc__parse_args]. unfold strcmp0.
  apply String.eqb_neq in H1, H2, H3, H4, H5, H6, H7.
  rewrite H1, H2, H3, H4, H5, H6, H7. reflexivity.
Qed.

(** X1. [--help] or [-h] in the place of an option: when the entries of
    [argv] before it are complete options ([--list], [--suite v],
    [--test s t], [--match p], [--xml f], with any values) or words the loop
    passes over, [tc_main] prints the eight lines of the usage, with
    [argv[0]] in the first, and returns 0 at once: nothing else is printed,
    no file is opened, no user code is called and nothing is stored,
    whatever follows on the command line.  In the place of a value the same
    word is the value: the loop over complete options alone ends with the
    options recorded, not with the usage. *)
Theorem help_returns_first (prog h : string) (opts : list CliOption)
    (rest : list string) (suites : list Suite) (m : Machine) :
  Forall cli_option_wf opts ->
  h = "--help" \/ h = "-h" ->
  (exists m' : Machine,
     tc_main (prog :: concat (map cli_words opts) ++ h :: rest) suites m
     = Some (0, m') /\
     trace m'
     = trace m
       ++ map EvStdout
            ["Usage: " +:+ prog +:+ " [options]" +:+ LF;
             LF +:+ "Options:" +:+ LF;
             "  --help                  Show this help" +:+ LF;
             "  --list                  List all tests" +:+ LF;
             "  --suite " +:+ DQUOTE +:+ "name" +:+ DQUOTE
             +:+ "          Run specific suite" +:+ LF;
             "  --test " +:+ DQUOTE +:+ "suite" +:+ DQUOTE +:+ " " +:+ DQUOTE
             +:+ "test" +:+ DQUOTE +:+ "   Run specific test" +:+ LF;
             "  --match " +:+ DQUOTE +:+ "pattern" +:+ DQUOTE
             +:+ "       Run tests matching pattern" +:+ LF;
             "  --xml " +:+ DQUOTE +:+ "file" +:+ DQUOTE
             +:+ "            Output results as JUnit XML" +:+ LF] /\
     world m' = world m /\ same_store m m') /\
  tc__parse_args (concat (map cli_words opts)) no_options
  = ParseRun (fold_left cli_apply opts no_options).
Proof.
  intros Hopts Hh. split.
  - unfold tc_main. cbn [tail hd].
    rewrite (tc__parse_args_words opts Hopts).
    assert (Hhelp : forall o : Options,
               tc__parse_args (h :: rest) o = ParseHelp).
    { intros o. destruct Hh as [-> | ->]; reflexivity. }
    rewrite Hhelp. eexists. split; [reflexivity|].
    unfold tc__print_help, printf, emit, same_store.
    cbn [world trace tc__results tc__result_counts map].
    rewrite <- !app_assoc. repeat split.
  - rewrite <- (app_nil_r (concat (map cli_words opts))).
    now rewrite (tc__parse_args_words opts Hopts).
Qed.

End MoreScenarios.

(** X1, at [-h] behind an [--xml] path that cannot be created and a
    [--suite] whose value is the word [--help]: the usage is all that is
    printed, and the exit code is 0. *)
Lemma help_returns_first_witness :
  exists m' : @Machine demo_platform,
    @tc_main demo_platform
      ["prog"; "--xml"; "/readonly/report.xml"; "--suite"; "--help"; "-h";
       "--list"]
      [demo_suite_A] demo_machine = Some (0, m') /\
    length (trace m') = 8%nat /\
    hd_error (trace m')
    = Some (EvStdout ("Usage: prog [options]" +:+ LF)) /\
    world m' = [].
Proof.
  destruct (@help_returns_first demo_platform "prog" "-h"
              [OptXml "/readonly/report.xml"; OptSuite "--help"] ["--list"]
              [demo_suite_A] demo_machine)
    as ((m' & Hmain & Htrace & Hworld & _) & _).
  - repeat constructor.
  - now right.
  - exists m'. split; [exact Hmain|].
    rewrite Htrace, Hworld. repeat split.
Defined.

(** * Further properties: the result model *)

Lemma size_sub_one (max : Z) :
  1 <= max < SIZE_MODULUS -> size_sub max 1 = max - 1.
Proof. intros Hmax. unfold size_sub. apply Z.mod_small. lia. Qed.

(** X2. [tc__safe_copy] (testcracks.c, 27-34) keeps the first [max - 1]
    characters of its source and nothing else: the copy is a prefix of the
    source, its length is the smaller of [strlen(src)] and [max - 1], copying
    the copy again changes nothing, and a [NULL] source gives the empty
    string. *)
Theorem tc__safe_copy_truncates (s : string) (max : Z) :
  1 <= max < SIZE_MODULUS ->
  tc__safe_copy (Some s) max = str_take (Z.to_nat (max - 1)) s /\
  strlen (tc__safe_copy (Some s) max) = Z.min (strlen s) (max - 1) /\
  tc__safe_copy (Some (tc__safe_copy (Some s) max)) max
  = tc__safe_copy (Some s) max /\
  tc__safe_copy None max = EmptyString.
Proof.
  intros Hmax.
  assert (Heq : tc__safe_copy (Some s) max = str_take (Z.to_nat (max - 1)) s).
  { unfold tc__safe_copy.
    destruct (Z.leb_spec max (strlen s)) as [Hle|Hlt].
    - now rewrite size_sub_one.
    - unfold strlen in *. rewrite !str_take_all by lia. reflexivity. }
  split; [exact Heq|]. split; [|split; [|reflexivity]].
  - rewrite Heq. unfold strlen. rewrite str_take_length. lia.
  - apply tc__safe_copy_short. now apply tc__safe_copy_bound.
Qed.

Lemma tc__safe_copy_truncates_witness :
  tc__safe_copy (Some "abcdef") 4 = "abc" /\
  strlen (tc__safe_copy (Some "abcdef") 4) = 3.
Proof.
  destruct (tc__safe_copy_truncates "abcdef" 4) as (H1 & H2 & _).
  - unfold SIZE_MODULUS. lia.
  - split; [exact H1 | exact H2].
Defined.

(** ** The algebra of [tc_combine] *)

Lemma tc_combine_skip_l (a b : TestResult) :
  tag a = TC_SKIP -> tc_combine a b = a.
Proof.
  intros Ha. unfold tc_combine. now rewrite bool_decide_eq_true_2.
Qed.

Lemma tc_combine_skip_r (a b : TestResult) :
  tag a <> TC_SKIP -> tag b = TC_SKIP -> tc_combine a b = b.
Proof.
  intros Ha Hb. unfold tc_combine.
  rewrite bool_decide_eq_false_2 by assumption.
  now rewrite bool_decide_eq_true_2.
Qed.

Lemma tc_combine_pass_pass (a b : TestResult) :
  tag a = TC_PASS -> tag b = TC_PASS -> tc_combine a b = a.
Proof.
  intros Ha Hb. unfold tc_combine.
  rewrite !bool_decide_eq_false_2 by congruence.
  now rewrite !bool_decide_eq_true_2.
Qed.

Lemma take_take_app {A : Type} (n : nat) (l1 l2 : list A) :
  take n (take n l1 ++ l2) = take n (l1 ++ l2).
Proof.
  destruct (Nat.le_gt_cases (length l1) n) as [Hle|Hgt].
  - now rewrite (take_ge l1).
  - rewrite !take_app_le by (rewrite ?length_take; lia).
    now rewrite take_take, Nat.min_id.
Qed.

Lemma take_app_take {A : Type} (n : nat) (l1 l2 : list A) :
  take n (l1 ++ take n l2) = take n (l1 ++ l2).
Proof.
  rewrite !take_app. f_equal. rewrite take_take. f_equal. lia.
Qed.

Lemma tc__fail_of_wf (errs : list TestError) : result_wf (tc__fail_of errs).
Proof.
  unfold tc__fail_of, result_wf; cbn [errors error_count].
  rewrite length_app, length_replicate, length_take.
  pose proof TC_MAX_ERRORS_pos. split; lia.
Qed.

Lemma tc__fail_of_errors (errs : list TestError) :
  tc_errors (tc__fail_of errs) = take (Z.to_nat TC_MAX_ERRORS) errs.
Proof.
  unfold tc__fail_of, tc_errors; cbn [errors error_count].
  rewrite Nat2Z.id. rewrite take_app_le by lia. now rewrite take_ge by lia.
Qed.

Lemma tc__fail_of_take (l1 l2 : list TestError) :
  take (Z.to_nat TC_MAX_ERRORS) l1 = take (Z.to_nat TC_MAX_ERRORS) l2 ->
  tc__fail_of l1 = tc__fail_of l2.
Proof. intros Heq. unfold tc__fail_of. now rewrite Heq. Qed.

(** In its last case [tc_combine] returns the fresh Fail result of the two
    error lists. *)
Lemma tc_combine_fail_of (a b : TestResult) :
  result_wf a -> result_wf b ->
  tag a <> TC_SKIP -> tag b <> TC_SKIP ->
  ~ (tag a = TC_PASS /\ tag b = TC_PASS) ->
  tc_combine a b = tc__fail_of (tc_errors a ++ tc_errors b).
Proof.
  intros Ha Hb Hsa Hsb Hpp.
  unfold tc_combine.
  rewrite !bool_decide_eq_false_2 by assumption.
  assert (Hand : bool_decide (tag a = TC_PASS) && bool_decide (tag b = TC_PASS)
                 = false).
  { apply andb_false_iff.
    destruct (decide (tag a = TC_PASS)) as [Hpa|Hpa].
    - right. apply bool_decide_eq_false_2. tauto.
    - left. now apply bool_decide_eq_false_2. }
  rewrite Hand. cbn zeta.
  destruct (tc_combine_fail_spec a b Ha Hb)
    as (Hwf & Htag & Hel & Herr & Hcnt & Hdrop).
  set (r := tc__copy_errors b _) in *.
  assert (Hlen : length (tc_errors r) = Z.to_nat (error_count r))
    by now apply tc_errors_length.
  assert (Herrs : errors r
                  = tc_errors r ++ replicate
                      (Z.to_nat TC_MAX_ERRORS - length (tc_errors r))
                      tc__zero_error).
  { rewrite <- (take_drop (Z.to_nat (error_count r)) (errors r)) at 1.
    rewrite Hdrop. unfold tc_errors at 1. f_equal. f_equal.
    destruct Hwf. lia. }
  destruct r as [t es c el]; cbn [tag errors error_count elapsed_ms] in *.
  unfold tc__fail_of. rewrite <- Herr.
  subst t el. f_equal.
  - exact Herrs.
  - destruct Hwf as [_ Hc]; cbn [error_count] in Hc. lia.
Qed.

Lemma tc_errors_pass (r : TestResult) :
  result_proper r -> tag r = TC_PASS -> tc_errors r = [].
Proof.
  intros [_ Hp] Ht. unfold tc_errors. now rewrite (Hp Ht).
Qed.

Lemma tc_errors_take (r : TestResult) :
  result_wf r -> take (Z.to_nat TC_MAX_ERRORS) (tc_errors r) = tc_errors r.
Proof.
  intros Hwf. apply take_ge. rewrite tc_errors_length by assumption.
  destruct Hwf. lia.
Qed.

Lemma tc__fail_of_proper (errs : list TestError) :
  result_proper (tc__fail_of errs).
Proof. split; [apply tc__fail_of_wf | discriminate]. Qed.

(** What [tc_combine] returns for two results that are not skipped. *)
Lemma tc_combine_no_skip (a b : TestResult) :
  result_wf a -> result_wf b ->
  tag a <> TC_SKIP -> tag b <> TC_SKIP ->
  (tag a = TC_PASS /\ tag b = TC_PASS /\ tc_combine a b = a) \/
  (~ (tag a = TC_PASS /\ tag b = TC_PASS) /\
   tc_combine a b = tc__fail_of (tc_errors a ++ tc_errors b)).
Proof.
  intros Ha Hb Hsa Hsb.
  destruct (decide (tag a = TC_PASS)) as [Hpa|Hpa];
    [destruct (decide (tag b = TC_PASS)) as [Hpb|Hpb]|].
  - left. auto using tc_combine_pass_pass.
  - right. split; [tauto|]. apply tc_combine_fail_of; tauto.
  - right. split; [tauto|]. apply tc_combine_fail_of; tauto.
Qed.

Lemma tc_combine_proper (a b : TestResult) :
  result_proper a -> result_proper b -> result_proper (tc_combine a b).
Proof.
  intros Ha Hb.
  destruct (decide (tag a = TC_SKIP)) as [Hsa|Hsa].
  { now rewrite tc_combine_skip_l. }
  destruct (decide (tag b = TC_SKIP)) as [Hsb|Hsb].
  { now rewrite tc_combine_skip_r. }
  destruct (tc_combine_no_skip a b (proj1 Ha) (proj1 Hb) Hsa Hsb)
    as [(_ & _ & ->)|(_ & ->)]; [assumption | apply tc__fail_of_proper].
Qed.

Lemma tc_combine_tag_no_skip (a b : TestResult) :
  result_wf a -> result_wf b ->
  tag a <> TC_SKIP -> tag b <> TC_SKIP -> tag (tc_combine a b) <> TC_SKIP.
Proof.
  intros Ha Hb Hsa Hsb.
  destruct (tc_combine_no_skip a b Ha Hb Hsa Hsb)
    as [(_ & _ & ->)|(_ & ->)]; [assumption | discriminate].
Qed.

(** X3. [tc_combine] (testcracks.c, 104-125) is associative on the results the
    library makes (well-formed, a Pass without errors): merging checks one
    after the other gives the same result however the merges are nested,
    also when the capacity of [TC_MAX_ERRORS] errors is exceeded on the
    way. *)
Theorem tc_combine_assoc (a b c : TestResult) :
  result_proper a -> result_proper b -> result_proper c ->
  tc_combine (tc_combine a b) c = tc_combine a (tc_combine b c).
Proof.
  intros Ha Hb Hc.
  pose proof (tc_combine_proper a b Ha Hb) as Hab.
  pose proof (tc_combine_proper b c Hb Hc) as Hbc.
  destruct (decide (tag a = TC_SKIP)) as [Hsa|Hsa].
  { rewrite (tc_combine_skip_l a b) by assumption.
    now rewrite !tc_combine_skip_l. }
  destruct (decide (tag b = TC_SKIP)) as [Hsb|Hsb].
  { rewrite (tc_combine_skip_r a b) by assumption.
    rewrite (tc_combine_skip_l b c) by assumption.
    now rewrite tc_combine_skip_r. }
  pose proof (tc_combine_tag_no_skip a b (proj1 Ha) (proj1 Hb) Hsa Hsb) as Hsab.
  destruct (decide (tag c = TC_SKIP)) as [Hsc|Hsc].
  { rewrite (tc_combine_skip_r b c) by assumption.
    now rewrite !tc_combine_skip_r. }
  pose proof (tc_combine_tag_no_skip b c (proj1 Hb) (proj1 Hc) Hsb Hsc) as Hsbc.
  destruct (tc_combine_no_skip a b (proj1 Ha) (proj1 Hb) Hsa Hsb)
    as [(Hpa & Hpb & Eab)|(Hnab & Eab)];
  destruct (tc_combine_no_skip b c (proj1 Hb) (proj1 Hc) Hsb Hsc)
    as [(Hpb' & Hpc & Ebc)|(Hnbc & Ebc)].
  - rewrite Eab, Ebc, Eab. now apply tc_combine_pass_pass.
  - assert (Htbc : tag (tc_combine b c) = TC_FAIL) by now rewrite Ebc.
    rewrite Eab.
    rewrite (tc_combine_fail_of a c);
      [|apply Ha|apply Hc|assumption|assumption|tauto].
    rewrite (tc_combine_fail_of a (tc_combine b c));
      [|apply Ha|apply Hbc|assumption|assumption|intros [_ Hp]; congruence].
    rewrite Ebc, tc__fail_of_errors.
    apply tc__fail_of_take. rewrite take_app_take.
    now rewrite (tc_errors_pass b Hb Hpb).
  - assert (Htab : tag (tc_combine a b) = TC_FAIL) by now rewrite Eab.
    rewrite Ebc.
    rewrite (tc_combine_fail_of (tc_combine a b) c);
      [|apply Hab|apply Hc|assumption|assumption|intros [Hp _]; congruence].
    rewrite Eab, tc__fail_of_errors.
    apply tc__fail_of_take. rewrite take_take_app.
    now rewrite (tc_errors_pass c Hc Hpc), app_nil_r.
  - assert (Htab : tag (tc_combine a b) = TC_FAIL) by now rewrite Eab.
    assert (Htbc : tag (tc_combine b c) = TC_FAIL) by now rewrite Ebc.
    rewrite (tc_combine_fail_of (tc_combine a b) c);
      [|apply Hab|apply Hc|assumption|assumption|intros [Hp _]; congruence].
    rewrite (tc_combine_fail_of a (tc_combine b c));
      [|apply Ha|apply Hbc|assumption|assumption|intros [_ Hp]; congruence].
    rewrite Eab, Ebc, !tc__fail_of_errors.
    apply tc__fail_of_take.
    now rewrite take_take_app, take_app_take, app_assoc.
Qed.

(** The three constructors that record an error give proper results. *)
Lemma tc__first_error_proper (t : ResultTag) (msg ex ac : option string) :
  t <> TC_PASS ->
  result_proper (tc__append_error (tc__set_tag t tc__zero_result) msg ex ac).
Proof.
  intros Ht.
  destruct (tc__first_error_spec t msg ex ac) as (Hwf & Htag & _).
  split; [exact Hwf|]. intros Hp. congruence.
Qed.

Lemma tc_pass_proper : result_proper tc_pass.
Proof. split; [apply result_wf_zero | reflexivity]. Qed.

Lemma tc_fail_with_proper (msg ex ac : option string) :
  result_proper (tc_fail_with msg ex ac).
Proof. now apply tc__first_error_proper. Qed.

Lemma tc_combine_assoc_witness :
  let a := tc_fail (Some "a") in
  let b := tc_pass in
  let c := tc_fail_with (Some "c") (Some "1") (Some "2") in
  tc_combine (tc_combine a b) c = tc_combine a (tc_combine b c).
Proof.
  apply tc_combine_assoc.
  - now apply tc__first_error_proper.
  - apply tc_pass_proper.
  - apply tc_fail_with_proper.
Defined.

(** X4. [tc_pass()] is neutral for [tc_combine] (testcracks.c, 61-66 and
    104-125) on proper results, as far as the tag and the errors go: merging
    it on either side changes neither; a skipped result comes back as it
    is, and so does a passed one on the left; a failed one comes back as a
    fresh result with the same errors and an elapsed time of zero.  The
    merge of two proper results is proper. *)
Theorem tc_pass_neutral (r : TestResult) :
  result_proper r ->
  (tag (tc_combine tc_pass r) = tag r /\
   tc_errors (tc_combine tc_pass r) = tc_errors r) /\
  (tag (tc_combine r tc_pass) = tag r /\
   tc_errors (tc_combine r tc_pass) = tc_errors r) /\
  (tag r <> TC_FAIL -> tc_combine r tc_pass = r) /\
  (tag r = TC_SKIP -> tc_combine tc_pass r = r) /\
  (tag r = TC_FAIL ->
   tc_combine r tc_pass = tc__fail_of (tc_errors r) /\
   tc_combine tc_pass r = tc__fail_of (tc_errors r) /\
   elapsed_ms (tc_combine r tc_pass) = 0%float) /\
  (forall r' : TestResult,
     result_proper r' -> result_proper (tc_combine r r')).
Proof.
  intros Hr.
  assert (Hpt : tag tc_pass = TC_PASS) by reflexivity.
  assert (Hpe : tc_errors tc_pass = []) by reflexivity.
  assert (Hpwf : result_wf tc_pass) by apply result_wf_zero.
  assert (Hfail : tag r = TC_FAIL ->
                  tc_combine r tc_pass = tc__fail_of (tc_errors r) /\
                  tc_combine tc_pass r = tc__fail_of (tc_errors r)).
  { intros Hf. split.
    - rewrite tc_combine_fail_of; try apply Hr; try assumption; try congruence.
      + now rewrite Hpe, app_nil_r.
      + intros [Hp _]; congruence.
    - rewrite tc_combine_fail_of; try apply Hr; try assumption; try congruence.
      + now rewrite Hpe.
      + intros [_ Hp]; congruence. }
  assert (Hskip : tag r = TC_SKIP -> tc_combine tc_pass r = r).
  { intros Hs. apply tc_combine_skip_r; [discriminate | assumption]. }
  assert (Hright : tag r <> TC_FAIL -> tc_combine r tc_pass = r).
  { intros Hnf. destruct (tag r) eqn:Ht; try congruence.
    - now apply tc_combine_pass_pass.
    - now apply tc_combine_skip_l. }
  split; [|split; [|split; [exact Hright|split; [exact Hskip|split]]]].
  - destruct (tag r) eqn:Ht.
    + rewrite tc_combine_pass_pass by assumption.
      split; [reflexivity|]. symmetry. now apply tc_errors_pass.
    + destruct (Hfail eq_refl) as [_ ->].
      split; [reflexivity|]. rewrite tc__fail_of_errors.
      apply tc_errors_take, Hr.
    + rewrite Hskip by reflexivity. now rewrite Ht.
  - destruct (tag r) eqn:Ht.
    + rewrite Hright by congruence. now rewrite Ht.
    + destruct (Hfail eq_refl) as [-> _].
      split; [reflexivity|]. rewrite tc__fail_of_errors.
      apply tc_errors_take, Hr.
    + rewrite Hright by congruence. now rewrite Ht.
  - intros Hf. destruct (Hfail Hf) as [H1 H2].
    split; [exact H1|]. split; [exact H2|]. now rewrite H1.
  - intros r' Hr'. now apply tc_combine_proper.
Qed.

Lemma tc_pass_neutral_witness :
  let r := tc_fail_with (Some "m") (Some "1") (Some "2") in
  tag (tc_combine tc_pass r) = TC_FAIL /\
  tc_errors (tc_combine tc_pass r)
  = [ {| message := "m"; expected := "1"; actual := "2" |} ].
Proof.
  destruct (tc_pass_neutral (tc_fail_with (Some "m") (Some "1") (Some "2")))
    as ((H1 & H2) & _).
  - apply tc_fail_with_proper.
  - split; [exact H1 | exact H2].
Defined.

(** X5. A chain of merges [r = c0; r = tc_combine(r, c1); ...] over proper
    results (tc_combine, testcracks.c, 104-125): if some check was skipped
    the chain is the first skipped result; otherwise, if every check passed
    it is the first check, and if not it is tagged Fail and holds the errors
    of all checks in order, up to [TC_MAX_ERRORS]. *)
Theorem tc_combine_all_spec (more : list TestResult) :
  forall first : TestResult,
    Forall result_proper (first :: more) ->
    let r := tc_combine_all first more in
    match first_skip (first :: more) with
    | Some s => r = s
    | None =>
        if forallb tc_is_pass (first :: more) then r = first
        else tag r = TC_FAIL /\
             tc_errors r
             = take (Z.to_nat TC_MAX_ERRORS)
                 (concat (map tc_errors (first :: more)))
    end.
Proof.
  induction more as [|x more IH]; intros first Hall.
  - apply Forall_cons in Hall as [Hf _].
    unfold tc_combine_all. cbn. unfold tc_is_skip, tc_is_pass.
    case_bool_decide as Hs; [reflexivity|].
    case_bool_decide as Hp; [reflexivity|]. cbn.
    rewrite app_nil_r. split.
    + destruct (tag first); congruence.
    + symmetry. apply tc_errors_take, Hf.
  - pose proof Hall as Hall'.
    apply Forall_cons in Hall' as [Hf Hrest].
    apply Forall_cons in Hrest as [Hx Hmore].
    assert (Hcomb : result_proper (tc_combine first x))
      by now apply tc_combine_proper.
    specialize (IH (tc_combine first x) (Forall_cons_2 _ _ _ Hcomb Hmore)).
    cbn zeta in *.
    change (tc_combine_all first (x :: more))
      with (tc_combine_all (tc_combine first x) more).
    cbn [first_skip forallb map concat] in *.
    unfold tc_is_skip, tc_is_pass in *.
    destruct (decide (tag first = TC_SKIP)) as [Hsf|Hsf].
    { rewrite (tc_combine_skip_l first x Hsf) in *.
      rewrite (bool_decide_eq_true_2 _ Hsf) in *. exact IH. }
    rewrite (bool_decide_eq_false_2 _ Hsf).
    destruct (decide (tag x = TC_SKIP)) as [Hsx|Hsx].
    { rewrite (tc_combine_skip_r first x Hsf Hsx) in *.
      rewrite (bool_decide_eq_true_2 _ Hsx) in *. exact IH. }
    rewrite (bool_decide_eq_false_2 _ Hsx).
    pose proof (tc_combine_tag_no_skip first x (proj1 Hf) (proj1 Hx) Hsf Hsx)
      as Hsc.
    rewrite (bool_decide_eq_false_2 _ Hsc) in IH.
    destruct (first_skip more) as [s|]; [exact IH|].
    destruct (tc_combine_no_skip first x (proj1 Hf) (proj1 Hx) Hsf Hsx)
      as [(Hpf & Hpx & E)|(Hnp & E)].
    + rewrite E in *.
      rewrite (bool_decide_eq_true_2 _ Hpf) in *.
      rewrite (bool_decide_eq_true_2 _ Hpx).
      cbn [andb] in *.
      destruct (forallb _ more); [exact IH|].
      now rewrite (tc_errors_pass x Hx Hpx), app_nil_l.
    + assert (Hfalse : bool_decide (tag first = TC_PASS)
                       && (bool_decide (tag x = TC_PASS)
                           && forallb (fun r => bool_decide (tag r = TC_PASS))
                                more) = false).
      { destruct (decide (tag first = TC_PASS)) as [Hpf|Hpf].
        - rewrite (bool_decide_eq_false_2 (tag x = TC_PASS)) by tauto.
          now rewrite andb_false_r.
        - now rewrite (bool_decide_eq_false_2 _ Hpf). }
      rewrite Hfalse.
      rewrite (bool_decide_eq_false_2 (tag (tc_combine first x) = TC_PASS))
        in IH by (rewrite E; discriminate).
      cbn [andb] in IH. destruct IH as [Ht He].
      split; [exact Ht|].
      rewrite He, E, tc__fail_of_errors, take_take_app.
      now rewrite app_assoc.
Qed.

Lemma tc_combine_all_spec_witness :
  let checks := [tc_assert_true false (Some "b"); tc_pass;
                 tc_assert_false true (Some "d")] in
  tag (tc_combine_all tc_pass checks) = TC_FAIL /\
  tc_errors (tc_combine_all tc_pass checks)
  = [ {| message := "b"; expected := "true"; actual := "false" |};
      {| message := "d"; expected := "false"; actual := "true" |} ].
Proof.
  assert (Hall : Forall result_proper
                   [tc_pass; tc_assert_true false (Some "b"); tc_pass;
                    tc_assert_false true (Some "d")]).
  { repeat constructor; try apply tc_pass_proper; try apply tc_fail_with_proper;
      discriminate. }
  exact (tc_combine_all_spec _ _ Hall).
Defined.

(** ** The strings a result holds *)

Lemma TC_MAX_MSG_LEN_range : 1 <= TC_MAX_MSG_LEN < SIZE_MODULUS.
Proof. unfold TC_MAX_MSG_LEN, SIZE_MODULUS. lia. Qed.

Lemma tc__first_error_fits (t : ResultTag) (msg ex ac : option string) :
  Forall error_fits
    (tc_errors (tc__append_error (tc__set_tag t tc__zero_result) msg ex ac)).
Proof.
  destruct (tc__first_error_spec t msg ex ac) as (_ & _ & _ & _ & ->).
  constructor; [|constructor].
  repeat split; cbn [message expected actual];
    apply tc__safe_copy_bound, TC_MAX_MSG_LEN_range.
Qed.

(** X6. Every string of every error of a result fits its array of
    [TC_MAX_MSG_LEN] characters, whatever the lengths of the strings the
    caller passed (also [NULL]): this holds for the results of [tc_pass],
    [tc_fail], [tc_fail_with] and [tc_skip] (testcracks.c, 36-90), and
    [tc_combine] (104-125) keeps it. *)
Theorem stored_strings_fit :
  Forall error_fits (tc_errors tc_pass) /\
  (forall msg : option string, Forall error_fits (tc_errors (tc_fail msg))) /\
  (forall msg ex ac : option string,
     Forall error_fits (tc_errors (tc_fail_with msg ex ac))) /\
  (forall reason : option string,
     Forall error_fits (tc_errors (tc_skip reason))) /\
  (forall a b : TestResult,
     result_wf a -> result_wf b ->
     Forall error_fits (tc_errors a) -> Forall error_fits (tc_errors b) ->
     Forall error_fits (tc_errors (tc_combine a b))).
Proof.
  split; [constructor|].
  split; [intros; apply tc__first_error_fits|].
  split; [intros; apply tc__first_error_fits|].
  split; [intros; apply tc__first_error_fits|].
  intros a b Ha Hb Hfa Hfb.
  destruct (decide (tag a = TC_SKIP)) as [Hsa|Hsa].
  { now rewrite tc_combine_skip_l. }
  destruct (decide (tag b = TC_SKIP)) as [Hsb|Hsb].
  { now rewrite tc_combine_skip_r. }
  destruct (tc_combine_no_skip a b Ha Hb Hsa Hsb)
    as [(_ & _ & ->)|(_ & ->)]; [assumption|].
  rewrite tc__fail_of_errors. apply Forall_take, Forall_app. now split.
Qed.


(** * Further properties: the assertions *)

(** ** Decimal rendering *)

Lemma pretty_N_go_length (k : nat) :
  forall (x : N) (s : string),
    (x < 10 ^ N.of_nat k)%N ->
    (String.length (pretty_N_go x s) <= String.length s + k)%nat.
Proof.
  induction k as [|k IH]; intros x s Hx.
  - assert (x = 0%N) as -> by (cbn in Hx; lia).
    rewrite pretty_N_go_0. lia.
  - destruct (N.eq_dec x 0%N) as [->|Hne].
    { rewrite pretty_N_go_0. lia. }
    rewrite pretty_N_go_step by lia.
    etrans; [apply IH|cbn; lia].
    apply N.Div0.div_lt_upper_bound.
    rewrite Nat2N.inj_succ, N.pow_succ_r' in Hx. exact Hx.
Qed.

(** A number of at most [k] digits prints in at most [k + 1] characters
    (the sign). *)
Lemma fmt_d_length (k : nat) (n : Z) :
  (0 < k)%nat -> - 10 ^ Z.of_nat k < n < 10 ^ Z.of_nat k ->
  strlen (fmt_d n) <= Z.of_nat k + 1.
Proof.
  intros Hk Hn. unfold fmt_d, strlen, pretty, pretty_Z.
  assert (Hpos : forall p : positive,
            Z.pos p < 10 ^ Z.of_nat k ->
            (String.length (pretty p) <= k)%nat).
  { intros p Hp. unfold pretty, pretty_positive, pretty, pretty_N.
    rewrite decide_False by discriminate.
    etrans; [apply (pretty_N_go_length k)|cbn; lia].
    apply N2Z.inj_lt. rewrite N2Z.inj_pow, nat_N_Z. exact Hp. }
  destruct n as [|p|p].
  - cbn. lia.
  - specialize (Hpos p ltac:(lia)). lia.
  - specialize (Hpos p ltac:(lia)).
    change (String.length ("-" +:+ pretty p))
      with (S (String.length (pretty p))). lia.
Qed.

Lemma tc__snprintf_fits (size : Z) (text : string) :
  strlen text < size -> tc__snprintf size text = text.
Proof.
  intros Hlen. unfold tc__snprintf. apply str_take_all.
  unfold strlen in Hlen. lia.
Qed.

(** Every value of [int], [long] and [size_t] prints in at most 21
    characters: the buffers of 32 characters and the strings of the error
    hold it whole. *)
Lemma fmt_d_fits (n : Z) :
  LONG_MIN <= n <= SIZE_MAX -> strlen (fmt_d n) <= 21.
Proof.
  intros Hn. apply (fmt_d_length 20); [lia|].
  unfold LONG_MIN, SIZE_MAX, SIZE_MODULUS in Hn. lia.
Qed.

Lemma tc_is_pass_pass : tc_is_pass tc_pass = true.
Proof. reflexivity. Qed.

Lemma tc_fail_with_spec (msg ex ac : option string) :
  tag (tc_fail_with msg ex ac) = TC_FAIL /\
  tc_is_pass (tc_fail_with msg ex ac) = false /\
  tc_is_fail (tc_fail_with msg ex ac) = true /\
  tc_errors (tc_fail_with msg ex ac)
  = [ {| message := tc__safe_copy msg TC_MAX_MSG_LEN;
         expected := tc__safe_copy ex TC_MAX_MSG_LEN;
         actual := tc__safe_copy ac TC_MAX_MSG_LEN |} ].
Proof.
  destruct (tc__first_error_spec TC_FAIL msg ex ac) as (_ & Ht & _ & _ & He).
  unfold tc_is_pass, tc_is_fail, tc_fail_with. rewrite Ht.
  split; [reflexivity|]. split; [reflexivity|]. split; [reflexivity|exact He].
Qed.

(** A failure whose two texts are short: the error holds them whole. *)
Lemma tc_fail_with_short (msg : option string) (ex ac : string) :
  strlen ex < TC_MAX_MSG_LEN -> strlen ac < TC_MAX_MSG_LEN ->
  tc_errors (tc_fail_with msg (Some ex) (Some ac))
  = [ {| message := tc__safe_copy msg TC_MAX_MSG_LEN;
         expected := ex; actual := ac |} ].
Proof.
  intros Hex Hac.
  destruct (tc_fail_with_spec msg (Some ex) (Some ac)) as (_ & _ & _ & ->).
  now rewrite !tc__safe_copy_short.
Qed.

(** X7. The equality assertions on [int], [long] and [size_t]
    (testcracks.c, 157-163, 177-183, 197-203): each returns [tc_pass()] when
    the two values are equal; when they differ it returns a Fail result with
    one error that holds the caller's message (truncated as
    [tc__safe_copy] does) and the decimal digits of the two values, whole,
    and the two texts differ. *)
Theorem tc_assert_equal_decimal_spec (e a : Z) (msg : option string) :
  LONG_MIN <= e <= SIZE_MAX -> LONG_MIN <= a <= SIZE_MAX ->
  let failure :=
    [ {| message := tc__safe_copy msg TC_MAX_MSG_LEN;
         expected := fmt_d e; actual := fmt_d a |} ] in
  (e = a ->
   tc_assert_equal_int e a msg = tc_pass /\
   tc_assert_equal_long e a msg = tc_pass /\
   tc_assert_equal_size e a msg = tc_pass) /\
  (e <> a ->
   (tag (tc_assert_equal_int e a msg) = TC_FAIL /\
    tc_errors (tc_assert_equal_int e a msg) = failure) /\
   (tag (tc_assert_equal_long e a msg) = TC_FAIL /\
    tc_errors (tc_assert_equal_long e a msg) = failure) /\
   (tag (tc_assert_equal_size e a msg) = TC_FAIL /\
    tc_errors (tc_assert_equal_size e a msg) = failure) /\
   fmt_d e <> fmt_d a).
Proof.
  intros He Ha failure.
  pose proof (fmt_d_fits e He) as Hle. pose proof (fmt_d_fits a Ha) as Hla.
  unfold tc_assert_equal_int, tc_assert_equal_long, tc_assert_equal_size,
    fmt_ld, fmt_zu. fold (fmt_d e) (fmt_d a).
  split.
  - intros ->. now rewrite Z.eqb_refl.
  - intros Hne. apply Z.eqb_neq in Hne as Hb. rewrite Hb. cbn zeta.
    rewrite !tc__snprintf_fits by lia.
    assert (Herr : tc_errors (tc_fail_with msg (Some (fmt_d e)) (Some (fmt_d a)))
                   = failure)
      by (apply tc_fail_with_short; unfold TC_MAX_MSG_LEN; lia).
    assert (Htag : tag (tc_fail_with msg (Some (fmt_d e)) (Some (fmt_d a)))
                   = TC_FAIL) by apply tc_fail_with_spec.
    repeat split; try assumption.
    unfold fmt_d. intros Heq. apply Hne. now apply pretty_Z_inj.
Qed.

Lemma tc_assert_equal_decimal_spec_witness :
  tc_assert_equal_int 4 (2 + 2) (Some "msg") = tc_pass /\
  tag (tc_assert_equal_int 4 5 (Some "msg")) = TC_FAIL /\
  tc_errors (tc_assert_equal_int 4 5 (Some "msg"))
  = [ {| message := "msg"; expected := "4"; actual := "5" |} ].
Proof.
  assert (R4 : LONG_MIN <= 4 <= SIZE_MAX) by (vm_compute; split; discriminate).
  assert (R5 : LONG_MIN <= 5 <= SIZE_MAX) by (vm_compute; split; discriminate).
  destruct (tc_assert_equal_decimal_spec 4 4 (Some "msg") R4 R4) as [Hp _].
  destruct (tc_assert_equal_decimal_spec 4 5 (Some "msg") R4 R5) as [_ Hf].
  destruct (Hp eq_refl) as (H1 & _).
  destruct (Hf ltac:(discriminate)) as ((H2 & H3) & _).
  split; [exact H1|]. split; [exact H2|exact H3].
Defined.

(** ** Each assertion and its opposite *)

Section FormattedFacts.
Variable fmt_p : Z -> string.
Variable fmt_g : float -> string.


End FormattedFacts.

(** ** The assertions on [double] *)

Lemma SFcompare_refl (x : SpecFloat.spec_float) :
  x <> SpecFloat.S754_nan -> SpecFloat.SFcompare x x = Some Eq.
Proof.
  intros Hx. destruct x as [s|s| |s m e]; cbn; try congruence.
  - now destruct s.
  - destruct s; rewrite Z.compare_refl, Pos.compare_cont_refl; reflexivity.
Qed.

Lemma SFcompare_antisym (x y : SpecFloat.spec_float) :
  SpecFloat.SFcompare y x = option_map CompOpp (SpecFloat.SFcompare x y).
Proof.
  destruct x as [s1|s1| |s1 m1 e1], y as [s2|s2| |s2 m2 e2]; cbn;
    try reflexivity;
    try (destruct s1; reflexivity); try (destruct s2; reflexivity);
    try (destruct s1, s2; reflexivity).
  pose proof (Pos.compare_cont_antisym m1 m2 Eq) as Hm. cbn in Hm.
  destruct s1, s2; cbn; try reflexivity;
    rewrite (Z.compare_antisym e1 e2);
    destruct (e1 ?= e2); cbn; try reflexivity;
    rewrite <- Hm; now rewrite ?CompOpp_involutive.
Qed.

Lemma is_nan_Prim2SF (x : float) :
  PrimFloat.is_nan x = true <-> FloatOps.Prim2SF x = SpecFloat.S754_nan.
Proof.
  unfold PrimFloat.is_nan. rewrite FloatAxioms.eqb_spec.
  unfold SpecFloat.SFeqb. split.
  - intros Hn.
    destruct (FloatOps.Prim2SF x) as [s|s| |s m e] eqn:E; try reflexivity;
      rewrite SFcompare_refl in Hn by discriminate; discriminate.
  - now intros ->.
Qed.

(** A comparison with a NaN on either side is false. *)
Lemma float_compare_nan (x y : float) :
  PrimFloat.is_nan x = true \/ PrimFloat.is_nan y = true ->
  PrimFloat.eqb x y = false /\ PrimFloat.ltb x y = false /\
  PrimFloat.leb x y = false.
Proof.
  intros Hn.
  rewrite FloatAxioms.eqb_spec, FloatAxioms.ltb_spec, FloatAxioms.leb_spec.
  unfold SpecFloat.SFeqb, SpecFloat.SFltb, SpecFloat.SFleb.
  assert (Hc : SpecFloat.SFcompare (FloatOps.Prim2SF x) (FloatOps.Prim2SF y)
               = None).
  { destruct Hn as [Hn|Hn]; apply is_nan_Prim2SF in Hn; rewrite Hn.
    - reflexivity.
    - now destruct (FloatOps.Prim2SF x). }
  now rewrite Hc.
Qed.

(** Without a NaN, [x < y] is the negation of [y <= x]. *)
Lemma float_ltb_negb_leb (x y : float) :
  PrimFloat.is_nan x = false -> PrimFloat.is_nan y = false ->
  PrimFloat.ltb x y = negb (PrimFloat.leb y x).
Proof.
  intros Hx Hy.
  rewrite FloatAxioms.ltb_spec, FloatAxioms.leb_spec.
  unfold SpecFloat.SFltb, SpecFloat.SFleb.
  rewrite (SFcompare_antisym (FloatOps.Prim2SF x) (FloatOps.Prim2SF y)).
  assert (Hx' : FloatOps.Prim2SF x <> SpecFloat.S754_nan).
  { intros E. apply is_nan_Prim2SF in E. congruence. }
  assert (Hy' : FloatOps.Prim2SF y <> SpecFloat.S754_nan).
  { intros E. apply is_nan_Prim2SF in E. congruence. }
  destruct (SpecFloat.SFcompare (FloatOps.Prim2SF x) (FloatOps.Prim2SF y))
    as [[| |]|] eqn:E; try reflexivity.
  exfalso.
  destruct (FloatOps.Prim2SF x) as [s1|s1| |s1 m1 e1],
           (FloatOps.Prim2SF y) as [s2|s2| |s2 m2 e2];
    cbn in E; congruence.
Qed.

(** The difference with a NaN, and the difference of an infinity and
    itself, are NaN. *)
Lemma float_sub_nan (x y : float) :
  PrimFloat.is_nan x = true \/ PrimFloat.is_nan y = true \/
  (PrimFloat.is_infinity x = true /\ y = x) ->
  PrimFloat.is_nan (PrimFloat.abs (PrimFloat.sub x y)) = true.
Proof.
  intros Hn. apply is_nan_Prim2SF.
  rewrite FloatAxioms.abs_spec, FloatAxioms.sub_spec.
  unfold FloatAxioms.SF64sub.
  destruct Hn as [Hn|[Hn|[Hi ->]]].
  - apply is_nan_Prim2SF in Hn. now rewrite Hn.
  - apply is_nan_Prim2SF in Hn. rewrite Hn.
    now destruct (FloatOps.Prim2SF x).
  - unfold PrimFloat.is_infinity in Hi.
    rewrite FloatAxioms.eqb_spec, FloatAxioms.abs_spec in Hi.
    assert (Hinf : FloatOps.Prim2SF infinity = SpecFloat.S754_infinity false)
      by reflexivity.
    rewrite Hinf in Hi.
    destruct (FloatOps.Prim2SF x) as [s|s| |s m e]; cbn in Hi;
      try discriminate.
    now destruct s.
Qed.

(** Two values that are not NaN compare as less, equal or greater. *)
Lemma SFcompare_not_nan (x y : float) :
  PrimFloat.is_nan x = false -> PrimFloat.is_nan y = false ->
  SpecFloat.SFcompare (FloatOps.Prim2SF x) (FloatOps.Prim2SF y) <> None.
Proof.
  intros Hx Hy.
  assert (Hx' : FloatOps.Prim2SF x <> SpecFloat.S754_nan).
  { intros E. apply is_nan_Prim2SF in E. congruence. }
  assert (Hy' : FloatOps.Prim2SF y <> SpecFloat.S754_nan).
  { intros E. apply is_nan_Prim2SF in E. congruence. }
  destruct (FloatOps.Prim2SF x) as [s1|s1| |s1 m1 e1],
           (FloatOps.Prim2SF y) as [s2|s2| |s2 m2 e2];
    cbn; congruence.
Qed.

Section DoubleFacts.
Variable fmt_g : float -> string.

(** X9. The assertions on [double] (testcracks.c, 217-231, 337-376) decide by
    the comparison of IEEE 754 binary64, [SpecFloat.SFcompare] of the two
    values: [tc_assert_equal_double] passes exactly when they compare
    equal; [tc_assert_greater_double (actual, than)] exactly when [actual]
    compares greater than [than], [tc_assert_less_double] exactly when it
    compares less, and the two "or equal" assertions when it compares so or
    equal; [tc_assert_in_delta] passes exactly when the absolute value of the
    binary64 difference [expected - actual] compares less than or equal to
    [delta].  Each of them fails when it does not pass.  Two values that are
    not NaN compare in one of the three ways, so exactly one of "greater" and
    "less or equal" passes, and exactly one of "less" and "greater or
    equal".  With a NaN among the two values all five fail;
    [tc_assert_in_delta] fails with a NaN among its three arguments, and
    also for an infinite value compared with itself, whatever the delta,
    although [tc_assert_equal_double] passes there. *)
Theorem double_assertions_nan (x y d : float) (msg : option string) :
  let cmp := SpecFloat.SFcompare (FloatOps.Prim2SF x) (FloatOps.Prim2SF y) in
  let cmp_delta :=
    SpecFloat.SFcompare
      (SpecFloat.SFabs
         (FloatAxioms.SF64sub (FloatOps.Prim2SF x) (FloatOps.Prim2SF y)))
      (FloatOps.Prim2SF d) in
  ((tc_is_pass (tc_assert_equal_double fmt_g x y msg) = true
    <-> cmp = Some Eq) /\
   (tc_is_pass (tc_assert_greater_double fmt_g x y msg) = true
    <-> cmp = Some Gt) /\
   (tc_is_pass (tc_assert_greater_or_equal_double fmt_g x y msg) = true
    <-> cmp = Some Gt \/ cmp = Some Eq) /\
   (tc_is_pass (tc_assert_less_double fmt_g x y msg) = true
    <-> cmp = Some Lt) /\
   (tc_is_pass (tc_assert_less_or_equal_double fmt_g x y msg) = true
    <-> cmp = Some Lt \/ cmp = Some Eq) /\
   (tc_is_pass (tc_assert_in_delta fmt_g x y d msg) = true
    <-> cmp_delta = Some Lt \/ cmp_delta = Some Eq)) /\
  (tc_is_fail (tc_assert_equal_double fmt_g x y msg)
   = negb (tc_is_pass (tc_assert_equal_double fmt_g x y msg)) /\
   tc_is_fail (tc_assert_greater_double fmt_g x y msg)
   = negb (tc_is_pass (tc_assert_greater_double fmt_g x y msg)) /\
   tc_is_fail (tc_assert_greater_or_equal_double fmt_g x y msg)
   = negb (tc_is_pass (tc_assert_greater_or_equal_double fmt_g x y msg)) /\
   tc_is_fail (tc_assert_less_double fmt_g x y msg)
   = negb (tc_is_pass (tc_assert_less_double fmt_g x y msg)) /\
   tc_is_fail (tc_assert_less_or_equal_double fmt_g x y msg)
   = negb (tc_is_pass (tc_assert_less_or_equal_double fmt_g x y msg)) /\
   tc_is_fail (tc_assert_in_delta fmt_g x y d msg)
   = negb (tc_is_pass (tc_assert_in_delta fmt_g x y d msg))) /\
  (PrimFloat.is_nan x = false -> PrimFloat.is_nan y = false ->
   cmp = Some Lt \/ cmp = Some Eq \/ cmp = Some Gt) /\
  (PrimFloat.is_nan x = true \/ PrimFloat.is_nan y = true ->
   tc_is_fail (tc_assert_equal_double fmt_g x y msg) = true /\
   tc_is_fail (tc_assert_greater_double fmt_g x y msg) = true /\
   tc_is_fail (tc_assert_greater_or_equal_double fmt_g x y msg) = true /\
   tc_is_fail (tc_assert_less_double fmt_g x y msg) = true /\
   tc_is_fail (tc_assert_less_or_equal_double fmt_g x y msg) = true) /\
  (PrimFloat.is_nan x = true \/ PrimFloat.is_nan y = true
   \/ PrimFloat.is_nan d = true ->
   tc_is_fail (tc_assert_in_delta fmt_g x y d msg) = true) /\
  (PrimFloat.is_infinity x = true ->
   tc_is_fail (tc_assert_in_delta fmt_g x x d msg) = true /\
   tc_is_pass (tc_assert_equal_double fmt_g x x msg) = true) /\
  (PrimFloat.is_nan x = false -> PrimFloat.is_nan y = false ->
   tc_is_pass (tc_assert_greater_double fmt_g x y msg)
   = tc_is_fail (tc_assert_less_or_equal_double fmt_g x y msg) /\
   tc_is_pass (tc_assert_less_double fmt_g x y msg)
   = tc_is_fail (tc_assert_greater_or_equal_double fmt_g x y msg)).
Proof.
  assert (Hb : forall (b : bool) (ex ac : option string),
            tc_is_fail (if b then tc_pass else tc_fail_with msg ex ac)
            = negb b /\
            tc_is_pass (if b then tc_pass else tc_fail_with msg ex ac) = b).
  { intros b ex ac.
    destruct (tc_fail_with_spec msg ex ac) as (_ & H1 & H2 & _).
    destruct b; rewrite ?H1, ?H2; now split. }
  cbn zeta.
  unfold tc_assert_equal_double, tc_assert_greater_double,
    tc_assert_greater_or_equal_double, tc_assert_less_double,
    tc_assert_less_or_equal_double, tc_assert_in_delta. cbn zeta.
  split; [|split; [|split; [|split; [|split; [|split]]]]].
  - rewrite !(proj2 (Hb _ _ _)).
    rewrite FloatAxioms.eqb_spec, !FloatAxioms.ltb_spec, !FloatAxioms.leb_spec.
    rewrite FloatAxioms.abs_spec, FloatAxioms.sub_spec.
    unfold SpecFloat.SFeqb, SpecFloat.SFltb, SpecFloat.SFleb.
    rewrite (SFcompare_antisym (FloatOps.Prim2SF x) (FloatOps.Prim2SF y)).
    destruct (SpecFloat.SFcompare (FloatOps.Prim2SF x) (FloatOps.Prim2SF y))
      as [[| |]|];
      destruct (SpecFloat.SFcompare
                  (SpecFloat.SFabs
                     (FloatAxioms.SF64sub (FloatOps.Prim2SF x)
                        (FloatOps.Prim2SF y)))
                  (FloatOps.Prim2SF d)) as [[| |]|];
      cbn [option_map CompOpp];
      repeat split; intros; try reflexivity; try discriminate;
      try (left; reflexivity); try (right; reflexivity);
      try match goal with
          | H : _ \/ _ |- _ => destruct H; discriminate
          end.
  - rewrite !(proj1 (Hb _ _ _)), !(proj2 (Hb _ _ _)). repeat split.
  - intros Hx Hy. pose proof (SFcompare_not_nan x y Hx Hy) as Hc.
    destruct (SpecFloat.SFcompare (FloatOps.Prim2SF x) (FloatOps.Prim2SF y))
      as [[| |]|]; [tauto|tauto|tauto|congruence].
  - intros Hn.
    destruct (float_compare_nan x y Hn) as (E1 & E2 & E3).
    destruct (float_compare_nan y x ltac:(tauto)) as (_ & E4 & E5).
    rewrite E1, E2, E3, E4, E5.
    repeat split; apply tc_fail_with_spec.
  - intros Hn.
    assert (Hd : PrimFloat.is_nan (PrimFloat.abs (PrimFloat.sub x y)) = true
                 \/ PrimFloat.is_nan d = true).
    { destruct Hn as [Hn|[Hn|Hn]]; [left|left|right; exact Hn];
        apply float_sub_nan; tauto. }
    destruct (float_compare_nan _ _ Hd) as (_ & _ & E). rewrite E.
    apply tc_fail_with_spec.
  - intros Hi.
    assert (Hd : PrimFloat.is_nan (PrimFloat.abs (PrimFloat.sub x x)) = true)
      by (apply float_sub_nan; tauto).
    destruct (float_compare_nan _ d (or_introl Hd)) as (_ & _ & E). rewrite E.
    split; [apply tc_fail_with_spec|].
    rewrite (proj2 (Hb _ _ _)).
    unfold PrimFloat.is_infinity in Hi.
    rewrite FloatAxioms.eqb_spec in *. rewrite FloatAxioms.abs_spec in Hi.
    unfold SpecFloat.SFeqb in *.
    destruct (FloatOps.Prim2SF x) as [s|s| |s m e]; cbn in Hi;
      try discriminate.
    now destruct s.
  - intros Hx Hy.
    rewrite !(proj1 (Hb _ _ _)), !(proj2 (Hb _ _ _)).
    rewrite (float_ltb_negb_leb y x Hy Hx), (float_ltb_negb_leb x y Hx Hy).
    split; reflexivity.
Qed.

End DoubleFacts.

(** X9, at ordered values, at a NaN and at an infinity: 2 is greater than
    1 and not less; 1.5 is within 0.5 of 1 and not within 0.25. *)
Lemma double_assertions_nan_witness :
  let g := fun _ : float => "x" in
  tc_is_pass (tc_assert_greater_double g 2 1 None) = true /\
  tc_is_fail (tc_assert_less_double g 2 1 None) = true /\
  tc_is_fail (tc_assert_greater_double g 1 1 None) = true /\
  tc_is_pass (tc_assert_greater_or_equal_double g 1 1 None) = true /\
  tc_is_pass (tc_assert_in_delta g 1 1.5 0.5 None) = true /\
  tc_is_fail (tc_assert_in_delta g 1 1.5 0.25 None) = true /\
  tc_is_fail (tc_assert_equal_double g nan nan None) = true /\
  tc_is_fail (tc_assert_in_delta g infinity infinity infinity None) = true /\
  tc_is_pass (tc_assert_equal_double g infinity infinity None) = true.
Proof.
  cbn zeta.
  assert (Hfail : forall r : TestResult,
             tc_is_fail r = negb (tc_is_pass r) ->
             (tc_is_pass r = true -> False) -> tc_is_fail r = true).
  { intros r -> Hno. destruct (tc_is_pass r); [now exfalso|reflexivity]. }
  destruct (double_assertions_nan (fun _ => "x") 2 1 0 None)
    as ((_ & G21 & _ & L21 & _) & (_ & _ & _ & F21 & _) & _).
  destruct (double_assertions_nan (fun _ => "x") 1 1 0 None)
    as ((_ & G11 & GE11 & _) & (_ & F11 & _) & _).
  destruct (double_assertions_nan (fun _ => "x") 1 1.5 0.5 None)
    as ((_ & _ & _ & _ & _ & D1) & _).
  destruct (double_assertions_nan (fun _ => "x") 1 1.5 0.25 None)
    as ((_ & _ & _ & _ & _ & D2) & (_ & _ & _ & _ & _ & FD2) & _).
  destruct (double_assertions_nan (fun _ => "x") nan nan nan None)
    as (_ & _ & _ & H1 & _).
  destruct (double_assertions_nan (fun _ => "x") infinity infinity infinity
              None) as (_ & _ & _ & _ & _ & H3 & _).
  destruct (H1 (or_introl eq_refl)) as (E1 & _).
  destruct (H3 eq_refl) as (E2 & E3).
  split; [apply G21; vm_compute; reflexivity|].
  split; [apply (Hfail _ F21); intros E; apply L21 in E; vm_compute in E;
          discriminate E|].
  split; [apply (Hfail _ F11); intros E; apply G11 in E; vm_compute in E;
          discriminate E|].
  split; [apply GE11; right; vm_compute; reflexivity|].
  split; [apply D1; vm_compute; tauto|].
  split; [apply (Hfail _ FD2); intros E; apply D2 in E; vm_compute in E;
          destruct E; discriminate|].
  split; [exact E1|]. split; [exact E2|exact E3].
Defined.

(** ** Order, strings and collections *)

(** X10. The order assertions on [int] (testcracks.c, 301-331) take the value
    under test first and the bound second: "greater" passes exactly when
    [actual > than], and so on; of "greater" and "less or equal" exactly
    one passes, as of "less" and "greater or equal".  A failure holds one
    error with the bound behind its operator and the value, both whole. *)
Theorem tc_assert_order_int_spec (a t : Z) (msg : option string) :
  INT_MIN <= a <= INT_MAX -> INT_MIN <= t <= INT_MAX ->
  let failure (op : string) :=
    [ {| message := tc__safe_copy msg TC_MAX_MSG_LEN;
         expected := op +:+ fmt_d t; actual := fmt_d a |} ] in
  (tc_is_pass (tc_assert_greater_int a t msg) = bool_decide (a > t) /\
   tc_is_pass (tc_assert_greater_or_equal_int a t msg) = bool_decide (a >= t) /\
   tc_is_pass (tc_assert_less_int a t msg) = bool_decide (a < t) /\
   tc_is_pass (tc_assert_less_or_equal_int a t msg) = bool_decide (a <= t)) /\
  (tc_is_pass (tc_assert_greater_int a t msg)
   = tc_is_fail (tc_assert_less_or_equal_int a t msg) /\
   tc_is_pass (tc_assert_less_int a t msg)
   = tc_is_fail (tc_assert_greater_or_equal_int a t msg)) /\
  (a <= t -> tc_errors (tc_assert_greater_int a t msg) = failure "> ") /\
  (a < t ->
   tc_errors (tc_assert_greater_or_equal_int a t msg) = failure ">= ") /\
  (a >= t -> tc_errors (tc_assert_less_int a t msg) = failure "< ") /\
  (a > t -> tc_errors (tc_assert_less_or_equal_int a t msg) = failure "<= ").
Proof.
  intros Ha Ht failure.
  assert (Hra : LONG_MIN <= a <= SIZE_MAX)
    by (unfold INT_MIN, INT_MAX, LONG_MIN, SIZE_MAX, SIZE_MODULUS in *; lia).
  assert (Hrt : LONG_MIN <= t <= SIZE_MAX)
    by (unfold INT_MIN, INT_MAX, LONG_MIN, SIZE_MAX, SIZE_MODULUS in *; lia).
  pose proof (fmt_d_fits a Hra) as Hla. pose proof (fmt_d_fits t Hrt) as Hlt.
  assert (Hb : forall (b : bool) (ex ac : option string),
            tc_is_fail (if b then tc_pass else tc_fail_with msg ex ac)
            = negb b /\
            tc_is_pass (if b then tc_pass else tc_fail_with msg ex ac) = b).
  { intros b ex ac.
    destruct (tc_fail_with_spec msg ex ac) as (_ & H1 & H2 & _).
    destruct b; rewrite ?H1, ?H2; now split. }
  assert (Hf : forall op : string,
            strlen op <= 3 ->
            tc_errors (tc_fail_with msg
                         (Some (tc__snprintf 32 (op +:+ fmt_d t)))
                         (Some (tc__snprintf 32 (fmt_d a))))
            = failure op).
  { intros op Hop.
    assert (strlen (op +:+ fmt_d t) <= 24) by (rewrite strlen_app; lia).
    rewrite !tc__snprintf_fits by lia.
    apply tc_fail_with_short; unfold TC_MAX_MSG_LEN; lia. }
  unfold tc_assert_greater_int, tc_assert_greater_or_equal_int,
    tc_assert_less_int, tc_assert_less_or_equal_int. cbn zeta.
  rewrite !(proj1 (Hb _ _ _)), !(proj2 (Hb _ _ _)).
  split; [|split; [|split; [|split; [|split]]]].
  - repeat split.
    + destruct (Z.ltb_spec t a);
        [rewrite bool_decide_eq_true_2|rewrite bool_decide_eq_false_2];
        auto with zarith.
    + destruct (Z.leb_spec t a);
        [rewrite bool_decide_eq_true_2|rewrite bool_decide_eq_false_2];
        auto with zarith.
    + destruct (Z.ltb_spec a t);
        [rewrite bool_decide_eq_true_2|rewrite bool_decide_eq_false_2];
        auto with zarith.
    + destruct (Z.leb_spec a t);
        [rewrite bool_decide_eq_true_2|rewrite bool_decide_eq_false_2];
        auto with zarith.
  - split.
    + destruct (Z.ltb_spec t a), (Z.leb_spec a t); try reflexivity; lia.
    + destruct (Z.ltb_spec a t), (Z.leb_spec t a); try reflexivity; lia.
  - intros Hc. destruct (Z.ltb_spec t a); [lia|]. now apply Hf.
  - intros Hc. destruct (Z.leb_spec t a); [lia|]. now apply Hf.
  - intros Hc. destruct (Z.ltb_spec a t); [lia|]. now apply Hf.
  - intros Hc. destruct (Z.leb_spec a t); [lia|]. now apply Hf.
Qed.

Lemma tc_assert_order_int_spec_witness :
  tc_is_pass (tc_assert_greater_int 10 5 (Some "10 > 5")) = true /\
  tc_errors (tc_assert_less_int 7 3 (Some "7 < 3"))
  = [ {| message := "7 < 3"; expected := "< 3"; actual := "7" |} ].
Proof.
  assert (R : forall n : Z, -100 <= n <= 100 -> INT_MIN <= n <= INT_MAX)
    by (unfold INT_MIN, INT_MAX; lia).
  destruct (tc_assert_order_int_spec 10 5 (Some "10 > 5")
              (R 10 ltac:(lia)) (R 5 ltac:(lia))) as ((H1 & _) & _).
  destruct (tc_assert_order_int_spec 7 3 (Some "7 < 3")
              (R 7 ltac:(lia)) (R 3 ltac:(lia)))
    as (_ & _ & _ & _ & H2 & _).
  split; [exact H1|]. exact (H2 ltac:(lia)).
Defined.

(** X11. The string assertions (testcracks.c, 237-259).  When the two
    strings differ, or exactly one of them is [NULL],
    [tc_assert_equal_str] fails with one error whose texts are the two
    strings, ["(null)"] standing for [NULL], truncated to the capacity of
    the error.  So [NULL] compared with the string ["(null)"] fails with
    twice the same text.  [tc_assert_not_equal_str] on two equal strings
    fails with the text [not "..."], which is cut to [TC_MAX_MSG_LEN - 1]
    characters; on two [NULL]s it fails with ["not (null)"]. *)
Theorem tc_assert_str_spec (msg : option string) :
  (forall e a : option string,
     e <> a ->
     tag (tc_assert_equal_str e a msg) = TC_FAIL /\
     tc_errors (tc_assert_equal_str e a msg)
     = [ {| message := tc__safe_copy msg TC_MAX_MSG_LEN;
            expected := tc__safe_copy (Some (tc__or_null e)) TC_MAX_MSG_LEN;
            actual := tc__safe_copy (Some (tc__or_null a)) TC_MAX_MSG_LEN |} ]) /\
  (forall e : option string, tc_assert_equal_str e e msg = tc_pass) /\
  tc_errors (tc_assert_equal_str None (Some "(null)") msg)
  = [ {| message := tc__safe_copy msg TC_MAX_MSG_LEN;
         expected := "(null)"; actual := "(null)" |} ] /\
  (forall s : string,
     tag (tc_assert_not_equal_str (Some s) (Some s) msg) = TC_FAIL /\
     tc_errors (tc_assert_not_equal_str (Some s) (Some s) msg)
     = [ {| message := tc__safe_copy msg TC_MAX_MSG_LEN;
            expected := str_take (Z.to_nat (TC_MAX_MSG_LEN - 1))
                          ("not " +:+ DQUOTE +:+ s +:+ DQUOTE);
            actual := tc__safe_copy (Some s) TC_MAX_MSG_LEN |} ]) /\
  tc_errors (tc_assert_not_equal_str None None msg)
  = [ {| message := tc__safe_copy msg TC_MAX_MSG_LEN;
         expected := "not (null)"; actual := "(null)" |} ].
Proof.
  split; [|split; [|split; [|split]]].
  - intros e a Hne.
    assert (E : tc_assert_equal_str e a msg
                = tc_fail_with msg (Some (tc__or_null e))
                    (Some (tc__or_null a))).
    { destruct e as [e|], a as [a|]; cbn -[tc_fail_with tc_pass];
        try reflexivity; try congruence.
      unfold strcmp0. destruct (String.eqb_spec e a); [congruence|reflexivity]. }
    rewrite E. split; apply tc_fail_with_spec.
  - intros [e|]; cbn -[tc_fail_with tc_pass]; [|reflexivity].
    unfold strcmp0. now rewrite String.eqb_refl.
  - reflexivity.
  - intros s. unfold tc_assert_not_equal_str, strcmp0.
    rewrite String.eqb_refl. cbn [negb]. cbn zeta.
    split; [apply tc_fail_with_spec|].
    destruct (tc_fail_with_spec msg
                (Some (tc__snprintf TC_MAX_MSG_LEN
                         ("not " +:+ DQUOTE +:+ s +:+ DQUOTE)))
                (Some (tc__or_null (Some s)))) as (_ & _ & _ & ->).
    f_equal. f_equal.
    apply tc__safe_copy_short.
    pose proof (tc__safe_copy_bound
                  (Some ("not " +:+ DQUOTE +:+ s +:+ DQUOTE)) TC_MAX_MSG_LEN
                  TC_MAX_MSG_LEN_range) as Hb.
    unfold tc__snprintf. unfold strlen in *. rewrite str_take_length.
    unfold TC_MAX_MSG_LEN. lia.
  - reflexivity.
Qed.

Lemma fmt_d_fits_int (n : Z) :
  INT_MIN <= n <= INT_MAX -> strlen (fmt_d n) <= 11.
Proof.
  intros Hn. apply (fmt_d_length 10); [lia|].
  unfold INT_MIN, INT_MAX in Hn. lia.
Qed.

Lemma tc__find_int_none (elem : Z) (arr : list Z) (fuel : nat) :
  forall i : nat,
    (forall j : nat,
       (i <= j < i + fuel)%nat -> exists x : Z, arr !! j = Some x /\ x <> elem) ->
    tc__find_int fuel i elem arr = Some None.
Proof.
  induction fuel as [|fuel IH]; intros i Hall; [reflexivity|].
  cbn [tc__find_int].
  destruct (Hall i ltac:(lia)) as (x & -> & Hx). cbn.
  rewrite (proj2 (Z.eqb_neq x elem) Hx).
  apply IH. intros j Hj. apply Hall. lia.
Qed.

Lemma tc__find_int_some (elem : Z) (arr : list Z) (k : nat) (fuel : nat) :
  forall i : nat,
    (i <= k < i + fuel)%nat ->
    arr !! k = Some elem ->
    (forall j : nat, (i <= j < k)%nat -> arr !! j <> Some elem) ->
    tc__find_int fuel i elem arr = Some (Some k).
Proof.
  induction fuel as [|fuel IH]; intros i Hk Hat Hbefore; [lia|].
  cbn [tc__find_int].
  destruct (decide (i = k)) as [->|Hne].
  - rewrite Hat. cbn. now rewrite Z.eqb_refl.
  - assert (Hi : is_Some (arr !! i)).
    { apply lookup_lt_is_Some. apply lookup_lt_Some in Hat. lia. }
    destruct Hi as [x Hx]. rewrite Hx. cbn.
    destruct (Z.eqb_spec x elem) as [->|Hxe].
    + exfalso. apply (Hbefore i); [lia|exact Hx].
    + apply IH; [lia|exact Hat|]. intros j Hj. apply Hbefore. lia.
Qed.

Lemma tc__find_int_overread (elem : Z) (arr : list Z) (fuel : nat) :
  forall i : nat,
    (i <= length arr < i + fuel)%nat ->
    (forall j : nat, (i <= j)%nat -> arr !! j <> Some elem) ->
    tc__find_int fuel i elem arr = None.
Proof.
  induction fuel as [|fuel IH]; intros i Hlen Hno; [lia|].
  cbn [tc__find_int].
  destruct (arr !! i) as [x|] eqn:Hx; [|reflexivity]. cbn.
  destruct (Z.eqb_spec x elem) as [->|Hxe].
  - exfalso. apply (Hno i); [lia|exact Hx].
  - apply IH; [|intros j Hj; apply Hno; lia].
    apply lookup_lt_Some in Hx. lia.
Qed.

(** X12. The containment assertions on arrays of [int]
    (testcracks.c, 404-425) read [arr[0 .. len-1]] in order.  If the
    element is not among them, [tc_assert_contains_int] fails with
    ["contains <elem>"] and ["not found"] and
    [tc_assert_not_contains_int] passes; this is so for every [len <= 0],
    whatever the array.  If it is, at first at index [i],
    [tc_assert_contains_int] passes and [tc_assert_not_contains_int] fails
    and reports that index, and nothing behind index [i] is read.  With a
    [len] beyond the end of an array that does not hold the element, both
    read outside of the array (undefined behaviour). *)
Theorem tc_assert_contains_int_spec (elem : Z) (arr : list Z) (len : Z)
    (msg : option string) :
  INT_MIN <= elem <= INT_MAX -> len <= INT_MAX ->
  (len <= Z.of_nat (length arr) ->
   elem ∉ take (Z.to_nat len) arr ->
   tc_assert_contains_int elem arr len msg
   = Some (tc_fail_with msg (Some ("contains " +:+ fmt_d elem))
             (Some "not found")) /\
   tc_assert_not_contains_int elem arr len msg = Some tc_pass) /\
  (len <= 0 ->
   (exists r : TestResult,
      tc_assert_contains_int elem arr len msg = Some r /\ tag r = TC_FAIL) /\
   tc_assert_not_contains_int elem arr len msg = Some tc_pass) /\
  (forall i : nat,
     Z.of_nat i < len -> arr !! i = Some elem ->
     (forall j : nat, (j < i)%nat -> arr !! j <> Some elem) ->
     tc_assert_contains_int elem arr len msg = Some tc_pass /\
     tc_assert_not_contains_int elem arr len msg
     = Some (tc_fail_with msg (Some ("not contains " +:+ fmt_d elem))
               (Some ("found at index " +:+ fmt_d (Z.of_nat i))))) /\
  (Z.of_nat (length arr) < len -> elem ∉ arr ->
   tc_assert_contains_int elem arr len msg = None /\
   tc_assert_not_contains_int elem arr len msg = None).
Proof.
  intros He Hlen.
  pose proof (fmt_d_fits_int elem He) as Hle.
  unfold tc_assert_contains_int, tc_assert_not_contains_int.
  assert (Hnone : len <= Z.of_nat (length arr) ->
                  elem ∉ take (Z.to_nat len) arr ->
                  tc__find_int (Z.to_nat len) 0 elem arr = Some None).
  { intros Hin Hnot. apply tc__find_int_none. intros j Hj.
    assert (Hj' : (j < length arr)%nat) by lia.
    apply lookup_lt_is_Some in Hj' as [x Hx]. exists x. split; [exact Hx|].
    intros ->. apply Hnot. apply (list_elem_of_lookup_2 _ j).
    rewrite lookup_take_lt by lia. exact Hx. }
  assert (Htext : tc__snprintf 32 ("contains " +:+ fmt_d elem)
                  = "contains " +:+ fmt_d elem).
  { apply tc__snprintf_fits. rewrite strlen_app.
    change (strlen "contains ") with 9. lia. }
  split; [|split; [|split]].
  - intros Hin Hnot. rewrite (Hnone Hin Hnot).
    cbn -[tc_fail_with tc_pass tc__snprintf]. now rewrite Htext.
  - intros Hneg.
    replace (Z.to_nat len) with 0%nat by lia.
    cbn -[tc_fail_with tc_pass tc__snprintf].
    split; [|reflexivity].
    eexists. split; [reflexivity|]. apply tc_fail_with_spec.
  - intros i Hi Hat Hbefore.
    rewrite (tc__find_int_some elem arr i (Z.to_nat len) 0);
      [|lia|exact Hat|intros j Hj; apply Hbefore; lia].
    cbn -[tc_fail_with tc_pass tc__snprintf]. split; [reflexivity|].
    assert (Hidx : strlen (fmt_d (Z.of_nat i)) <= 11).
    { apply fmt_d_fits_int. unfold INT_MIN, INT_MAX in *. lia. }
    rewrite !tc__snprintf_fits; [reflexivity| |];
      rewrite strlen_app.
    + change (strlen "found at index ") with 15. lia.
    + change (strlen "not contains ") with 13. lia.
  - intros Hover Hnot.
    rewrite tc__find_int_overread; [split; reflexivity|lia|].
    intros j _ Hj. apply Hnot. now apply (list_elem_of_lookup_2 _ j).
Qed.

Lemma tc_assert_contains_int_spec_witness :
  tc_assert_contains_int 3 [1; 2; 3; 4; 5] 5 (Some "should contain 3")
  = Some tc_pass /\
  tc_assert_not_contains_int 3 [1; 2; 3; 4; 5] 5 None
  = Some (tc_fail_with None (Some "not contains 3")
            (Some "found at index 2")) /\
  tc_assert_contains_int 99 [1; 2; 3; 4; 5] 6 None = None.
Proof.
  assert (R1 : INT_MIN <= 3 <= INT_MAX) by (unfold INT_MIN, INT_MAX; lia).
  assert (R2 : INT_MIN <= 99 <= INT_MAX) by (unfold INT_MIN, INT_MAX; lia).
  assert (L5 : 5 <= INT_MAX) by (unfold INT_MAX; lia).
  assert (L6 : 6 <= INT_MAX) by (unfold INT_MAX; lia).
  destruct (tc_assert_contains_int_spec 3 [1; 2; 3; 4; 5] 5
              (Some "should contain 3") R1 L5) as (_ & _ & H1 & _).
  destruct (tc_assert_contains_int_spec 3 [1; 2; 3; 4; 5] 5 None R1 L5)
    as (_ & _ & H2 & _).
  destruct (tc_assert_contains_int_spec 99 [1; 2; 3; 4; 5] 6 None R2 L6)
    as (_ & _ & _ & H3).
  assert (Hfirst : forall j : nat,
            (j < 2)%nat -> [1; 2; 3; 4; 5] !! j <> Some 3).
  { intros [|[|j]] Hj; cbn; try discriminate. lia. }
  destruct (H1 2%nat ltac:(lia) eq_refl Hfirst) as (E1 & _).
  destruct (H2 2%nat ltac:(lia) eq_refl Hfirst) as (_ & E2).
  assert (Hnot : 99 ∉ [1; 2; 3; 4; 5]).
  { intros Hin. repeat (apply elem_of_cons in Hin as [Hin|Hin];
                        [discriminate|]).
    now apply elem_of_nil in Hin. }
  destruct (H3 ltac:(cbn; lia) Hnot) as (E3 & _).
  split; [exact E1|]. split; [exact E2|exact E3].
Defined.

(** X13. The size assertions (testcracks.c, 382-402) look at [len] alone,
    never at the array.  [tc_assert_empty_int] passes exactly for
    [len == 0] and [tc_assert_not_empty_int] exactly for [len > 0]: for a
    negative [len] both fail, the first naming the negative count and the
    second reporting ["0 elements"].  [tc_assert_len] passes exactly when
    the two lengths are equal and otherwise names both. *)
Theorem tc_assert_size_spec (arr : list Z) (len e : Z) (msg : option string) :
  INT_MIN <= len <= INT_MAX -> INT_MIN <= e <= INT_MAX ->
  let failure (ex ac : string) :=
    [ {| message := tc__safe_copy msg TC_MAX_MSG_LEN;
         expected := ex; actual := ac |} ] in
  (tc_is_pass (tc_assert_empty_int arr len msg) = bool_decide (len = 0) /\
   tc_is_pass (tc_assert_not_empty_int arr len msg) = bool_decide (len > 0) /\
   tc_is_pass (tc_assert_len e len msg) = bool_decide (e = len)) /\
  (forall arr' : list Z,
     tc_assert_empty_int arr' len msg = tc_assert_empty_int arr len msg /\
     tc_assert_not_empty_int arr' len msg
     = tc_assert_not_empty_int arr len msg) /\
  (len <> 0 ->
   tc_errors (tc_assert_empty_int arr len msg)
   = failure "empty" (fmt_d len +:+ " elements")) /\
  (len <= 0 ->
   tc_errors (tc_assert_not_empty_int arr len msg)
   = failure "non-empty" "0 elements") /\
  (e <> len ->
   tc_errors (tc_assert_len e len msg)
   = failure ("length " +:+ fmt_d e) ("length " +:+ fmt_d len)).
Proof.
  intros Hlen He failure.
  pose proof (fmt_d_fits_int len Hlen) as Hl.
  pose proof (fmt_d_fits_int e He) as Hle.
  assert (Hb : forall (b : bool) (ex ac : option string),
            tc_is_pass (if b then tc_pass else tc_fail_with msg ex ac) = b).
  { intros b ex ac.
    destruct (tc_fail_with_spec msg ex ac) as (_ & H1 & _).
    destruct b; rewrite ?H1; reflexivity. }
  unfold tc_assert_empty_int, tc_assert_not_empty_int, tc_assert_len.
  cbn zeta. rewrite !Hb.
  split; [|split; [|split; [|split]]].
  - repeat split.
    + destruct (Z.eqb_spec len 0);
        [rewrite bool_decide_eq_true_2|rewrite bool_decide_eq_false_2];
        auto with zarith.
    + destruct (Z.ltb_spec 0 len);
        [rewrite bool_decide_eq_true_2|rewrite bool_decide_eq_false_2];
        auto with zarith.
    + destruct (Z.eqb_spec e len);
        [rewrite bool_decide_eq_true_2|rewrite bool_decide_eq_false_2];
        auto with zarith.
  - intros arr'. split; reflexivity.
  - intros Hne. destruct (Z.eqb_spec len 0); [lia|].
    rewrite tc__snprintf_fits
      by (rewrite strlen_app; change (strlen " elements") with 9; lia).
    apply tc_fail_with_short; unfold TC_MAX_MSG_LEN.
    + change (strlen "empty") with 5. lia.
    + rewrite strlen_app. change (strlen " elements") with 9. lia.
  - intros Hneg. destruct (Z.ltb_spec 0 len); [lia|].
    apply tc_fail_with_short; unfold TC_MAX_MSG_LEN.
    + change (strlen "non-empty") with 9. lia.
    + change (strlen "0 elements") with 10. lia.
  - intros Hne. destruct (Z.eqb_spec e len); [lia|].
    rewrite !tc__snprintf_fits
      by (rewrite strlen_app; change (strlen "length ") with 7; lia).
    apply tc_fail_with_short; unfold TC_MAX_MSG_LEN;
      rewrite strlen_app; change (strlen "length ") with 7; lia.
Qed.

Lemma tc_assert_size_spec_witness :
  tc_is_pass (tc_assert_empty_int [] (-1) None) = false /\
  tc_is_pass (tc_assert_not_empty_int [] (-1) None) = false /\
  tc_errors (tc_assert_not_empty_int [] (-1) None)
  = [ {| message := EmptyString; expected := "non-empty";
         actual := "0 elements" |} ].
Proof.
  assert (R1 : INT_MIN <= -1 <= INT_MAX) by (unfold INT_MIN, INT_MAX; lia).
  assert (R2 : INT_MIN <= 0 <= INT_MAX) by (unfold INT_MIN, INT_MAX; lia).
  destruct (tc_assert_size_spec [] (-1) 0 None R1 R2)
    as ((H1 & H2 & _) & _ & _ & H4 & _).
  split; [exact H1|]. split; [exact H2|]. exact (H4 ltac:(lia)).
Defined.

(** * Further properties: suites and the engine *)

Section EngineMore.
Context `{Platform}.


(** ** Every test is counted *)

Lemma count_result_spec (r : TestResult) (s : RunSummary) :
  let s' := count_result r s in
  passed s' + failed s' + skipped s' = passed s + failed s + skipped s + 1 /\
  passed s <= passed s' /\ failed s <= failed s' /\ skipped s <= skipped s' /\
  total_ms s' = total_ms s.
Proof.
  unfold count_result. destruct (tag r); cbn; repeat split; lia.
Qed.

Lemma tc__run_tests_counts (ts : list Test) (suite_idx : Z) (env : Env) :
  forall (i : nat) (summary : RunSummary) (m : Machine),
    let s' := fst (tc__run_tests ts i suite_idx env summary m) in
    passed s' + failed s' + skipped s'
    = passed summary + failed summary + skipped summary
      + Z.of_nat (length ts) /\
    passed summary <= passed s' /\ failed summary <= failed s' /\
    skipped summary <= skipped s'.
Proof.
  induction ts as [|t ts IH]; intros i summary m; cbn [tc__run_tests].
  - cbn. repeat split; lia.
  - destruct (tc_run_test t env m) as [r m1].
    match goal with
    | |- context [tc__run_tests ts (S i) suite_idx env ?s ?m'] =>
        specialize (IH (S i) s m')
    end.
    pose proof (count_result_spec r summary) as Hc.
    cbn zeta in *. cbn [length]. lia.
Qed.

Lemma tc__run_suite_body_counts (suite : Suite) (suite_idx : Z)
    (start : float) (env : Env) (m : Machine) :
  let s := fst (tc__run_suite_body suite suite_idx start env m) in
  passed s + failed s + skipped s = Z.of_nat (length (suite_tests suite)) /\
  0 <= passed s /\ 0 <= failed s /\ 0 <= skipped s.
Proof.
  unfold tc__run_suite_body.
  pose proof (tc__run_tests_counts (suite_tests suite) suite_idx env 0%nat
                zero_summary m) as Hc.
  destruct (tc__run_tests (suite_tests suite) 0 suite_idx env zero_summary m)
    as [summary m1].
  destruct (tc__get_time_ms (tc__run_teardown suite env m1)) as [stop m2].
  cbn [fst] in *. cbn zeta in *.
  cbn [passed failed skipped set_total_ms zero_summary] in *. lia.
Qed.

Lemma suite_tests_length (suite : Suite) :
  suite_wf suite -> Z.of_nat (length (suite_tests suite)) = test_count suite.
Proof.
  unfold suite_wf, suite_tests. intros Hwf. rewrite length_take. lia.
Qed.

Lemma tc__run_suite_ex_counts (suite : Suite) (suite_idx : Z) (m : Machine) :
  suite_wf suite ->
  let s := fst (tc__run_suite_ex suite suite_idx m) in
  passed s + failed s + skipped s = test_count suite /\
  0 <= passed s /\ 0 <= failed s /\ 0 <= skipped s.
Proof.
  intros Hwf. rewrite <- (suite_tests_length suite Hwf).
  unfold tc__run_suite_ex.
  destruct (tc__get_time_ms m) as [start m1].
  destruct (setup suite) as [su|]; [|apply tc__run_suite_body_counts].
  destruct (su _) as [[ret env] w].
  destruct (negb (ret =? 0)); [|apply tc__run_suite_body_counts].
  cbn. rewrite (suite_tests_length suite Hwf). unfold suite_wf in Hwf. lia.
Qed.

Lemma tc__run_suites_counts (suites : list Suite) (store : bool) :
  Forall suite_wf suites ->
  forall (i : nat) (total : RunSummary) (m : Machine),
    let s := fst (tc__run_suites suites i store total m) in
    passed s + failed s + skipped s
    = passed total + failed total + skipped total + tc__test_total suites /\
    passed total <= passed s /\ failed total <= failed s /\
    skipped total <= skipped s.
Proof.
  induction 1 as [|suite suites Hwf _ IH]; intros i total m;
    cbn [tc__run_suites tc__test_total foldr].
  - cbn. lia.
  - pose proof (tc__run_suite_ex_counts suite
                  (if store then Z.of_nat i else -1) m Hwf) as Hs.
    destruct (tc__run_suite_ex suite (if store then Z.of_nat i else -1) m)
      as [s m1].
    match goal with
    | |- context [tc__run_suites suites (S i) store ?t m1] =>
        specialize (IH (S i) t m1)
    end.
    cbn zeta in *. cbn [fst passed failed skipped] in *.
    fold (tc__test_total suites). lia.
Qed.

(** X15. Every test is counted exactly once (tc__run_suite_ex and
    tc__run_all_ex, testcracks.c, 512-581): for suites that read no more
    tests than they hold, the passed, failed and skipped counts of a run
    are not negative and add up to the number of tests of the suites,
    whether a setup fails or not; so do the counts of each suite. *)
Theorem every_test_is_counted (suites : list Suite) (store : bool)
    (m : Machine) :
  Forall suite_wf suites ->
  let s := fst (tc__run_all_ex suites store m) in
  (passed s + failed s + skipped s = tc__test_total suites /\
   0 <= passed s /\ 0 <= failed s /\ 0 <= skipped s) /\
  (forall (suite : Suite) (suite_idx : Z) (m' : Machine),
     suite ∈ suites ->
     let s' := fst (tc__run_suite_ex suite suite_idx m') in
     passed s' + failed s' + skipped s' = test_count suite /\
     0 <= passed s' /\ 0 <= failed s' /\ 0 <= skipped s').
Proof.
  intros Hwf. cbn zeta. split.
  - unfold tc__run_all_ex.
    destruct (tc__get_time_ms (tc__reset_counts m)) as [start m1].
    pose proof (tc__run_suites_counts suites store Hwf 0%nat zero_summary m1)
      as Hc.
    destruct (tc__run_suites suites 0 store zero_summary m1) as [total m2].
    destruct (tc__get_time_ms m2) as [stop m3].
    cbn zeta in Hc. cbn [fst passed failed skipped set_total_ms zero_summary]
      in *. lia.
  - intros suite suite_idx m' Hin.
    apply tc__run_suite_ex_counts.
    rewrite Forall_forall in Hwf. now apply Hwf.
Qed.

(** ** The calls of a suite whose setup succeeds *)

(** A suite whose setup is absent or returns 0 goes on with the loop over
    its tests, in a machine in which only the header was printed and the
    setup called. *)
Lemma tc__run_suite_ex_ok (suite : Suite) (suite_idx : Z) (m : Machine) :
  setup_ok suite m ->
  exists (start : float) (env : Env) (m1 : Machine),
    tc__run_suite_ex suite suite_idx m
    = tc__run_suite_body suite suite_idx start env m1 /\
    quiet m m1 /\
    calls_between m m1 (match setup suite with
                        | Some _ => [EvSetup (suite_name suite) 0]
                        | None => []
                        end).
Proof.
  unfold setup_ok, tc__run_suite_ex, tc__get_time_ms.
  destruct (clock_ms (world m)) as [start w0] eqn:Hclock. cbn [snd].
  set (m0 := printf _ (set_world w0 m)).
  assert (Hq0 : quiet m m0).
  { eapply quiet_trans; [apply quiet_set_world|apply quiet_printf]. }
  assert (Hc0 : calls_between m m0 []).
  { eapply calls_nil_trans; [apply calls_set_world|apply calls_printf]. }
  destruct (setup suite) as [su|].
  - change (world m0) with w0.
    destruct (su w0) as [[ret env] w] eqn:Hsu. cbn [fst]. intros ->.
    cbn [negb Z.eqb].
    eexists start, env, _. split; [reflexivity|]. split.
    + eapply quiet_trans; [exact Hq0|].
      eapply quiet_trans; [apply quiet_emit|apply quiet_set_world].
    + eapply calls_nil_trans; [exact Hc0|].
      eapply calls_trans_nil;
        [exact (calls_emit (EvSetup (suite_name suite) 0) m0)
        |apply calls_set_world].
  - intros _. exists start, NULL, m0.
    split; [reflexivity|]. split; [exact Hq0|exact Hc0].
Qed.

(** X16. When the setup of a suite is absent or returns 0
    (tc__run_suite_ex, testcracks.c, 512-556), the user code the run calls
    is, in this order: the setup if there is one, the function of every
    test that has one, in the order of the suite, and then the teardown if
    there is one, exactly once and after the last test, whatever the tests
    returned. *)
Theorem teardown_runs_once_after_tests (suite : Suite) (suite_idx : Z)
    (m : Machine) :
  setup_ok suite m ->
  calls_between m (snd (tc__run_suite_ex suite suite_idx m))
    (suite_calls_ok suite).
Proof.
  intros Hok.
  destruct (tc__run_suite_ex_ok suite suite_idx m Hok)
    as (start & env & m1 & -> & _ & Hc).
  unfold suite_calls_ok, suite_calls.
  eapply calls_trans; [exact Hc|apply calls_run_suite_body].
Qed.

(** ** What a test function returns is what the engine records *)


(** ** Runs that do not store *)

Lemma tc__store_result_outside (suite_idx : Z) (i : nat) (r : TestResult)
    (m : Machine) :
  suite_idx < 0 \/ TC_MAX_SUITES <= suite_idx ->
  tc__store_result suite_idx i r m = m.
Proof.
  intros Hout. unfold tc__store_result.
  destruct (Z.leb_spec 0 suite_idx), (Z.ltb_spec suite_idx TC_MAX_SUITES);
    cbn [andb]; try reflexivity; lia.
Qed.

Lemma quiet_run_tests_outside (ts : list Test) (suite_idx : Z) (env : Env) :
  suite_idx < 0 \/ TC_MAX_SUITES <= suite_idx ->
  forall (i : nat) (summary : RunSummary) (m : Machine),
    quiet m (snd (tc__run_tests ts i suite_idx env summary m)).
Proof.
  intros Hout.
  induction ts as [|t ts IH]; intros i summary m; cbn [tc__run_tests];
    [apply quiet_refl|].
  pose proof (quiet_run_test t env m) as H1.
  destruct (tc_run_test t env m) as [r m1]. cbn [snd] in H1.
  rewrite tc__store_result_outside by assumption.
  eapply quiet_trans; [exact H1|].
  eapply quiet_trans; [apply quiet_print_result|apply IH].
Qed.

Lemma quiet_run_suite_body_outside (suite : Suite) (suite_idx : Z)
    (start : float) (env : Env) (m : Machine) :
  suite_idx < 0 \/ TC_MAX_SUITES <= suite_idx ->
  quiet m (snd (tc__run_suite_body suite suite_idx start env m)).
Proof.
  intros Hout. unfold tc__run_suite_body.
  pose proof (quiet_run_tests_outside (suite_tests suite) suite_idx env Hout
                0%nat zero_summary m) as H1.
  destruct (tc__run_tests (suite_tests suite) 0 suite_idx env zero_summary m)
    as [summary m1]. cbn [snd] in H1.
  pose proof (quiet_run_teardown suite env m1) as H2.
  pose proof (quiet_get_time (tc__run_teardown suite env m1)) as H3.
  destruct (tc__get_time_ms (tc__run_teardown suite env m1)) as [stop m2].
  cbn [snd] in *.
  eapply quiet_trans; [exact H1|].
  eapply quiet_trans; [exact H2|].
  eapply quiet_trans; [exact H3|apply quiet_printf].
Qed.

Lemma quiet_run_suite_ex_outside (suite : Suite) (suite_idx : Z)
    (m : Machine) :
  suite_idx < 0 \/ TC_MAX_SUITES <= suite_idx ->
  quiet m (snd (tc__run_suite_ex suite suite_idx m)).
Proof.
  intros Hout. unfold tc__run_suite_ex.
  pose proof (quiet_get_time m) as H1.
  destruct (tc__get_time_ms m) as [start m1]. cbn [snd] in H1.
  eapply quiet_trans; [exact H1|].
  eapply quiet_trans; [apply quiet_printf|].
  destruct (setup suite) as [su|];
    [|now apply quiet_run_suite_body_outside].
  destruct (su _) as [[ret env] w].
  eapply quiet_trans; [apply quiet_emit|].
  eapply quiet_trans; [apply quiet_set_world|].
  destruct (negb (ret =? 0)); [|now apply quiet_run_suite_body_outside].
  cbn [snd]. apply quiet_printf.
Qed.

Lemma quiet_run_suites_no_store (suites : list Suite) :
  forall (i : nat) (total : RunSummary) (m : Machine),
    quiet m (snd (tc__run_suites suites i false total m)).
Proof.
  induction suites as [|suite suites IH]; intros i total m;
    cbn [tc__run_suites]; [apply quiet_refl|].
  pose proof (quiet_run_suite_ex_outside suite (-1) m ltac:(lia)) as H1.
  destruct (tc__run_suite_ex suite (-1) m) as [s m1]. cbn [snd] in H1.
  eapply quiet_trans; [exact H1|apply IH].
Qed.

(** X18. Only [tc_run_all] feeds the report.  [tc_run_suite]
    (testcracks.c, 558-560) leaves the stored results and their counts as
    they were, so a report written after it shows nothing of that run; and
    a run of [tc__run_all_ex] that does not store (562-581) leaves the
    stored results as they were and all the counts at zero. *)
Theorem tc_run_suite_stores_nothing (suite : Suite) (suites : list Suite)
    (m : Machine) :
  same_store m (snd (tc_run_suite suite m)) /\
  tc__results (snd (tc__run_all_ex suites false m)) = tc__results m /\
  tc__result_counts (snd (tc__run_all_ex suites false m))
  = replicate (Z.to_nat TC_MAX_SUITES) 0.
Proof.
  split.
  - unfold tc_run_suite. now apply quiet_run_suite_ex_outside; lia.
  - unfold tc__run_all_ex.
    pose proof (quiet_get_time (tc__reset_counts m)) as (_ & Hc1 & Hr1).
    destruct (tc__get_time_ms (tc__reset_counts m)) as [start m1].
    pose proof (quiet_run_suites_no_store suites 0%nat zero_summary m1)
      as (_ & Hc2 & Hr2).
    destruct (tc__run_suites suites 0 false zero_summary m1) as [total m2].
    pose proof (quiet_get_time m2) as (_ & Hc3 & Hr3).
    destruct (tc__get_time_ms m2) as [stop m3]. cbn [snd] in *.
    split; [now rewrite Hr3, Hr2, Hr1|now rewrite Hc3, Hc2, Hc1].
Qed.

End EngineMore.

Lemma every_test_is_counted_witness :
  let s := fst (@tc_run_all demo_platform
                  [demo_suite_A; demo_broken_suite; demo_suite_B]
                  demo_machine) in
  passed s + failed s + skipped s = 5.
Proof.
  assert (Hwf : Forall (@suite_wf demo_platform)
                  [demo_suite_A; demo_broken_suite; demo_suite_B]).
  { repeat constructor; unfold suite_wf; cbn; lia. }
  exact (proj1 (proj1 (@every_test_is_counted demo_platform _ true
                         demo_machine Hwf))).
Defined.

Lemma teardown_runs_once_after_tests_witness :
  user_calls (trace (snd (@tc_run_suite demo_platform
                            (@tc_suite_with demo_platform "ok"
                               (Some (fun w => (0, 7, w)))
                               (Some demo_teardown)
                               [@mkTest demo_platform "t1" (Some demo_passing)
                                  None;
                                @tc_skip_test demo_platform "t2" None;
                                @mkTest demo_platform "t3" (Some demo_passing)
                                  None])
                            demo_machine)))
  = [EvSetup "ok" 0; EvTest "t1"; EvTest "t3"; EvTeardown "ok"].
Proof.
  destruct (@teardown_runs_once_after_tests demo_platform
              (@tc_suite_with demo_platform "ok"
                 (Some (fun w => (0, 7, w))) (Some demo_teardown)
                 [@mkTest demo_platform "t1" (Some demo_passing) None;
                  @tc_skip_test demo_platform "t2" None;
                  @mkTest demo_platform "t3" (Some demo_passing) None])
              (-1) demo_machine eq_refl) as (evs & Ht & Hc).
  unfold tc_run_suite. rewrite Ht. exact Hc.
Defined.


(** * Further properties: the stored results and the report *)

Section StoreFacts.
Context `{Platform}.

Lemma store_kept_refl (touched : nat -> Prop) (m : Machine) :
  store_kept touched m m.
Proof. repeat split. Qed.

Lemma store_kept_trans (touched : nat -> Prop) (m1 m2 m3 : Machine) :
  store_kept touched m1 m2 -> store_kept touched m2 m3 ->
  store_kept touched m1 m3.
Proof.
  intros (H1 & H2 & H3 & H4) (G1 & G2 & G3 & G4).
  split; [congruence|]. split; [congruence|]. split.
  - intros k. now rewrite G3, H3.
  - intros k Hk. destruct (H4 k Hk) as [E1 E2], (G4 k Hk) as [E3 E4].
    split; congruence.
Qed.

Lemma store_kept_weaken (t1 t2 : nat -> Prop) (m m' : Machine) :
  (forall k : nat, t1 k -> t2 k) ->
  store_kept t1 m m' -> store_kept t2 m m'.
Proof.
  intros Hsub (H1 & H2 & H3 & H4). repeat split; try assumption;
    apply H4; intros Hk; auto.
Qed.

Lemma quiet_store_kept (touched : nat -> Prop) (m m' : Machine) :
  quiet m m' -> store_kept touched m m'.
Proof.
  intros (_ & Hc & Hr). unfold store_kept. rewrite Hc, Hr. repeat split.
Qed.

Lemma store_kept_store_result (suite_idx : Z) (i : nat) (r : TestResult)
    (m : Machine) :
  store_kept (fun k => Z.of_nat k = suite_idx) m
    (tc__store_result suite_idx i r m).
Proof.
  unfold tc__store_result.
  destruct ((0 <=? suite_idx) && (suite_idx <? TC_MAX_SUITES)) eqn:Hin;
    [|apply store_kept_refl].
  apply andb_true_iff in Hin as [Hlo _]. apply Z.leb_le in Hlo.
  unfold store_kept. cbn [tc__results tc__result_counts].
  split; [apply length_alter|]. split; [apply length_insert|]. split.
  - intros k. rewrite list_lookup_total_alter.
    case_decide as Hd; [|reflexivity]. destruct Hd as [<- _].
    apply length_insert.
  - intros k Hk. split.
    + apply list_lookup_alter_ne. lia.
    + apply list_lookup_insert_ne. lia.
Qed.

Lemma store_kept_run_tests (ts : list Test) (suite_idx : Z) (env : Env) :
  forall (i : nat) (summary : RunSummary) (m : Machine),
    store_kept (fun k => Z.of_nat k = suite_idx) m
      (snd (tc__run_tests ts i suite_idx env summary m)).
Proof.
  induction ts as [|t ts IH]; intros i summary m; cbn [tc__run_tests];
    [apply store_kept_refl|].
  pose proof (quiet_run_test t env m) as H1.
  destruct (tc_run_test t env m) as [r m1]. cbn [snd] in H1.
  eapply store_kept_trans; [|apply IH].
  eapply store_kept_trans; [apply quiet_store_kept, H1|].
  eapply store_kept_trans; [apply quiet_store_kept, quiet_print_result|].
  apply store_kept_store_result.
Qed.

Lemma store_kept_run_suite_body (suite : Suite) (suite_idx : Z)
    (start : float) (env : Env) (m : Machine) :
  store_kept (fun k => Z.of_nat k = suite_idx) m
    (snd (tc__run_suite_body suite suite_idx start env m)).
Proof.
  unfold tc__run_suite_body.
  pose proof (store_kept_run_tests (suite_tests suite) suite_idx env 0%nat
                zero_summary m) as H1.
  destruct (tc__run_tests (suite_tests suite) 0 suite_idx env zero_summary m)
    as [summary m1]. cbn [snd] in H1.
  pose proof (quiet_run_teardown suite env m1) as H2.
  pose proof (quiet_get_time (tc__run_teardown suite env m1)) as H3.
  destruct (tc__get_time_ms (tc__run_teardown suite env m1)) as [stop m2].
  cbn [snd] in *.
  eapply store_kept_trans; [exact H1|]. apply quiet_store_kept.
  eapply quiet_trans; [exact H2|].
  eapply quiet_trans; [exact H3|apply quiet_printf].
Qed.

Lemma store_kept_run_suite_ex (suite : Suite) (suite_idx : Z) (m : Machine) :
  store_kept (fun k => Z.of_nat k = suite_idx) m
    (snd (tc__run_suite_ex suite suite_idx m)).
Proof.
  unfold tc__run_suite_ex.
  pose proof (quiet_get_time m) as H1.
  destruct (tc__get_time_ms m) as [start m1]. cbn [snd] in H1.
  eapply store_kept_trans; [apply quiet_store_kept, H1|].
  eapply store_kept_trans; [apply quiet_store_kept, quiet_printf|].
  destruct (setup suite) as [su|]; [|apply store_kept_run_suite_body].
  destruct (su _) as [[ret env] w].
  eapply store_kept_trans; [apply quiet_store_kept, quiet_emit|].
  eapply store_kept_trans; [apply quiet_store_kept, quiet_set_world|].
  destruct (negb (ret =? 0)); [|apply store_kept_run_suite_body].
  cbn [snd]. apply quiet_store_kept, quiet_printf.
Qed.

Lemma store_kept_run_suites (suites : list Suite) (store : bool) :
  forall (i : nat) (total : RunSummary) (m : Machine),
    store_kept (fun k => (i <= k < i + length suites)%nat) m
      (snd (tc__run_suites suites i store total m)).
Proof.
  induction suites as [|suite suites IH]; intros i total m;
    cbn [tc__run_suites]; [apply store_kept_refl|].
  pose proof (store_kept_run_suite_ex suite
                (if store then Z.of_nat i else -1) m) as H1.
  destruct (tc__run_suite_ex suite (if store then Z.of_nat i else -1) m)
    as [s m1]. cbn [snd] in H1.
  eapply store_kept_trans.
  - eapply store_kept_weaken; [|exact H1].
    intros k Hk. cbn beta in *. cbn [length]. destruct store; lia.
  - eapply store_kept_weaken; [|apply IH].
    intros k Hk. cbn beta in *. cbn [length]. lia.
Qed.

(** ** What the loop over the tests stores *)

Lemma tc__xml_tally_step (r : TestResult) (rs : list TestResult)
    (summary : RunSummary) (t : float) :
  exists t' : float,
    tc__xml_tally (r :: rs) (passed summary, failed summary, skipped summary, t)
    = tc__xml_tally rs
        (passed (count_result r summary), failed (count_result r summary),
         skipped (count_result r summary), t').
Proof.
  cbn [tc__xml_tally]. unfold count_result.
  destruct (tag r); cbn [passed failed skipped]; eexists; reflexivity.
Qed.

Lemma tc__run_tests_stores (idx : nat) (env : Env) (ts : list Test) :
  (idx < Z.to_nat TC_MAX_SUITES)%nat ->
  forall (i : nat) (summary : RunSummary) (m : Machine),
    (idx < length (tc__results m))%nat ->
    (idx < length (tc__result_counts m))%nat ->
    (i + length ts <= length (tc__results m !!! idx))%nat ->
    let out := tc__run_tests ts i (Z.of_nat idx) env summary m in
    let row := tc__results m !!! idx in
    let row' := tc__results (snd out) !!! idx in
    take i row' = take i row /\
    (forall t : float,
       fst (tc__xml_tally (take (length ts) (drop i row'))
              (passed summary, failed summary, skipped summary, t))
       = (passed (fst out), failed (fst out), skipped (fst out))) /\
    tc__result_counts (snd out) !! idx
    = (if decide (ts = []) then tc__result_counts m !! idx
       else Some (Z.of_nat (i + length ts))).
Proof.
  intros Hidx.
  induction ts as [|t ts IH]; intros i summary m Hres Hcnt Hrow;
    cbn [tc__run_tests].
  - cbn. repeat split.
  - cbn [length] in Hrow.
    pose proof (quiet_run_test t env m) as (_ & Hc1 & Hr1).
    destruct (tc_run_test t env m) as [r m1]. cbn [snd] in *.
    pose proof (quiet_print_result (test_name t) r m1) as (_ & Hc2 & Hr2).
    set (m2 := tc_print_result (test_name t) r m1) in *.
    assert (Hstore : tc__store_result (Z.of_nat idx) i r m2
                     = {| world := world m2; trace := trace m2;
                          tc__results := alter (fun row => <[i := r]> row) idx
                                           (tc__results m);
                          tc__result_counts := <[idx := Z.of_nat i + 1]>
                                                 (tc__result_counts m) |}).
    { unfold tc__store_result.
      destruct (Z.leb_spec 0 (Z.of_nat idx)); [|lia].
      destruct (Z.ltb_spec (Z.of_nat idx) TC_MAX_SUITES); [|lia].
      cbn [andb]. rewrite Nat2Z.id, Hc2, Hc1, Hr2, Hr1. reflexivity. }
    rewrite Hstore. clear Hstore.
    set (m3 := {| world := world m2; trace := trace m2;
                  tc__results := _; tc__result_counts := _ |}).
    assert (Hrow3 : tc__results m3 !!! idx
                    = <[i := r]> (tc__results m !!! idx)).
    { subst m3. cbn [tc__results]. now apply list_lookup_total_alter_eq. }
    specialize (IH (S i) (count_result r summary) m3).
    destruct IH as (Htake & Htally & Hcount).
    { subst m3. cbn [tc__results]. now rewrite length_alter. }
    { subst m3. cbn [tc__result_counts]. now rewrite length_insert. }
    { rewrite Hrow3, length_insert. lia. }
    cbn zeta in *.
    set (out := tc__run_tests ts (S i) (Z.of_nat idx) env
                  (count_result r summary) m3) in *.
    set (row' := tc__results (snd out) !!! idx) in *.
    rewrite Hrow3 in Htake.
    assert (Hi : row' !! i = Some r).
    { rewrite <- (lookup_take_lt row' (S i) i) by lia. rewrite Htake.
      rewrite lookup_take_lt by lia. apply list_lookup_insert_eq. lia. }
    split; [|split].
    + transitivity (take i (take (S i) row')).
      { rewrite take_take. f_equal. lia. }
      rewrite Htake, take_take. replace (i `min` S i)%nat with i by lia.
      apply take_insert_ge. lia.
    + intros t0. cbn [length].
      rewrite (drop_S row' r i Hi). cbn [take].
      destruct (tc__xml_tally_step r (take (length ts) (drop (S i) row'))
                  summary t0) as [t' ->].
      apply Htally.
    + rewrite decide_False by discriminate.
      rewrite Hcount. destruct (decide (ts = [])) as [->|_].
      * subst m3. cbn [tc__result_counts length].
        rewrite list_lookup_insert_eq by assumption. f_equal. lia.
      * f_equal. cbn [length]. lia.
Qed.

Lemma tc__run_suite_ex_stores (s : Suite) (idx : nat) (m : Machine) :
  (idx < Z.to_nat TC_MAX_SUITES)%nat ->
  (idx < length (tc__results m))%nat ->
  (length (suite_tests s) <= length (tc__results m !!! idx))%nat ->
  tc__result_counts m !! idx = Some 0 ->
  setup_ok s m ->
  let out := tc__run_suite_ex s (Z.of_nat idx) m in
  tc__result_counts (snd out) !! idx
  = Some (Z.of_nat (length (suite_tests s))) /\
  tc__tally_counts (take (length (suite_tests s))
                      (tc__results (snd out) !!! idx))
  = (passed (fst out), failed (fst out), skipped (fst out)).
Proof.
  intros Hidx Hres Hrow Hzero Hok. cbn zeta.
  destruct (tc__run_suite_ex_ok s (Z.of_nat idx) m Hok)
    as (start & env & m1 & -> & (_ & Hc1 & Hr1) & _).
  unfold tc__run_suite_body.
  assert (Hcnt : (idx < length (tc__result_counts m1))%nat).
  { rewrite Hc1. now apply lookup_lt_Some in Hzero. }
  destruct (tc__run_tests_stores idx env (suite_tests s) Hidx 0%nat
              zero_summary m1) as (_ & Htally & Hcount).
  { now rewrite Hr1. }
  { exact Hcnt. }
  { now rewrite Hr1. }
  cbn zeta in *.
  destruct (tc__run_tests (suite_tests s) 0 (Z.of_nat idx) env zero_summary m1)
    as [summary m2]. cbn [fst snd] in *.
  pose proof (quiet_run_teardown s env m2) as (_ & Hc3 & Hr3).
  pose proof (quiet_get_time (tc__run_teardown s env m2)) as (_ & Hc4 & Hr4).
  destruct (tc__get_time_ms (tc__run_teardown s env m2)) as [stop m3].
  cbn [fst snd] in *.
  cbn [printf emit tc__results tc__result_counts passed failed skipped
       set_total_ms].
  rewrite Hc4, Hc3, Hr4, Hr3. split.
  - rewrite Hcount. destruct (decide (suite_tests s = [])) as [->|_].
    + rewrite Hc1. exact Hzero.
    + reflexivity.
  - unfold tc__tally_counts. rewrite <- (Htally 0%float).
    now rewrite drop_0.
Qed.

(** X19. What the report shows of a suite whose setup did not fail is what the
    run counted (tc__run_suite_ex, testcracks.c, 512-556, and the tallies
    of tc_write_junit_xml, 651-667).  After [tc__run_all_ex] with storing
    on (the run of [tc_run_all]), started with the static arrays at their
    declared sizes, take a suite at an index below [TC_MAX_SUITES] whose
    [test_count] is within the tests it holds and at most
    [TC_MAX_TESTS_PER_SUITE], and whose setup is absent or returned 0: the
    stored count of the suite is its [test_count]; the tallies the report
    makes of its stored results are the passed, failed and skipped counts
    of the suite's summary, which add up to [test_count]; and its
    [testsuite] element, when it is written, opens with these numbers. *)
Theorem stored_results_match_summary (pre post : list Suite) (s : Suite)
    (m : Machine) :
  store_wf m ->
  (length pre < Z.to_nat TC_MAX_SUITES)%nat ->
  suite_wf s -> test_count s <= TC_MAX_TESTS_PER_SUITE ->
  setup_ok s (snd (tc__run_all_upto pre m)) ->
  let run_s := tc__run_suite_ex s (Z.of_nat (length pre))
                 (snd (tc__run_all_upto pre m)) in
  let out := tc__run_all_ex (pre ++ s :: post) true m in
  tc__result_counts (snd out) !! length pre = Some (test_count s) /\
  tc__tally_counts (take (Z.to_nat (test_count s))
                      (tc__results (snd out) !!! length pre))
  = (passed (fst run_s), failed (fst run_s), skipped (fst run_s)) /\
  passed (fst run_s) + failed (fst run_s) + skipped (fst run_s)
  = test_count s /\
  (forall lines : list string,
     tc__xml_suite (length pre) s (snd out) = Some lines ->
     exists (time : float) (rest : list string),
       lines = tc__xml_suite_open (suite_name s) (test_count s)
                 (failed (fst run_s)) (skipped (fst run_s)) time :: rest).
Proof.
  intros (Hlen & Hclen & Hrows) Hpre Hwf Hcap Hok. cbn zeta.
  pose proof (suite_tests_length s Hwf) as Hn.
  destruct (tc__run_suite_ex_counts s (Z.of_nat (length pre))
              (snd (tc__run_all_upto pre m)) Hwf) as (Hsum & _).
  cbn zeta in Hsum.
  unfold tc__run_all_ex, tc__run_all_upto in *.
  pose proof (quiet_get_time (tc__reset_counts m)) as (_ & Hc1 & Hr1).
  destruct (tc__get_time_ms (tc__reset_counts m)) as [start m1].
  cbn [snd] in *. cbn [tc__reset_counts tc__results tc__result_counts] in *.
  rewrite tc__run_suites_app. cbn [tc__run_suites Nat.add].
  pose proof (store_kept_run_suites pre true 0%nat zero_summary m1)
    as (Hl2 & Hcl2 & Hrl2 & Hk2).
  destruct (tc__run_suites pre 0 true zero_summary m1) as [t_pre m_pre].
  cbn [fst snd] in *.
  destruct (Hk2 (length pre) ltac:(lia)) as [Hrow2 Hcnt2].
  assert (Hrowlen : length (tc__results m_pre !!! length pre)
                    = Z.to_nat TC_MAX_TESTS_PER_SUITE).
  { rewrite Hrl2, Hr1. rewrite Forall_forall in Hrows. apply Hrows.
    apply list_elem_of_lookup_total_2. lia. }
  destruct (tc__run_suite_ex_stores s (length pre) m_pre) as (Hcount & Htally);
    try assumption.
  { rewrite Hl2, Hr1. lia. }
  { rewrite Hrowlen. lia. }
  { rewrite Hcnt2, Hc1. now apply lookup_replicate_2. }
  cbn zeta in *.
  pose proof (store_kept_run_suite_ex s (Z.of_nat (length pre)) m_pre)
    as (Hl3 & _).
  destruct (tc__run_suite_ex s (Z.of_nat (length pre)) m_pre) as [sum_s m_s].
  cbn [fst snd] in *.
  match goal with
  | |- context [tc__run_suites post (S (length pre)) true ?t m_s] =>
      pose proof (store_kept_run_suites post true (S (length pre)) t m_s)
        as (Hl4 & _ & _ & Hk4);
      destruct (tc__run_suites post (S (length pre)) true t m_s)
        as [total m4]
  end.
  cbn [fst snd] in *.
  destruct (Hk4 (length pre) ltac:(lia)) as [Hrow4 Hcnt4].
  pose proof (quiet_get_time m4) as (_ & Hc5 & Hr5).
  destruct (tc__get_time_ms m4) as [stop m5]. cbn [fst snd] in *.
  assert (Hrow5 : tc__results m5 !!! length pre
                  = tc__results m_s !!! length pre).
  { rewrite !list_lookup_total_alt. now rewrite Hr5, Hrow4. }
  assert (Hcount5 : tc__result_counts m5 !! length pre
                    = Some (test_count s)).
  { now rewrite Hc5, Hcnt4, Hcount, Hn. }
  assert (Htally5 : tc__tally_counts
                      (take (Z.to_nat (test_count s))
                         (tc__results m5 !!! length pre))
                    = (passed sum_s, failed sum_s, skipped sum_s)).
  { rewrite Hrow5, <- Hn, Nat2Z.id. exact Htally. }
  split; [exact Hcount5|]. split; [exact Htally5|]. split; [exact Hsum|].
  intros lines. unfold tc__xml_suite. rewrite Hcount5.
  cbn [mbind option_bind].
  unfold tc__tally_counts in Htally5.
  destruct (tc__xml_tally _ _) as [[[p f] k] t]. cbn [fst] in Htally5.
  injection Htally5 as -> -> ->.
  destruct (tc__xml_testcases _ _) as [cases|]; [|discriminate].
  cbn [mbind option_bind]. intros [= <-].
  rewrite Hsum. eexists _, _. reflexivity.
Qed.

End StoreFacts.

Lemma stored_results_match_summary_witness :
  let out := @tc_run_all demo_platform
               [demo_suite_A; demo_broken_suite; demo_suite_B] demo_machine in
  tc__result_counts (snd out) !! 2%nat = Some 1 /\
  tc__tally_counts (take 1 (tc__results (snd out) !!! 2%nat)) = (1, 0, 0).
Proof.
  assert (Hwf : @store_wf demo_platform demo_machine).
  { split; [reflexivity|]. split; [reflexivity|].
    apply Forall_replicate. reflexivity. }
  destruct (@stored_results_match_summary demo_platform
              [demo_suite_A; demo_broken_suite] [] demo_suite_B demo_machine
              Hwf) as (H1 & H2 & _).
  - apply Nat.ltb_lt. reflexivity.
  - split; apply Z.leb_le; reflexivity.
  - apply Z.leb_le. reflexivity.
  - exact I.
  - split; [exact H1|]. etrans; [exact H2|]. vm_compute. reflexivity.
Defined.

(** * Further properties: escaping and the detail text of the report *)


Lemma string_app_nil_r (s : string) : s +:+ EmptyString = s.
Proof.
  induction s as [|c s IH]; [reflexivity|].
  exact (f_equal (String c) IH).
Qed.





(** ** The detail text of a failed test *)



Lemma string_app_assoc (a b c : string) : (a +:+ b) +:+ c = a +:+ (b +:+ c).
Proof.
  induction a as [|x a IH]; [reflexivity|].
  exact (f_equal (String x) IH).
Qed.


Lemma tc__detail_snprintf_some (text detail : string) (pos : Z) :
  pos <= DETAIL_SIZE ->
  exists detail' : string,
    tc__detail_snprintf text (detail, pos)
    = Some (detail', pos + strlen text).
Proof.
  intros Hpos. unfold tc__detail_snprintf.
  destruct (Z.ltb_spec (DETAIL_SIZE - pos) 0); [lia|].
  destruct (DETAIL_SIZE - pos =? 0); eauto.
Qed.

Lemma tc__detail_snprintf_none (text detail : string) (pos : Z) :
  DETAIL_SIZE < pos -> tc__detail_snprintf text (detail, pos) = None.
Proof.
  intros Hpos. unfold tc__detail_snprintf.
  destruct (Z.ltb_spec (DETAIL_SIZE - pos) 0); [reflexivity|lia].
Qed.

Section DetailFacts.
Context `{Platform}.


(** X22. The loop that fills [detail] (tc_write_junit_xml, testcracks.c,
    689-698) can run past the end of the array.  For a failed,
    well-formed result whose first error has a non-empty [expected] text:
    when the escaped message and the escaped expected text have more than
    [sizeof(detail) - 14] characters together, [pos] is beyond
    [sizeof(detail)] after the second [snprintf], so the third one is
    given a size that wrapped around and a pointer outside of the array
    (undefined behaviour).  Both texts may be within [TC_MAX_MSG_LEN]: a
    reserved character takes up to six characters once escaped. *)
Theorem failure_detail_overrun (name : string) (r : TestResult) :
  result_wf r -> tag r = TC_FAIL -> 0 < error_count r ->
  expected (errors r !!! 0%nat) <> EmptyString ->
  DETAIL_SIZE - 14
  < strlen (tc__xml_escape (Some (message (errors r !!! 0%nat))) ESCAPED_SIZE)
    + strlen (tc__xml_escape (Some (expected (errors r !!! 0%nat)))
                ESCAPED_SIZE) ->
  tc__xml_testcase name r = None.
Proof.
  intros [Hlen Hcnt] Htag Hcount Hexp Hover.
  unfold tc__xml_testcase. rewrite Htag.
  destruct (Z.ltb_spec 0 (error_count r)); [|lia].
  assert (Herrs : exists rest : list TestError,
            tc_errors r = errors r !!! 0%nat :: rest).
  { unfold tc_errors.
    destruct (errors r) as [|e es]; [cbn in Hlen; discriminate Hlen|].
    destruct (Z.to_nat (error_count r)) as [|n] eqn:En; [lia|].
    cbn. eauto. }
  destruct Herrs as [rest ->].
  set (e := errors r !!! 0%nat) in *.
  assert (Hrange : 6 <= ESCAPED_SIZE < SIZE_MODULUS)
    by (unfold ESCAPED_SIZE, TC_MAX_MSG_LEN, SIZE_MODULUS; lia).
  pose proof (tc__xml_escape_loop_bound (message e) ESCAPED_SIZE Hrange 0
                ltac:(lia)) as Hb1.
  pose proof (tc__xml_escape_loop_bound (expected e) ESCAPED_SIZE Hrange 0
                ltac:(lia)) as Hb2.
  change (tc__xml_escape_loop (message e) ESCAPED_SIZE 0)
    with (tc__xml_escape (Some (message e)) ESCAPED_SIZE) in Hb1.
  change (tc__xml_escape_loop (expected e) ESCAPED_SIZE 0)
    with (tc__xml_escape (Some (expected e)) ESCAPED_SIZE) in Hb2.
  set (x1 := tc__xml_escape (Some (message e)) ESCAPED_SIZE) in *.
  set (x2 := tc__xml_escape (Some (expected e)) ESCAPED_SIZE) in *.
  pose proof (strlen_nonneg x1). pose proof (strlen_nonneg x2).
  assert (Hsize : DETAIL_SIZE = 2048) by reflexivity.
  assert (Hesc : ESCAPED_SIZE = 1024) by reflexivity.
  cbn [tc__detail_loop snd].
  destruct (Z.ltb_spec 0 (DETAIL_SIZE - 100)); [|lia].
  assert (Hne : negb (String.eqb (expected e) EmptyString) = true).
  { destruct (String.eqb_spec (expected e) EmptyString); [contradiction|].
    reflexivity. }
  rewrite Hne. fold x1 x2.
  destruct (tc__detail_snprintf_some (x1 +:+ LF) EmptyString 0 ltac:(lia))
    as [d1 ->].
  cbn [mbind option_bind].
  destruct (tc__detail_snprintf_some ("  Expected: " +:+ x2 +:+ LF) d1
              (0 + strlen (x1 +:+ LF))) as [d2 ->].
  { rewrite strlen_app. change (strlen LF) with 1. lia. }
  cbn [mbind option_bind].
  rewrite tc__detail_snprintf_none; [reflexivity|].
  rewrite !strlen_app. change (strlen LF) with 1.
  change (strlen "  Expected: ") with 12. lia.
Qed.

End DetailFacts.


Lemma failure_detail_overrun_witness :
  let amps := str_repeat "&"%char 511 in
  @tc__xml_testcase demo_platform "t"
    (tc_fail_with (Some amps) (Some amps) (Some "x")) = None.
Proof.
  apply (@failure_detail_overrun demo_platform).
  - apply tc_fail_with_proper.
  - reflexivity.
  - reflexivity.
  - vm_compute. discriminate.
  - vm_compute. reflexivity.
Defined.

(** * Further properties: the command line *)

(** ** Substring matching *)

Lemma prefix_app_iff (p s : string) :
  String.prefix p s = true <-> exists t : string, s = p +:+ t.
Proof.
  revert s. induction p as [|a p IH]; intros s.
  - split; [intros _; exists s; reflexivity|intros _; now destruct s].
  - destruct s as [|b s].
    + split; [discriminate|intros [t Ht]; discriminate Ht].
    + change (String.prefix (String a p) (String b s))
        with (if ascii_dec a b then String.prefix p s else false).
      destruct (ascii_dec a b) as [->|Hne].
      * rewrite IH. split; intros [t Ht]; exists t.
        -- exact (f_equal (String b) Ht).
        -- now injection Ht.
      * split; [discriminate|]. intros [t Ht]. injection Ht as Hab _.
        congruence.
Qed.

(** X23. [tc__matches] (testcracks.c, 754-756) is containment: a name matches a
    pattern exactly when the pattern occurs somewhere in the name.  So the
    empty pattern matches every name, every name matches itself, and a
    pattern matches every name that a longer pattern matches. *)
Theorem tc__matches_spec (str pattern : string) :
  (tc__matches str pattern = true
   <-> exists pre post : string, str = pre +:+ pattern +:+ post) /\
  tc__matches str EmptyString = true /\
  tc__matches str str = true /\
  (forall longer : string,
     tc__matches longer pattern = true -> tc__matches str longer = true ->
     tc__matches str pattern = true).
Proof.
  assert (Hiff : forall s p : string,
            strstr s p = true
            <-> exists pre post : string, s = pre +:+ p +:+ post).
  { intros s p. split.
    - induction s as [|c s IH]; cbn [strstr]; rewrite orb_true_iff;
        intros [Hp|Hr]; try discriminate.
      + apply prefix_app_iff in Hp as [t Ht]. exists EmptyString, t. exact Ht.
      + apply prefix_app_iff in Hp as [t Ht]. exists EmptyString, t. exact Ht.
      + destruct (IH Hr) as (pre & post & ->).
        exists (String c pre), post. reflexivity.
    - intros (pre & post & ->).
      induction pre as [|c pre IH].
      + change (EmptyString +:+ p +:+ post) with (p +:+ post).
        assert (Hp : String.prefix p (p +:+ post) = true)
          by (apply prefix_app_iff; eauto).
        destruct (p +:+ post); cbn [strstr]; now rewrite Hp.
      + change (String c pre +:+ p +:+ post)
          with (String c (pre +:+ p +:+ post)).
        cbn [strstr]. rewrite IH. apply orb_true_r. }
  unfold tc__matches.
  split; [apply Hiff|]. split; [|split].
  - apply Hiff. exists EmptyString, str. reflexivity.
  - apply Hiff. exists EmptyString, EmptyString.
    symmetry. apply string_app_nil_r.
  - intros longer Hl Hs.
    apply Hiff in Hl as (p1 & q1 & ->). apply Hiff in Hs as (p2 & q2 & ->).
    apply Hiff. exists (p2 +:+ p1), (q1 +:+ q2).
    now rewrite !string_app_assoc.
Qed.

Section MainMore.
Context `{Platform}.

(** ** [--list] *)

Lemma prints_refl (m : Machine) : prints m m [].
Proof.
  unfold prints. cbn [map]. rewrite app_nil_r. now destruct m.
Qed.

Lemma prints_trans (m1 m2 m3 : Machine) (l1 l2 : list string) :
  prints m1 m2 l1 -> prints m2 m3 l2 -> prints m1 m3 (l1 ++ l2).
Proof.
  unfold prints. intros -> ->.
  cbn [world trace tc__results tc__result_counts].
  now rewrite map_app, app_assoc.
Qed.

Lemma prints_printf (text : string) (m : Machine) :
  prints m (printf text m) [text].
Proof. reflexivity. Qed.

Lemma prints_list_suite_tests (ts : list Test) :
  forall m : Machine,
    prints m (tc__list_suite_tests ts m)
      (map (fun t : Test =>
              "  - " +:+ test_name t
              +:+ match fn t with
                  | Some _ => EmptyString
                  | None => " [skip]"
                  end +:+ LF) ts).
Proof.
  induction ts as [|t ts IH]; intros m; cbn [tc__list_suite_tests map].
  - apply prints_refl.
  - eapply (prints_trans _ _ _ [_]); [apply prints_printf|apply IH].
Qed.

Lemma prints_list_tests (suites : list Suite) :
  forall m : Machine,
    prints m (tc__list_tests suites m) (tc__listing suites).
Proof.
  induction suites as [|s suites IH]; intros m;
    cbn [tc__list_tests tc__listing map concat].
  - apply prints_refl.
  - eapply (prints_trans _ _ _ (_ :: _)); [|apply IH].
    eapply (prints_trans _ _ _ [_]);
      [apply prints_printf|apply prints_list_suite_tests].
Qed.

(** X24. With [--list] (and no [--help]) [tc_main] (testcracks.c, 743-752,
    797-800) prints the name of every suite and of every test of it,
    marking the tests without a function, and returns 0.  It runs no user
    code and stores nothing; the filters are not applied and neither is the
    limit of [TC_MAX_SUITES] suites.  When a report file is named it was
    created before, and is left empty. *)
Theorem list_runs_nothing (argv : list string) (suites : list Suite)
    (o : Options) (m m1 : Machine) :
  tc__parse_args (tail argv) no_options = ParseRun o ->
  list_only o = true ->
  xml_ready o m m1 ->
  tc_main argv suites m
  = Some (0, {| world := world m1;
                trace := trace m1 ++ map EvStdout (tc__listing suites);
                tc__results := tc__results m1;
                tc__result_counts := tc__result_counts m1 |}) /\
  user_calls (map EvStdout (tc__listing suites)) = [].
Proof.
  intros Hparse Hlist Hready. unfold tc_main. rewrite Hparse.
  rewrite (tc__main_parsed_ready o suites m m1 Hready), Hlist.
  split.
  - f_equal. f_equal. apply prints_list_tests.
  - induction (tc__listing suites) as [|l ls IH]; [reflexivity|exact IH].
Qed.

End MainMore.

Lemma list_runs_nothing_witness :
  (fun x => (fst x, world (snd x), trace (snd x)))
  <$> @tc_main demo_platform ["prog"; "--match"; "zzz"; "--list"]
        [demo_suite_A;
         @tc_suite demo_platform "B"
           [@tc_skip_test demo_platform "t3" (Some "later")]]
        demo_machine
  = Some (0, [],
          [EvStdout ("A:" +:+ LF); EvStdout ("  - t1" +:+ LF);
           EvStdout ("  - t2" +:+ LF); EvStdout ("B:" +:+ LF);
           EvStdout ("  - t3 [skip]" +:+ LF)]).
Proof.
  destruct (@list_runs_nothing demo_platform
              ["prog"; "--match"; "zzz"; "--list"]
              [demo_suite_A;
               @tc_suite demo_platform "B"
                 [@tc_skip_test demo_platform "t3" (Some "later")]]
              {| suite_filter := None; test_filter := None;
                 match_filter := Some "zzz"; xml_file := None;
                 list_only := true |}
              demo_machine demo_machine eq_refl eq_refl eq_refl)
    as [Hmain _].
  rewrite Hmain. reflexivity.
Defined.

Section RunAndReport.
Context `{Platform}.

(** ** More suites than the counts array holds *)

Lemma tc__xml_suites_out_of_range (suites : list Suite) (m : Machine) :
  forall i : nat,
    (i <= length (tc__result_counts m) < i + length suites)%nat ->
    tc__xml_suites suites i m = None.
Proof.
  induction suites as [|s suites IH]; intros i Hrange;
    [cbn [length] in Hrange; lia|].
  cbn [tc__xml_suites length] in *.
  destruct (tc__xml_suite i s m) as [one|] eqn:Hone; [|reflexivity].
  cbn [mbind option_bind].
  rewrite IH; [reflexivity|].
  unfold tc__xml_suite in Hone.
  destruct (tc__result_counts m !! i) as [count|] eqn:Hc; [|discriminate].
  apply lookup_lt_Some in Hc. lia.
Qed.

Lemma tc__run_all_ex_counts_length (suites : list Suite) (store : bool)
    (m : Machine) :
  length (tc__result_counts (snd (tc__run_all_ex suites store m)))
  = Z.to_nat TC_MAX_SUITES.
Proof.
  unfold tc__run_all_ex.
  pose proof (quiet_get_time (tc__reset_counts m)) as (_ & Hc1 & _).
  destruct (tc__get_time_ms (tc__reset_counts m)) as [start m1].
  pose proof (store_kept_run_suites suites store 0%nat zero_summary m1)
    as (_ & Hl2 & _).
  destruct (tc__run_suites suites 0 store zero_summary m1) as [total m2].
  pose proof (quiet_get_time m2) as (_ & Hc3 & _).
  destruct (tc__get_time_ms m2) as [stop m3]. cbn [snd] in *.
  rewrite Hc3, Hl2, Hc1. cbn [tc__reset_counts tc__result_counts].
  apply length_replicate.
Qed.

(** X25. [tc_write_junit_xml] (testcracks.c, 627-726) reads
    [tc__result_counts[i]] for every suite it is given, and the array has
    [TC_MAX_SUITES] entries: after a run of [tc_run_all] over more suites
    than that, writing the report of these suites reads outside of the
    array (undefined behaviour) once the file is open.  [tc_main] is not
    affected, because its filter loop never passes on more than
    [TC_MAX_SUITES] suites. *)
Theorem report_of_too_many_suites (filename : string) (suites : list Suite)
    (summary : RunSummary) (m : Machine) (w : World) :
  (Z.to_nat TC_MAX_SUITES < length suites)%nat ->
  fopen_w filename (world (snd (tc_run_all suites m))) = Some w ->
  tc_write_junit_xml filename suites summary (snd (tc_run_all suites m))
  = None /\
  (forall (o : Options) (all : list Suite),
     (length (tc__filter_suites o all []) <= Z.to_nat TC_MAX_SUITES)%nat).
Proof.
  intros Hmany Hopen. split.
  - unfold tc_write_junit_xml. rewrite Hopen.
    unfold tc__xml_document.
    rewrite tc__xml_suites_out_of_range; [reflexivity|].
    cbn [set_world emit tc__result_counts].
    unfold tc_run_all. rewrite tc__run_all_ex_counts_length. lia.
  - intros o all.
    pose proof (tc__filter_suites_length o all []
                  ltac:(unfold TC_MAX_SUITES; cbn; lia)). lia.
Qed.

(** ** Without filters *)

(** X26. Without [--suite], [--test] and [--match] the filter loop of [tc_main]
    (testcracks.c, 802-837) passes on the first [TC_MAX_SUITES] suites as
    they are and drops the others without notice: the run and the report
    are those of the first [TC_MAX_SUITES] suites. *)
Theorem tc_main_without_filters (argv : list string) (suites : list Suite)
    (o : Options) (m : Machine) :
  tc__parse_args (tail argv) no_options = ParseRun o ->
  suite_filter o = None -> test_filter o = None -> match_filter o = None ->
  tc__filter_suites o suites [] = take (Z.to_nat TC_MAX_SUITES) suites /\
  (list_only o = false ->
   tc_main argv suites m
   = tc_main argv (take (Z.to_nat TC_MAX_SUITES) suites) m).
Proof.
  intros Hparse Hs Ht Hm.
  assert (Hfilter : forall l : list Suite,
            tc__filter_suites o l [] = take (Z.to_nat TC_MAX_SUITES) l).
  { intros l.
    rewrite (tc__filter_suites_take o l [])
      by (unfold TC_MAX_SUITES; cbn; lia).
    cbn [app length]. rewrite Nat.sub_0_r. f_equal.
    induction l as [|s l IH]; [reflexivity|].
    cbn [List.filter].
    unfold tc__suite_selected at 1. rewrite Hs, Ht, Hm. cbn.
    unfold tc__selected_suite at 1. rewrite Ht, Hm. cbn.
    f_equal. exact IH. }
  split; [apply Hfilter|].
  intros Hlist. unfold tc_main. rewrite Hparse.
  unfold tc__main_parsed, tc__main_run. rewrite Hlist.
  rewrite !Hfilter, take_take, Nat.min_id. reflexivity.
Qed.

(** ** The exit code and a report that cannot be written *)

(** X27. The exit code of [tc_main] (testcracks.c, 758-853) when it runs tests:
    after the argument scan, with the report file created if one is named
    and at least one suite selected, [tc_main] returns 1 if the run counted
    a failure (the tests of a suite whose setup failed included) and 0 if
    not, skipped tests never count.  A report that cannot be opened after
    the run changes nothing of this: [tc_write_junit_xml] prints its
    message to the standard error stream, the line "Results written to"
    is not printed, and the summary and the exit code are as without a
    report. *)
Theorem tc_main_exit_code (argv : list string) (suites : list Suite)
    (o : Options) (m m1 : Machine) :
  tc__parse_args (tail argv) no_options = ParseRun o ->
  list_only o = false ->
  xml_ready o m m1 ->
  tc__filter_suites o suites [] <> [] ->
  let filtered := tc__filter_suites o suites [] in
  let run := tc__run_all_ex filtered true m1 in
  let code := if 0 <? failed (fst run) then 1 else 0 in
  (forall (c : Z) (m' : Machine),
     tc_main argv suites m = Some (c, m') -> c = code) /\
  (xml_file o = None ->
   tc_main argv suites m = Some (tc_print_summary (fst run) (snd run))) /\
  (forall path : string,
     xml_file o = Some path ->
     fopen_w path (world (snd run)) = None ->
     tc_main argv suites m
     = Some (code,
             snd (tc_print_summary (fst run)
                    (emit (EvStderr ("Error: Cannot open file '" +:+ path
                                     +:+ "' for writing" +:+ LF))
                       (emit (EvFopen path false) (snd run)))))).
Proof.
  intros Hparse Hlist Hready Hsome. cbn zeta.
  unfold tc_main. rewrite Hparse.
  rewrite (tc__main_parsed_ready o suites m m1 Hready), Hlist.
  unfold tc__main_run.
  destruct (tc__filter_suites o suites []) as [|s0 rest] eqn:Hf;
    [contradiction|].
  cbn [length]. rewrite Nat2Z.inj_succ.
  destruct (Z.eqb_spec (Z.succ (Z.of_nat (length rest))) 0); [lia|].
  destruct (tc__run_all_ex (s0 :: rest) true m1) as [summary m2].
  cbn [fst snd].
  split; [|split].
  - intros c m'. destruct (xml_file o) as [path|].
    + destruct (tc_write_junit_xml path (s0 :: rest) summary m2)
        as [[ret m3]|]; [|discriminate].
      cbn [mbind option_bind]. intros [= <- _]. reflexivity.
    + cbn [mbind option_bind]. intros [= <- _]. reflexivity.
  - intros ->. reflexivity.
  - intros path -> Hopen. unfold tc_write_junit_xml. rewrite Hopen.
    cbn [mbind option_bind]. reflexivity.
Qed.

End RunAndReport.

Lemma report_of_too_many_suites_witness :
  let suites := replicate 65 (@tc_suite demo_platform "s" []) in
  @tc_write_junit_xml demo_platform "report.xml" suites zero_summary
    (snd (@tc_run_all demo_platform suites demo_machine))
  = None.
Proof.
  apply (@report_of_too_many_suites demo_platform "report.xml"
           (replicate 65 (@tc_suite demo_platform "s" [])) zero_summary
           demo_machine []).
  - rewrite length_replicate. apply Nat.ltb_lt. reflexivity.
  - reflexivity.
Defined.

Lemma tc_main_without_filters_witness :
  length (@tc__filter_suites demo_platform no_options
            (replicate 70 demo_suite_B) []) = 64%nat.
Proof.
  destruct (@tc_main_without_filters demo_platform ["prog"]
              (replicate 70 demo_suite_B) no_options demo_machine
              eq_refl eq_refl eq_refl eq_refl) as [Hf _].
  rewrite Hf. reflexivity.
Defined.

Lemma tc_main_exit_code_witness :
  (fun x => (fst x,
             List.filter
               (fun e => match e with
                         | EvStderr _ | EvFopen _ _ => true
                         | _ => false
                         end) (trace (snd x))))
  <$> @tc_main fragile_platform ["prog"; "--xml"; "r.xml"] [fragile_suite]
        fragile_machine
  = Some (0, [EvFopen "r.xml" true; EvFopen "r.xml" false;
              EvStderr ("Error: Cannot open file 'r.xml' for writing"
                        +:+ LF)]).
Proof.
  destruct (@tc_main_exit_code fragile_platform
              ["prog"; "--xml"; "r.xml"] [fragile_suite]
              {| suite_filter := None; test_filter := None;
                 match_filter := None; xml_file := Some "r.xml";
                 list_only := false |}
              fragile_machine
              (@tc__precreated fragile_platform "r.xml" [] fragile_machine)
              eq_refl eq_refl
              (ex_intro _ [] (conj eq_refl eq_refl))
              ltac:(discriminate)) as (_ & _ & Hfail).
  rewrite (Hfail "r.xml" eq_refl eq_refl). vm_compute. reflexivity.
Defined.

(** * Further properties: guards, boolean checks and incomplete options *)


Section IncompleteOptions.
Context `{Platform}.

(** X29. An option of [tc_main] that lacks its value is skipped without a word
    (argument loop, testcracks.c, 770-786): [--suite], [--match] and
    [--xml] as the last argument and [--test] with less than two
    arguments behind it set nothing.  The argument behind such a [--test]
    is then read as an argument of its own, so [prog --test name] runs
    as [prog] does, every test of every suite, when [name] is not an
    option. *)
Theorem incomplete_options_are_ignored (o : Options) (v prog : string)
    (suites : list Suite) (m : Machine) :
  tc__parse_args ["--suite"] o = ParseRun o /\
  tc__parse_args ["--match"] o = ParseRun o /\
  tc__parse_args ["--xml"] o = ParseRun o /\
  tc__parse_args ["--test"] o = ParseRun o /\
  tc__parse_args ["--test"; v] o = tc__parse_args [v] o /\
  (tc__parse_args [v] no_options = ParseRun no_options ->
   tc_main [prog; "--test"; v] suites m = tc_main [prog] suites m).
Proof.
  repeat (split; [reflexivity|]).
  intros Hv. unfold tc_main. cbn [tail hd].
  change (tc__parse_args ["--test"; v] no_options)
    with (tc__parse_args [v] no_options).
  now rewrite Hv.
Qed.

End IncompleteOptions.

Lemma incomplete_options_are_ignored_witness :
  (fun x => user_calls (trace (snd x)))
  <$> @tc_main demo_platform ["prog"; "--test"; "A"]
        [demo_suite_A; demo_suite_B] demo_machine
  = Some [EvTest "t1"; EvTest "t2"; EvTest "t3"].
Proof.
  destruct (@incomplete_options_are_ignored demo_platform no_options "A"
              "prog" [demo_suite_A; demo_suite_B] demo_machine)
    as (_ & _ & _ & _ & _ & Hmain).
  rewrite (Hmain eq_refl). vm_compute. reflexivity.
Defined.

Section RunOrder.
Context `{Platform}.

Lemma tc__filter_suites_setup (o : Options) (suites : list Suite) :
  Forall (fun s => setup s = None) suites ->
  Forall (fun s => setup s = None) (tc__filter_suites o suites []).
Proof.
  intros Hs.
  rewrite (tc__filter_suites_take o suites [])
    by (unfold TC_MAX_SUITES; cbn; lia).
  cbn [app]. apply Forall_take.
  induction Hs as [|s suites Hhead _ IH]; [constructor|].
  cbn [List.filter]. destruct (tc__suite_selected o s); [|exact IH].
  cbn [map]. constructor; [|exact IH].
  unfold tc__selected_suite.
  destruct (bool_decide _ || bool_decide _); [exact Hhead|exact Hhead].
Qed.

(** X30. The user code that runs, and its order (tc_run_all, testcracks.c,
    562-585, and tc_main, 802-853), for suites without setup.
    [tc_run_all] calls, for each suite in the order given, the function of
    every test that has one, in the order of the suite, and then the
    teardown of the suite if it has one, before the first test of the next
    suite; tests without a function call nothing.  [tc_main], when it runs
    tests and writes no report, returns and has called exactly what
    [tc_run_all] calls for the suites its filter loop selected: no test
    that the filters left out is run, and the teardown of every selected
    suite is. *)
Theorem user_code_runs_in_order (suites : list Suite) (m : Machine) :
  Forall (fun s => setup s = None) suites ->
  calls_between m (snd (tc_run_all suites m))
    (concat (map suite_calls suites)) /\
  (forall (argv : list string) (o : Options),
     tc__parse_args (tail argv) no_options = ParseRun o ->
     list_only o = false -> xml_file o = None ->
     tc__filter_suites o suites [] <> [] ->
     exists (code : Z) (m' : Machine),
       tc_main argv suites m = Some (code, m') /\
       calls_between m m'
         (concat (map suite_calls (tc__filter_suites o suites [])))).
Proof.
  intros Hs. split; [unfold tc_run_all; now apply calls_run_all_ex|].
  intros argv o Hparse Hlist Hxml Hsome.
  unfold tc_main. rewrite Hparse.
  unfold tc__main_parsed, tc__main_run. rewrite Hxml, Hlist.
  pose proof (tc__filter_suites_setup o suites Hs) as Hfs.
  destruct (tc__filter_suites o suites []) as [|s0 rest] eqn:Hf;
    [contradiction|].
  cbn [length]. rewrite Nat2Z.inj_succ.
  destruct (Z.eqb_spec (Z.succ (Z.of_nat (length rest))) 0); [lia|].
  pose proof (calls_run_all_ex (s0 :: rest) true m Hfs) as Hrun.
  destruct (tc__run_all_ex (s0 :: rest) true m) as [summary m1].
  cbn [snd mbind option_bind] in *.
  pose proof (calls_print_summary summary m1) as Hprint.
  destruct (tc_print_summary summary m1) as [code m2]. cbn [snd] in Hprint.
  exists code, m2. split; [reflexivity|].
  eapply calls_trans_nil; [exact Hrun|exact Hprint].
Qed.

End RunOrder.

Lemma user_code_runs_in_order_witness :
  user_calls (trace (snd (@tc_run_all demo_platform
                            [@tc_suite_with demo_platform "A" None
                               (Some demo_teardown)
                               [@mkTest demo_platform "t1" (Some demo_passing)
                                  None;
                                @tc_skip_test demo_platform "t2" None];
                             demo_suite_B]
                            demo_machine)))
  = [EvTest "t1"; EvTeardown "A"; EvTest "t3"].
Proof.
  destruct (@user_code_runs_in_order demo_platform
              [@tc_suite_with demo_platform "A" None (Some demo_teardown)
                 [@mkTest demo_platform "t1" (Some demo_passing) None;
                  @tc_skip_test demo_platform "t2" None];
               demo_suite_B]
              demo_machine) as ((evs & Ht & Hc) & _).
  - repeat constructor.
  - rewrite Ht. exact Hc.
Defined.
